(** * Billing and invoice engine of the hospital back office

    A shallow embedding of the billing code of the repository:

    - [src/models/Invoice.js]: the invoice schema, its pre-save hook and the
      static [generateInvoiceNumber];
    - [src/controllers/billingController.js]: [createInvoice],
      [updateInvoicePayment], [generateConsultationInvoice] and
      [getBillingStatistics];
    - [src/controllers/walkInController.js]: the totals of a walk-in
      pharmacy invoice and [getWalkInInvoiceById];
    - [src/utils/errorHandlers.js]: [catchAsync].

    JavaScript numbers are IEEE-754 binary64 values: they are modelled by
    the primitive floats of the kernel, which are the same format with the
    same rounding.  A collection of the database is the list of its
    documents in insertion order.  A handler is a function from the request
    and the database to the response and the new database; it reads the
    clock once.

    What the requests carry: an id is a well-formed [ObjectId] or is
    missing, a numeric property of a JSON body is a number or is missing, a
    date is a valid date or is missing.

    What Mongoose does on [save]: every path of the document is validated
    against the schema, then the pre-save hook of the schema runs, then the
    document is written; a [Number] path does not hold [NaN]. *)

From Stdlib Require Import Floats ZArith NArith QArith List String Ascii Bool Lia.
From Stdlib Require Import DecimalString DecimalN DecimalFacts.
From Stdlib Require Import Sorted.
Import ListNotations.

Set Warnings "-inexact-float".

Close Scope Q_scope.
Local Open Scope string_scope.

(** ** JavaScript values *)

Module JS.

(** A JavaScript [Number]. *)
Definition Number := float.

(** [x || y] on numbers looks at the truthiness of [x]: a number is falsy
    when it is [0], [-0] or [NaN]. *)
Definition truthy (x : Number) : bool :=
  negb (PrimFloat.eqb x 0%float || PrimFloat.is_nan x).

Definition or_num (x y : Number) : Number := if truthy x then x else y.

(** A property that may be [undefined]; arithmetic on [undefined] gives [NaN]
    and [undefined] is falsy. *)
Definition toNumber (x : option Number) : Number :=
  match x with Some v => v | None => PrimFloat.nan end.

Definition truthy_opt (x : option Number) : bool :=
  match x with Some v => truthy v | None => false end.

(** [parseFloat] on a value that is already a number (or is missing):
    the number is printed and read back, which returns it unchanged apart
    from [-0], printed as ["0"]; [undefined] gives [NaN]. *)
Definition parseFloat (x : option Number) : Number :=
  match x with
  | Some v => if PrimFloat.eqb v 0%float then 0%float else v
  | None => PrimFloat.nan
  end.

(** [n.toString()] for a non-negative integer. *)
Definition toString (n : N) : string := NilEmpty.string_of_uint (N.to_uint n).

Fixpoint repeat_char (c : ascii) (n : nat) : string :=
  match n with
  | O => EmptyString
  | S k => String c (repeat_char c k)
  end.

(** [s.padStart(len, '0')]. *)
Definition padStart (len : nat) (c : ascii) (s : string) : string :=
  repeat_char c (len - String.length s) ++ s.

(** [s.slice(-k)]: the last [k] characters, the whole of a shorter string. *)
Definition slice_last (k : nat) (s : string) : string :=
  substring (String.length s - k) k s.

(** A string is truthy when it is not empty. *)
Definition truthy_str (s : string) : bool := negb (String.eqb s "").

Definition truthy_ostr (s : option string) : bool :=
  match s with Some v => truthy_str v | None => false end.

Definition lower_char (c : ascii) : ascii :=
  let n := nat_of_ascii c in
  if (65 <=? n)%nat && (n <=? 90)%nat then ascii_of_nat (n + 32) else c.

Definition upper_char (c : ascii) : ascii :=
  let n := nat_of_ascii c in
  if (97 <=? n)%nat && (n <=? 122)%nat then ascii_of_nat (n - 32) else c.

(** [s.toLowerCase()] on the ASCII letters. *)
Fixpoint toLowerCase (s : string) : string :=
  match s with
  | EmptyString => EmptyString
  | String c r => String (lower_char c) (toLowerCase r)
  end.

(** [s.includes(sub)]. *)
Fixpoint includes (sub s : string) : bool :=
  prefix sub s ||
  match s with
  | EmptyString => false
  | String _ r => includes sub r
  end.

(** [s.charAt(0).toUpperCase() + s.slice(1)]. *)
Definition capitalize (s : string) : string :=
  match s with
  | EmptyString => EmptyString
  | String c r => String (upper_char c) r
  end.

(** A string property inside a template literal: [undefined] prints as such. *)
Definition show (s : option string) : string :=
  match s with Some v => v | None => "undefined" end.

End JS.

(** ** Data model *)

(** A well-formed [ObjectId]. *)
Definition ObjectId := N.

(** A [Date]: the instant in milliseconds, with the calendar year and the
    month ([0] for January) that [getFullYear] and [getMonth] return. *)
Record Date := mkDate {
  getTime : Z;
  getFullYear : N;
  getMonth : N
}.

Inductive CustomerType := registered | walk_in.

Inductive PaymentStatus := paid | partial | unpaid.

Definition CustomerType_eqb (a b : CustomerType) : bool :=
  match a, b with
  | registered, registered | walk_in, walk_in => true
  | _, _ => false
  end.

Definition PaymentStatus_eqb (a b : PaymentStatus) : bool :=
  match a, b with
  | paid, paid | partial, partial | unpaid, unpaid => true
  | _, _ => false
  end.

(** [invoiceItemSchema]; an item of a request body has the same properties,
    each of which may be missing. *)
Record InvoiceItem := mkItem {
  description : option string;
  quantity : option JS.Number;
  unitPrice : option JS.Number;
  amount : option JS.Number;
  hsn : option string;
  gstRate : option JS.Number
}.

Record WalkInCustomer := mkWalkIn {
  wc_name : option string;
  wc_contactNumber : option string;
  wc_email : option string;
  wc_address : option string
}.

(** [invoiceSchema]. *)
Record Invoice := mkInvoice {
  _id : ObjectId;
  invoiceNumber : string;
  invoiceDate : Date;
  dueDate : option Date;
  customerType : CustomerType;
  patient : option ObjectId;
  walkInCustomer : option WalkInCustomer;
  doctor : option ObjectId;
  appointment : option ObjectId;
  prescription : option ObjectId;
  labTest : option ObjectId;
  invoiceType : string;
  items : list InvoiceItem;
  subtotal : JS.Number;
  gstNumber : string;
  gstPercentage : JS.Number;
  gstAmount : JS.Number;
  totalAmount : JS.Number;
  paidAmount : JS.Number;
  balanceDue : JS.Number;
  paymentMethod : string;
  paymentStatus : PaymentStatus;
  notes : option string;
  paymentDate : option Date;
  createdBy : ObjectId;
  hospital : ObjectId
}.

Record ConsultationFees := mkFees {
  standard : JS.Number;
  followUp : JS.Number;
  specialist : JS.Number;
  emergency : JS.Number
}.

(** [billingSettingsSchema] (the fields the billing code reads). *)
Record BillingSettings := mkSettings {
  bs_hospital : ObjectId;
  consultationFees : ConsultationFees;
  bs_gstNumber : string;
  bs_gstPercentage : JS.Number;
  invoicePrefix : string;
  updatedBy : option ObjectId
}.

(** The defaults of [billingSettingsSchema]. *)
Definition defaultSettings (h : ObjectId) (by_ : ObjectId) : BillingSettings :=
  {| bs_hospital := h;
     consultationFees :=
       {| standard := 500%float; followUp := 300%float;
          specialist := 1000%float; emergency := 1500%float |};
     bs_gstNumber := "29AADCB2230M1ZP";
     bs_gstPercentage := 18%float;
     invoicePrefix := "INV";
     updatedBy := Some by_ |}.

(** A doctor ([src/models/Doctor.js]). *)
Record Doctor := mkDoctor {
  doctor_id : ObjectId;
  specialization : string
}.

(** [doctor.firstName] and [doctor.lastName]: [doctorSchema] declares
    neither path (the names are those of the linked user), so that both
    are [undefined] on every doctor that is loaded or populated. *)
Definition firstName (d : Doctor) : option string := None.

Definition lastName (d : Doctor) : option string := None.

(** An appointment ([src/models/Appointment.js]), with its kind (the path
    [type]: regular, follow-up, emergency or teleconsultation), the date
    as [toLocaleDateString] prints it, and the time. *)
Record Appointment := mkAppointment {
  appointment_id : ObjectId;
  ap_patient : ObjectId;
  ap_doctor : ObjectId;
  ap_type : string;
  appointmentDate : string;
  appointmentTime : string
}.

(** [appointment.appointmentType]: [appointmentSchema] declares the path
    [type] and no path [appointmentType], so that the property is
    [undefined] on every appointment that is loaded. *)
Definition appointmentType (a : Appointment) : option string := None.

(** The collections. *)
Record DB := mkDB {
  invoices : list Invoice;
  patients : list ObjectId;
  doctors : list Doctor;
  hospitals : list ObjectId;
  appointments : list Appointment;
  settings : list BillingSettings
}.

Definition set_invoices (l : list Invoice) (db : DB) : DB :=
  {| invoices := l; patients := patients db; doctors := doctors db;
     hospitals := hospitals db; appointments := appointments db;
     settings := settings db |}.

Definition set_settings (l : list BillingSettings) (db : DB) : DB :=
  {| invoices := invoices db; patients := patients db; doctors := doctors db;
     hospitals := hospitals db; appointments := appointments db;
     settings := l |}.

(** ** The invoice model ([src/models/Invoice.js]) *)

Module InvoiceModel.

(** [Invoice.countDocuments(filter)]. *)
Definition countDocuments (f : Invoice -> bool) (l : list Invoice) : nat :=
  List.length (filter f l).

(** [Invoice.findOne(filter)]: the first match in the collection. *)
Definition findOne (f : Invoice -> bool) (l : list Invoice) : option Invoice :=
  find f l.

Definition findById (id : ObjectId) (l : list Invoice) : option Invoice :=
  find (fun i => N.eqb (_id i) id) l.

(** [invoiceSchema.statics.generateInvoiceNumber]: the count is taken over
    every invoice of the hospital. *)
Definition generateInvoiceNumber (prefix : string) (hospital_id : ObjectId)
    (now : Date) (coll : list Invoice) : string :=
  let count := countDocuments (fun i => N.eqb (hospital i) hospital_id) coll in
  let currentYear := JS.slice_last 2 (JS.toString (getFullYear now)) in
  let currentMonth := JS.padStart 2 "0" (JS.toString (getMonth now + 1)) in
  prefix ++ "-" ++ currentYear ++ currentMonth ++ "-" ++
  JS.padStart 4 "0" (JS.toString (N.of_nat count + 1)).

End InvoiceModel.

(** ** Saving an invoice document *)

Module Mongoose.

Local Open Scope float_scope.

Definition set_payment (inv : Invoice) (paid_ : JS.Number) (method_ : string)
    (date_ : option Date) : Invoice :=
  {| _id := _id inv; invoiceNumber := invoiceNumber inv;
     invoiceDate := invoiceDate inv; dueDate := dueDate inv;
     customerType := customerType inv; patient := patient inv;
     walkInCustomer := walkInCustomer inv; doctor := doctor inv;
     appointment := appointment inv; prescription := prescription inv;
     labTest := labTest inv; invoiceType := invoiceType inv;
     items := items inv; subtotal := subtotal inv;
     gstNumber := gstNumber inv; gstPercentage := gstPercentage inv;
     gstAmount := gstAmount inv; totalAmount := totalAmount inv;
     paidAmount := paid_; balanceDue := balanceDue inv;
     paymentMethod := method_; paymentStatus := paymentStatus inv;
     notes := notes inv; paymentDate := date_;
     createdBy := createdBy inv; hospital := hospital inv |}.

Definition set_derived (inv : Invoice) (balance_ : JS.Number)
    (status_ : PaymentStatus) (date_ : option Date) : Invoice :=
  {| _id := _id inv; invoiceNumber := invoiceNumber inv;
     invoiceDate := invoiceDate inv; dueDate := dueDate inv;
     customerType := customerType inv; patient := patient inv;
     walkInCustomer := walkInCustomer inv; doctor := doctor inv;
     appointment := appointment inv; prescription := prescription inv;
     labTest := labTest inv; invoiceType := invoiceType inv;
     items := items inv; subtotal := subtotal inv;
     gstNumber := gstNumber inv; gstPercentage := gstPercentage inv;
     gstAmount := gstAmount inv; totalAmount := totalAmount inv;
     paidAmount := paidAmount inv; balanceDue := balance_;
     paymentMethod := paymentMethod inv; paymentStatus := status_;
     notes := notes inv; paymentDate := date_;
     createdBy := createdBy inv; hospital := hospital inv |}.

(** [d || new Date()]: a [Date] object is truthy. *)
Definition or_date (d : option Date) (now : Date) : option Date :=
  match d with Some v => Some v | None => Some now end.

(** The payment state derived from the amounts, as the pre-save hook and
    [updateInvoicePayment] both write it:
    [if (paid <= 0) ... else if (paid < total) ... else ...]. *)
Definition derive (now : Date) (inv : Invoice) : Invoice :=
  let balance := totalAmount inv - paidAmount inv in
  if paidAmount inv <=? 0 then
    set_derived inv balance unpaid (paymentDate inv)
  else if paidAmount inv <? totalAmount inv then
    set_derived inv balance partial (paymentDate inv)
  else
    set_derived inv balance paid (or_date (paymentDate inv) now).

(** [invoiceSchema.pre('save', ...)]. *)
Definition preSave (now : Date) (inv : Invoice) : Invoice := derive now inv.

Definition paymentMethodEnum : list string :=
  ["Cash"; "UPI"; "Card"; "Insurance"; "Other"].

Definition invoiceTypeEnum : list string :=
  ["consultation"; "laboratory"; "pharmacy"].

Definition mem (s : string) (l : list string) : bool :=
  existsb (String.eqb s) l.

(** A [Number] path holds a number: [NaN] does not cast. *)
Definition castable (x : JS.Number) : bool := negb (PrimFloat.is_nan x).

(** The validators of [invoiceItemSchema]. *)
Definition validItem (it : InvoiceItem) : bool :=
  JS.truthy_ostr (description it) &&
  match quantity it with Some q => 1 <=? q | None => false end &&
  match unitPrice it with Some p => 0 <=? p | None => false end &&
  match amount it with Some a => castable a | None => false end &&
  match gstRate it with Some r => castable r | None => true end.

(** The validators of [invoiceSchema]: required paths, enumerations and
    minima.  Validation runs before the pre-save hook of the schema. *)
Definition validate (inv : Invoice) : bool :=
  JS.truthy_str (invoiceNumber inv) &&
  match customerType inv with
  | registered => match patient inv with Some _ => true | None => false end
  | walk_in =>
      match walkInCustomer inv with
      | Some c => JS.truthy_ostr (wc_name c)
      | None => false
      end
  end &&
  mem (invoiceType inv) invoiceTypeEnum &&
  forallb validItem (items inv) &&
  (0 <=? subtotal inv) &&
  castable (gstPercentage inv) &&
  castable (gstAmount inv) &&
  (0 <=? totalAmount inv) &&
  (0 <=? paidAmount inv) &&
  castable (balanceDue inv) &&
  mem (paymentMethod inv) paymentMethodEnum.

End Mongoose.

(** ** Errors and responses *)

Inductive Error :=
| AppError (message : string) (statusCode : nat)
| ValidationError
| DuplicateKeyError
| TypeError
| ReferenceError (message : string).

Module Store.

(** [doc.save()]: validation, then the pre-save hook, then the write.  A
    new document is inserted at the end of the collection unless its [_id]
    or its [invoiceNumber] (a unique index) is taken; an existing document
    replaces the stored one with its [_id]. *)
Definition save (now : Date) (isNew : bool) (doc : Invoice)
    (coll : list Invoice) : Error + (Invoice * list Invoice) :=
  if negb (Mongoose.validate doc) then inl ValidationError
  else
    let doc' := Mongoose.preSave now doc in
    if isNew then
      if existsb (fun i => N.eqb (_id i) (_id doc') ||
                           String.eqb (invoiceNumber i) (invoiceNumber doc'))
           coll
      then inl DuplicateKeyError
      else inr (doc', (coll ++ [doc'])%list)
    else
      inr (doc', map (fun i => if N.eqb (_id i) (_id doc') then doc' else i)
                   coll).

End Store.

(** ** Requests, responses and handlers *)

(** [req.user], as the authentication middleware fills it. *)
Record User := mkUser {
  userId : ObjectId;
  hospitalId : ObjectId
}.

(** What a request reads from outside the database: the clock, and the
    [_id] a document constructed by the request receives. *)
Record Env := mkEnv {
  now : Date;
  freshId : ObjectId
}.

Record Range := mkRange { range_start : Date; range_end : Date }.

(** The grouped rows of the statistics: key and accumulators. *)
Record GroupStats := mkGroup {
  g_key : string;
  g_count : nat;
  g_totalAmount : option JS.Number;
  g_paidAmount : option JS.Number;
  g_pendingAmount : option JS.Number
}.

Record Summary := mkSummary {
  totalInvoices : nat;
  s_totalAmount : JS.Number;
  s_paidAmount : JS.Number;
  pendingAmount : JS.Number
}.

Record Statistics := mkStatistics {
  period_name : string;
  period_range : Range;
  summary : Summary;
  byType : list GroupStats;
  byStatus : list GroupStats;
  byPaymentMethod : list GroupStats
}.

(** The JSON bodies the handlers send. *)
Inductive Body :=
| Undefined
| InvoiceCreated (data : Invoice)
| PaymentUpdated (data : Invoice)
| AlreadyExists (message : string) (invoiceId : ObjectId)
| StatisticsData (data : Statistics)
| WalkInData (data : Invoice)
| WalkInFailure (message : string).

(** What a handler does with the request: [res.status(s).json(body)], or
    [next(err)]. *)
Inductive Response :=
| Json (status : nat) (body : Body)
| Next (err : Error).

(** [catchAsync] of [src/utils/errorHandlers.js]: an exception of the
    wrapped handler goes to [next].  The wrapper itself returns nothing,
    whatever the handler returns. *)
Definition catchAsync {A : Type} (fn : A -> DB -> (Error + Response) * DB)
    (req : A) (db : DB) : Response * DB :=
  match fn req db with
  | (inl err, db') => (Next err, db')
  | (inr r, db') => (r, db')
  end.

Module BillingController.

Local Open Scope float_scope.

Record CreateInvoiceBody := mkCreateBody {
  patientId : option ObjectId;
  doctorId : option ObjectId;
  appointmentId : option ObjectId;
  prescriptionId : option ObjectId;
  labTestId : option ObjectId;
  b_invoiceType : option string;
  b_items : option (list InvoiceItem);
  b_notes : option string;
  b_paymentMethod : option string;
  b_paidAmount : option JS.Number;
  b_dueDate : option Date
}.

Record CreateInvoiceReq := mkCreateReq {
  cr_env : Env;
  cr_user : User;
  cr_body : CreateInvoiceBody
}.

(** [BillingSettings.findOne({hospital}) || BillingSettings.create(...)]. *)
Definition resolveSettings (u : User) (db : DB) : BillingSettings * DB :=
  match find (fun s => N.eqb (bs_hospital s) (hospitalId u)) (settings db) with
  | Some s => (s, db)
  | None =>
      let s := defaultSettings (hospitalId u) (userId u) in
      (s, set_settings (settings db ++ [s])%list db)
  end.

Record Totals := mkTotals {
  processedItems : list InvoiceItem;
  t_subtotal : JS.Number;
  t_gstAmount : JS.Number;
  t_totalAmount : JS.Number
}.

(** [{...item, amount: item.amount || (item.quantity * item.unitPrice)}]. *)
Definition processItem (item : InvoiceItem) : InvoiceItem :=
  {| description := description item;
     quantity := quantity item;
     unitPrice := unitPrice item;
     amount :=
       Some (if JS.truthy_opt (amount item) then JS.toNumber (amount item)
             else JS.toNumber (quantity item) * JS.toNumber (unitPrice item));
     hsn := hsn item;
     gstRate := gstRate item |}.

(** [calculateTotals] of [createInvoice]. *)
Definition calculateTotals (items : list InvoiceItem)
    (gstPercentage : JS.Number) : Totals :=
  let processedItems := map processItem items in
  let subtotal :=
    fold_left (fun sum item => sum + JS.toNumber (amount item))
      processedItems 0 in
  let gstAmount := (subtotal * gstPercentage) / 100 in
  let totalAmount := subtotal + gstAmount in
  {| processedItems := processedItems;
     t_subtotal := subtotal;
     t_gstAmount := gstAmount;
     t_totalAmount := totalAmount |}.

Definition missingFields : Response :=
  Next (AppError
    "Missing required fields: patientId, invoiceType, and items are required"
    400).

(** The body of [exports.createInvoice]. *)
Definition createInvoiceHandler (req : CreateInvoiceReq) (db : DB)
    : (Error + Response) * DB :=
  let env := cr_env req in
  let user := cr_user req in
  let body := cr_body req in
  match patientId body, b_invoiceType body, b_items body with
  | Some patientId, Some invoiceType, Some (item :: rest) =>
    if negb (JS.truthy_str invoiceType) then (inr missingFields, db)
    else if negb (existsb (N.eqb patientId) (patients db)) then
      (inr (Next (AppError "Patient not found" 404)), db)
    else if match doctorId body with
            | Some d => negb (existsb (fun x => N.eqb (doctor_id x) d)
                                (doctors db))
            | None => false
            end then
      (inr (Next (AppError "Doctor not found" 404)), db)
    else if negb (existsb (N.eqb (hospitalId user)) (hospitals db)) then
      (inr (Next (AppError "Hospital not found" 404)), db)
    else
      let (billingSettings, db1) := resolveSettings user db in
      let invoiceNumber :=
        InvoiceModel.generateInvoiceNumber (invoicePrefix billingSettings)
          (hospitalId user) (now env) (invoices db1) in
      let totals :=
        calculateTotals (item :: rest) (bs_gstPercentage billingSettings) in
      let paidAmt := JS.or_num (JS.parseFloat (b_paidAmount body)) 0 in
      let balanceDue := t_totalAmount totals - paidAmt in
      let paymentStatus :=
        if paidAmt =? 0 then unpaid
        else if paidAmt <? t_totalAmount totals then partial else paid in
      let invoice :=
        {| _id := freshId env;
           invoiceNumber := invoiceNumber;
           invoiceDate := now env;
           dueDate := b_dueDate body;
           customerType := registered;
           patient := Some patientId;
           walkInCustomer := None;
           doctor := doctorId body;
           appointment := appointmentId body;
           prescription := prescriptionId body;
           labTest := labTestId body;
           invoiceType := invoiceType;
           items := processedItems totals;
           subtotal := t_subtotal totals;
           gstNumber := bs_gstNumber billingSettings;
           gstPercentage := bs_gstPercentage billingSettings;
           gstAmount := t_gstAmount totals;
           totalAmount := t_totalAmount totals;
           paidAmount := paidAmt;
           balanceDue := balanceDue;
           paymentMethod :=
             match b_paymentMethod body with Some m => m | None => "Cash" end;
           paymentStatus := paymentStatus;
           notes := b_notes body;
           paymentDate :=
             if PaymentStatus_eqb paymentStatus paid then Some (now env)
             else None;
           createdBy := userId user;
           hospital := hospitalId user |} in
      match Store.save (now env) true invoice (invoices db1) with
      | inl err => (inl err, db1)
      | inr (saved, coll) =>
          (inr (Json 201 (InvoiceCreated saved)), set_invoices coll db1)
      end
  | _, _, _ => (inr missingFields, db)
  end.

Definition createInvoice : CreateInvoiceReq -> DB -> Response * DB :=
  catchAsync createInvoiceHandler.

Record PaymentBody := mkPaymentBody {
  p_paidAmount : option JS.Number;
  p_paymentMethod : option string;
  p_paymentDate : option Date
}.

Record PaymentReq := mkPaymentReq {
  pr_env : Env;
  pr_id : ObjectId;
  pr_body : PaymentBody
}.

(** The payment details of the request written on the document
    (lines 344-355). *)
Definition applyPayment (body : PaymentBody) (invoice : Invoice) : Invoice :=
  Mongoose.set_payment invoice
    (match p_paidAmount body with
     | Some _ => JS.parseFloat (p_paidAmount body)
     | None => paidAmount invoice
     end)
    (match p_paymentMethod body with
     | Some m => if JS.truthy_str m then m else paymentMethod invoice
     | None => paymentMethod invoice
     end)
    (match p_paymentDate body with
     | Some d => Some d
     | None => paymentDate invoice
     end).

(** The body of [exports.updateInvoicePayment]. *)
Definition updateInvoicePaymentHandler (req : PaymentReq) (db : DB)
    : (Error + Response) * DB :=
  match InvoiceModel.findById (pr_id req) (invoices db) with
  | None => (inr (Next (AppError "Invoice not found" 404)), db)
  | Some invoice =>
      let invoice := applyPayment (pr_body req) invoice in
      let invoice := Mongoose.derive (now (pr_env req)) invoice in
      match Store.save (now (pr_env req)) false invoice (invoices db) with
      | inl err => (inl err, db)
      | inr (saved, coll) =>
          (inr (Json 200 (PaymentUpdated saved)), set_invoices coll db)
      end
  end.

Definition updateInvoicePayment : PaymentReq -> DB -> Response * DB :=
  catchAsync updateInvoicePaymentHandler.

Record ConsultationBody := mkConsultationBody {
  c_appointmentId : option ObjectId;
  c_paymentMethod : option string;
  c_paidAmount : option JS.Number
}.

Record ConsultationReq := mkConsultationReq {
  co_env : Env;
  co_user : User;
  co_body : ConsultationBody
}.

(** [appointment.appointmentType?.toLowerCase() || 'standard']. *)
Definition appointmentTypeOf (a : Appointment) : string :=
  match appointmentType a with
  | Some t => if JS.truthy_str (JS.toLowerCase t) then JS.toLowerCase t
              else "standard"
  | None => "standard"
  end.

(** The fee of the appointment type (lines 414-423). *)
Definition feeFor (fees : ConsultationFees) (appointmentType : string)
    : JS.Number :=
  if JS.includes "follow" appointmentType then followUp fees
  else if JS.includes "specialist" appointmentType then specialist fees
  else if JS.includes "emergency" appointmentType then emergency fees
  else standard fees.

Definition alreadyExists (existing : Invoice) : Response :=
  Json 400
    (AlreadyExists "Invoice already exists for this appointment"
       (_id existing)).

(** The body of [exports.generateConsultationInvoice].  The populated
    [patient] and [doctor] of the appointment are [null] when the referenced
    document is missing, and reading a property of [null] throws.  The call
    of [exports.createInvoice] goes through [catchAsync] with a response
    stub and an empty [next]: what it answers is lost, and the handler
    sends status 201 with the [undefined] the wrapper returns.  The wrapper
    does not hand back the promise of the creation either: the creation is
    taken here as run to its end before the next request is served. *)
Definition generateConsultationInvoiceHandler (req : ConsultationReq)
    (db : DB) : (Error + Response) * DB :=
  let user := co_user req in
  let body := co_body req in
  match c_appointmentId body with
  | None => (inr (Next (AppError "Appointment ID is required" 400)), db)
  | Some appointmentId =>
    match find (fun a => N.eqb (appointment_id a) appointmentId)
            (appointments db) with
    | None => (inr (Next (AppError "Appointment not found" 404)), db)
    | Some appointmentDoc =>
      let populatedPatient :=
        find (N.eqb (ap_patient appointmentDoc)) (patients db) in
      let populatedDoctor :=
        find (fun d => N.eqb (doctor_id d) (ap_doctor appointmentDoc))
          (doctors db) in
      match InvoiceModel.findOne
              (fun i => match appointment i with
                        | Some a => N.eqb a appointmentId
                        | None => false
                        end) (invoices db) with
      | Some existingInvoice => (inr (alreadyExists existingInvoice), db)
      | None =>
        let (billingSettings, db1) := resolveSettings user db in
        let appointmentType := appointmentTypeOf appointmentDoc in
        let feeAmount :=
          feeFor (consultationFees billingSettings) appointmentType in
        match populatedDoctor with
        | None => (inl TypeError, db1)
        | Some doctor =>
          let items :=
            [ {| description :=
                   Some (JS.capitalize appointmentType ++
                         " Consultation with " ++ JS.show (firstName doctor)
                         ++ " " ++ JS.show (lastName doctor))%string;
                 quantity := Some 1;
                 unitPrice := Some feeAmount;
                 amount := Some feeAmount;
                 hsn := Some "998331"%string;
                 gstRate := Some (bs_gstPercentage billingSettings) |} ] in
          match populatedPatient with
          | None => (inl TypeError, db1)
          | Some patient_id =>
            let invoiceData :=
              {| patientId := Some patient_id;
                 doctorId := Some (doctor_id doctor);
                 appointmentId := Some appointmentId;
                 prescriptionId := None;
                 labTestId := None;
                 b_invoiceType := Some "consultation"%string;
                 b_items := Some items;
                 b_notes :=
                   Some ("Consultation on " ++ appointmentDate appointmentDoc
                         ++ ", " ++ appointmentTime appointmentDoc)%string;
                 b_paymentMethod :=
                   Some (match c_paymentMethod body with
                         | Some m => if JS.truthy_str m then m else "Cash"
                         | None => "Cash"
                         end)%string;
                 b_paidAmount :=
                   Some (JS.or_num (JS.parseFloat (c_paidAmount body)) 0);
                 b_dueDate := None |} in
            let (_, db2) :=
              createInvoice
                {| cr_env := co_env req; cr_user := user;
                   cr_body := invoiceData |} db1 in
            (inr (Json 201 Undefined), db2)
          end
        end
      end
    end
  end.

Definition generateConsultationInvoice
    : ConsultationReq -> DB -> Response * DB :=
  catchAsync generateConsultationInvoiceHandler.

(** The six ranges [getDateRanges] derives from the clock. *)
Record DateRanges := mkRanges {
  today : Range;
  yesterday : Range;
  thisWeek : Range;
  thisMonth : Range;
  lastMonth : Range;
  thisYear : Range
}.

Record StatisticsReq := mkStatisticsReq {
  st_user : User;
  st_period : option string;
  st_ranges : DateRanges
}.

(** [dateRanges[period] || dateRanges.thisMonth]. *)
Definition selectRange (r : DateRanges) (period : string) : Range :=
  if String.eqb period "today" then today r
  else if String.eqb period "yesterday" then yesterday r
  else if String.eqb period "thisWeek" then thisWeek r
  else if String.eqb period "lastMonth" then lastMonth r
  else if String.eqb period "thisYear" then thisYear r
  else thisMonth r.

(** The names bound at the top level of [billingController.js]: its eleven
    [require]s and [getDateRanges]. *)
Definition moduleScope : list string :=
  ["Invoice"; "BillingSettings"; "Appointment"; "Patient"; "Doctor";
   "Prescription"; "LabTest"; "Hospital"; "logger"; "catchAsync";
   "AppError"; "getDateRanges"]%string.

Definition isBound (name : string) : bool := Mongoose.mem name moduleScope.

(** [$match]: the hospital and [$gte start], [$lte end] on [invoiceDate]. *)
Definition matches (h : ObjectId) (r : Range) (i : Invoice) : bool :=
  N.eqb (hospital i) h &&
  (getTime (range_start r) <=? getTime (invoiceDate i))%Z &&
  (getTime (invoiceDate i) <=? getTime (range_end r))%Z.

(** [{ $sum: '$field' }]. *)
Definition sumOf (f : Invoice -> JS.Number) (docs : list Invoice)
    : JS.Number :=
  fold_left (fun acc i => acc + f i) docs 0.

(** [$group] with [_id: null]: one row when a document matched, none
    otherwise; then the default of the handler. *)
Definition summarize (docs : list Invoice) : Summary :=
  match docs with
  | [] => {| totalInvoices := 0; s_totalAmount := 0; s_paidAmount := 0;
             pendingAmount := 0 |}
  | _ :: _ =>
      {| totalInvoices := List.length docs;
         s_totalAmount := sumOf totalAmount docs;
         s_paidAmount := sumOf paidAmount docs;
         pendingAmount := sumOf balanceDue docs |}
  end.

Fixpoint distinct (l : list string) : list string :=
  match l with
  | [] => []
  | x :: r => x :: filter (fun y => negb (String.eqb x y)) (distinct r)
  end.

(** [$group] by a key, the groups in order of first appearance. *)
Definition groupBy (key : Invoice -> string)
    (row : string -> list Invoice -> GroupStats) (docs : list Invoice)
    : list GroupStats :=
  map (fun k => row k (filter (fun i => String.eqb (key i) k) docs))
      (distinct (map key docs)).

(** The accumulators of the three grouped pipelines. *)
Definition typeRow (k : string) (g : list Invoice) : GroupStats :=
  {| g_key := k; g_count := List.length g;
     g_totalAmount := Some (sumOf totalAmount g);
     g_paidAmount := Some (sumOf paidAmount g);
     g_pendingAmount := Some (sumOf balanceDue g) |}.

Definition statusRow (k : string) (g : list Invoice) : GroupStats :=
  {| g_key := k; g_count := List.length g;
     g_totalAmount := Some (sumOf totalAmount g);
     g_paidAmount := None;
     g_pendingAmount := None |}.

Definition methodRow (k : string) (g : list Invoice) : GroupStats :=
  {| g_key := k; g_count := List.length g;
     g_totalAmount := None;
     g_paidAmount := Some (sumOf paidAmount g);
     g_pendingAmount := None |}.

Definition statusName (s : PaymentStatus) : string :=
  match s with
  | paid => "paid" | partial => "partial" | unpaid => "unpaid"
  end.

(** The body of [exports.getBillingStatistics].  Building the [$match]
    stage evaluates [mongoose.Types.ObjectId(hospitalId)]; the name
    [mongoose] is resolved in the scope of the module. *)
Definition getBillingStatisticsHandler (req : StatisticsReq) (db : DB)
    : (Error + Response) * DB :=
  let period :=
    match st_period req with Some p => p | None => "thisMonth"%string end in
  let selectedRange := selectRange (st_ranges req) period in
  if negb (isBound "mongoose") then
    (inl (ReferenceError "mongoose is not defined"), db)
  else
    let docs :=
      filter (matches (hospitalId (st_user req)) selectedRange)
        (invoices db) in
    (inr (Json 200 (StatisticsData
       {| period_name := period;
          period_range := selectedRange;
          summary := summarize docs;
          byType := groupBy invoiceType typeRow docs;
          byStatus :=
            groupBy (fun i => statusName (paymentStatus i)) statusRow docs;
          byPaymentMethod := groupBy paymentMethod methodRow docs |})), db).

Definition getBillingStatistics : StatisticsReq -> DB -> Response * DB :=
  catchAsync getBillingStatisticsHandler.

End BillingController.

(** ** The walk-in controller ([src/controllers/walkInController.js]) *)

Module WalkInController.

Local Open Scope float_scope.

(** [req.user] as this controller reads it: [req.user.hospital], the
    hospital of the requesting user. *)
Record WalkInUser := mkWalkInUser {
  wu_hospital : ObjectId
}.

Record WalkInTotals := mkWalkInTotals {
  w_subtotal : JS.Number;
  w_gstAmount : JS.Number;
  w_totalAmount : JS.Number
}.

(** The totals of [createPharmacyInvoice] (lines 78-81). *)
Definition pharmacyTotals (invoiceItems : list InvoiceItem)
    (gstPercentage : JS.Number) : WalkInTotals :=
  let subtotal :=
    fold_left (fun total item => total + JS.toNumber (amount item))
      invoiceItems 0 in
  let gstAmount := (subtotal * gstPercentage) / 100 in
  let totalAmount := subtotal + gstAmount in
  {| w_subtotal := subtotal; w_gstAmount := gstAmount;
     w_totalAmount := totalAmount |}.

(** The filter of [getWalkInInvoiceById]: [_id], [hospital] and
    [customerType: 'walk-in']. *)
Definition walkInFilter (user : WalkInUser) (id : ObjectId) (i : Invoice)
    : bool :=
  N.eqb (_id i) id &&
  N.eqb (hospital i) (wu_hospital user) &&
  CustomerType_eqb (customerType i) walk_in.

(** [exports.getWalkInInvoiceById]. *)
Definition getWalkInInvoiceById (user : WalkInUser) (id : ObjectId)
    (db : DB) : Response :=
  match InvoiceModel.findOne (walkInFilter user id) (invoices db) with
  | None => Json 404 (WalkInFailure "Invoice not found")
  | Some invoice => Json 200 (WalkInData invoice)
  end.

End WalkInController.

(** ** The other handlers of the billing controller *)

(** What a handler answers when its body is one kind of data:
    [res.status(s).json({..., data})], or [next(err)]. *)
Inductive Reply (A : Type) : Type :=
| Sent (status : nat) (data : A)
| Forwarded (err : Error).

Arguments Sent {A} status data.
Arguments Forwarded {A} err.

Module BillingQueries.

Import BillingController.

(** [exports.getBillingSettings]: the record of the hospital, created with
    the defaults of the schema when there is none. *)
Definition getBillingSettings (user : User) (db : DB)
    : Reply BillingSettings * DB :=
  let (billingSettings, db') := resolveSettings user db in
  (Sent 200 billingSettings, db').

(** The query string of [getInvoices].  A filter that is missing or empty
    is not applied; [page] and [limit] are the parameters as they come. *)
Record InvoicesQuery := mkInvoicesQuery {
  q_patientId : option ObjectId;
  q_doctorId : option ObjectId;
  q_startDate : option Date;
  q_endDate : option Date;
  q_paymentStatus : option string;
  q_invoiceType : option string;
  q_page : option string;
  q_limit : option string
}.

Definition digit (c : ascii) : option N :=
  let n := nat_of_ascii c in
  if (48 <=? n)%nat && (n <=? 57)%nat then Some (N.of_nat (n - 48)) else None.

Fixpoint digits (acc : N) (s : string) : option N :=
  match s with
  | EmptyString => Some acc
  | String c r =>
      match digit c with
      | Some d => digits (10 * acc + d) r
      | None => None
      end
  end.

(** A parameter that is a plain numeral: decimal digits and nothing else,
    for an integer that is not 0.  [Number(s)], which the arithmetic of
    the handler applies to the parameter, and [parseInt(s)] both give
    that integer. *)
Definition numeral (s : string) : option N :=
  match s with
  | EmptyString => None
  | _ =>
      match digits 0 s with
      | Some 0%N => None
      | r => r
      end
  end.

(** [page = 1] and [limit = 10] of the destructuring, for a parameter that
    is absent or a plain numeral. *)
Definition pageOf (q : InvoicesQuery) : option N :=
  match q_page q with
  | None => Some 1%N
  | Some s => numeral s
  end.

Definition limitOf (q : InvoicesQuery) : option N :=
  match q_limit q with
  | None => Some 10%N
  | Some s => numeral s
  end.

Definition refIs (field : option ObjectId) (wanted : option ObjectId) : bool :=
  match wanted with
  | Some w => match field with Some x => N.eqb x w | None => false end
  | None => true
  end.

Definition textIs (field : string) (wanted : option string) : bool :=
  match wanted with
  | Some w => if JS.truthy_str w then String.eqb field w else true
  | None => true
  end.

(** The filter [getInvoices] builds (lines 148-159). *)
Definition queryMatches (h : ObjectId) (q : InvoicesQuery) (i : Invoice)
    : bool :=
  N.eqb (hospital i) h &&
  refIs (patient i) (q_patientId q) &&
  refIs (doctor i) (q_doctorId q) &&
  textIs (statusName (paymentStatus i)) (q_paymentStatus q) &&
  textIs (invoiceType i) (q_invoiceType q) &&
  match q_startDate q with
  | Some d => (getTime d <=? getTime (invoiceDate i))%Z
  | None => true
  end &&
  match q_endDate q with
  | Some d => (getTime (invoiceDate i) <=? getTime d)%Z
  | None => true
  end.

(** [.sort({ invoiceDate: -1 })]: the latest first.  The order among
    invoices of one instant is the one this insertion gives. *)
Fixpoint insertByDate (x : Invoice) (l : list Invoice) : list Invoice :=
  match l with
  | [] => [x]
  | y :: r =>
      if (getTime (invoiceDate y) <? getTime (invoiceDate x))%Z
      then x :: l
      else y :: insertByDate x r
  end.

Definition sortByDateDesc (l : list Invoice) : list Invoice :=
  fold_right insertByDate [] l.

Record InvoicesPage := mkInvoicesPage {
  results : nat;
  total : nat;
  pages : nat;
  currentPage : nat;
  data : list Invoice
}.

(** [Math.ceil(total / limit)] on non-negative integers. *)
Definition ceilDiv (a b : nat) : nat := (a + b - 1) / b.

(** [exports.getInvoices], for the queries whose [page] and [limit] are
    absent or plain numerals with a product below 2^53, where
    [(page - 1) * limit], [parseInt(limit)], [parseInt(page)] and
    [Math.ceil(total / limit)] are the integers computed here.  For every
    other query the result is [None]: what the handler answers then
    depends on the two readings of a parameter, which differ ([Number] in
    the arithmetic, [parseInt] in the limit and in [currentPage]), and on
    what the driver and the database do with a skip or a limit that is
    zero, negative, fractional or not a number, which are not embedded.
    The names that [populate] adds to the patient and the doctor of each
    invoice are left out: an invoice of the answer is the stored
    document. *)
Definition getInvoices (user : User) (q : InvoicesQuery) (db : DB)
    : option (Reply InvoicesPage) :=
  match pageOf q, limitOf q with
  | Some page, Some limit =>
      if (page * limit <? 2 ^ 53)%N then
        let page := N.to_nat page in
        let limit := N.to_nat limit in
        let matching :=
          filter (queryMatches (hospitalId user) q) (invoices db) in
        let total := List.length matching in
        let skip := (page - 1) * limit in
        let invoices := firstn limit (skipn skip (sortByDateDesc matching)) in
        Some (Sent 200
                {| results := List.length invoices;
                   total := total;
                   pages := ceilDiv total limit;
                   currentPage := page;
                   data := invoices |})
      else None
  | _, _ => None
  end.

(** [exports.getInvoiceById]: [Invoice.findById(id)], whoever asks (the
    populated patient, doctor and hospital are left out). *)
Definition getInvoiceById (id : ObjectId) (db : DB) : Reply Invoice :=
  match InvoiceModel.findById id (invoices db) with
  | None => Forwarded (AppError "Invoice not found" 404)
  | Some invoice => Sent 200 invoice
  end.

End BillingQueries.

(** ** Invoices from lab tests and from prescriptions *)

Module BillingSources.

Import BillingController.

Local Open Scope float_scope.

(** A lab test ([src/models/LabTest.js]). *)
Record LabTest := mkLabTest {
  labTest_id : ObjectId;
  testType : string;
  lt_price : option JS.Number
}.

(** [test.name]: [labTestSchema] declares [testType] and no path [name],
    so that the property is [undefined] on every test that is loaded. *)
Definition lt_name (test : LabTest) : option string := None.

(** A medication, with the properties [generatePharmacyInvoice] reads. *)
Record Medication := mkMedication {
  medication_id : ObjectId;
  med_name : option string;
  med_price : option JS.Number
}.

Record PrescribedMedication := mkPrescribed {
  pm_medication : ObjectId;
  pm_dosage : option string;
  pm_frequency : option string;
  pm_duration : option string;
  pm_instructions : option string;
  pm_quantity : option JS.Number
}.

Record Prescription := mkPrescription {
  prescription_id : ObjectId;
  pr_patient : ObjectId;
  pr_doctor : ObjectId;
  pr_medications : list PrescribedMedication
}.

(** The collections of the billing code together with those of the clinical
    sources. *)
Record Clinical := mkClinical {
  core : DB;
  labTests : list LabTest;
  prescriptions : list Prescription;
  medications : list Medication
}.

Definition set_core (db : DB) (c : Clinical) : Clinical :=
  {| core := db; labTests := labTests c; prescriptions := prescriptions c;
     medications := medications c |}.

(** [catchAsync] over the larger state. *)
Definition catchAsyncC {A : Type}
    (fn : A -> Clinical -> (Error + Response) * Clinical)
    (req : A) (c : Clinical) : Response * Clinical :=
  match fn req c with
  | (inl err, c') => (Next err, c')
  | (inr r, c') => (r, c')
  end.

Record LabBody := mkLabBody {
  l_labTestIds : option (list ObjectId);
  l_patientId : option ObjectId;
  l_paymentMethod : option string;
  l_paidAmount : option JS.Number
}.

(** [lab_today] is what [new Date().toLocaleDateString()] prints. *)
Record LabReq := mkLabReq {
  lab_env : Env;
  lab_today : string;
  lab_user : User;
  lab_body : LabBody
}.

(** [x || 'Cash'] on a string that may be missing. *)
Definition orCash (m : option string) : string :=
  match m with
  | Some s => if JS.truthy_str s then s else "Cash"
  | None => "Cash"
  end.

(** The invoice item of a lab test (lines 489-496). *)
Definition labItem (gstPercentage : JS.Number) (test : LabTest)
    : InvoiceItem :=
  {| description := lt_name test;
     quantity := Some 1;
     unitPrice := Some (JS.or_num (JS.toNumber (lt_price test)) 0);
     amount := Some (JS.or_num (JS.toNumber (lt_price test)) 0);
     hsn := Some "998341"%string;
     gstRate := Some gstPercentage |}.

(** The body of [exports.generateLabInvoice].  [LabTest.find] with [$in]
    gives the stored tests whose [_id] is listed, in the order of the
    collection.  As in the consultation handler, the answer of
    [exports.createInvoice] is lost. *)
Definition generateLabInvoiceHandler (req : LabReq) (c : Clinical)
    : (Error + Response) * Clinical :=
  let user := lab_user req in
  let body := lab_body req in
  match l_labTestIds body, l_patientId body with
  | Some (id :: ids), Some patientId =>
    if negb (existsb (N.eqb patientId) (patients (core c))) then
      (inr (Next (AppError "Patient not found" 404)), c)
    else
      match filter (fun t => existsb (N.eqb (labTest_id t)) (id :: ids))
              (labTests c) with
      | [] => (inr (Next (AppError "No lab tests found" 404)), c)
      | test :: tests =>
        let (billingSettings, db1) := resolveSettings user (core c) in
        let items :=
          map (labItem (bs_gstPercentage billingSettings)) (test :: tests) in
        let invoiceData :=
          {| patientId := Some patientId;
             doctorId := None;
             appointmentId := None;
             prescriptionId := None;
             labTestId := None;
             b_invoiceType := Some "laboratory"%string;
             b_items := Some items;
             b_notes :=
               Some ("Laboratory tests ordered on " ++ lab_today req)%string;
             b_paymentMethod := Some (orCash (l_paymentMethod body));
             b_paidAmount :=
               Some (JS.or_num (JS.parseFloat (l_paidAmount body)) 0);
             b_dueDate := None |} in
        let (_, db2) :=
          createInvoice
            {| cr_env := lab_env req; cr_user := user;
               cr_body := invoiceData |} db1 in
        (inr (Json 201 Undefined), set_core db2 c)
      end
  | _, _ =>
    (inr (Next (AppError "Lab test IDs and patient ID are required" 400)), c)
  end.

Definition generateLabInvoice : LabReq -> Clinical -> Response * Clinical :=
  catchAsyncC generateLabInvoiceHandler.

Record PharmacyBody := mkPharmacyBody {
  ph_prescriptionId : option ObjectId;
  ph_paymentMethod : option string;
  ph_paidAmount : option JS.Number
}.

Record PharmacyReq := mkPharmacyReq {
  ph_env : Env;
  ph_today : string;
  ph_user : User;
  ph_body : PharmacyBody
}.

(** A part of the description that is added when the property is truthy. *)
Definition addPart (before : string) (part : option string) (after : string)
    : string :=
  match part with
  | Some p => if JS.truthy_str p then (before ++ p ++ after)%string
              else ""%string
  | None => ""%string
  end.

(** The invoice item of a prescribed medication (lines 557-581), given the
    populated medication. *)
Definition pharmacyItem (gstPercentage : JS.Number) (medication : Medication)
    (med : PrescribedMedication) : InvoiceItem :=
  let unitPrice := JS.or_num (JS.toNumber (med_price medication)) 0 in
  {| description :=
       Some (JS.show (med_name medication) ++ " - " ++ JS.show (pm_dosage med)
             ++ addPart ", " (pm_frequency med) ""
             ++ addPart ", for " (pm_duration med) ""
             ++ addPart " (" (pm_instructions med) ")")%string;
     quantity := pm_quantity med;
     unitPrice := Some unitPrice;
     amount := Some (unitPrice * JS.toNumber (pm_quantity med));
     hsn := Some "30049099"%string;
     gstRate := Some gstPercentage |}.

(** The items of a prescription; reading the price of a medication that was
    not found throws. *)
Fixpoint pharmacyItems (gstPercentage : JS.Number) (meds : list Medication)
    (l : list PrescribedMedication) : option (list InvoiceItem) :=
  match l with
  | [] => Some []
  | med :: r =>
      match find (fun m => N.eqb (medication_id m) (pm_medication med)) meds
      with
      | None => None
      | Some medication =>
          match pharmacyItems gstPercentage meds r with
          | None => None
          | Some items =>
              Some (pharmacyItem gstPercentage medication med :: items)
          end
      end
  end.

Definition prescriptionInvoiced (existing : Invoice) : Response :=
  Json 400
    (AlreadyExists "Invoice already exists for this prescription"
       (_id existing)).

(** The body of [exports.generatePharmacyInvoice]. *)
Definition generatePharmacyInvoiceHandler (req : PharmacyReq) (c : Clinical)
    : (Error + Response) * Clinical :=
  let user := ph_user req in
  let body := ph_body req in
  match ph_prescriptionId body with
  | None => (inr (Next (AppError "Prescription ID is required" 400)), c)
  | Some prescriptionId =>
    match find (fun p => N.eqb (prescription_id p) prescriptionId)
            (prescriptions c) with
    | None => (inr (Next (AppError "Prescription not found" 404)), c)
    | Some prescriptionDoc =>
      match InvoiceModel.findOne
              (fun i => match prescription i with
                        | Some p => N.eqb p prescriptionId
                        | None => false
                        end) (invoices (core c)) with
      | Some existingInvoice =>
          (inr (prescriptionInvoiced existingInvoice), c)
      | None =>
        let (billingSettings, db1) := resolveSettings user (core c) in
        match pharmacyItems (bs_gstPercentage billingSettings)
                (medications c) (pr_medications prescriptionDoc) with
        | None => (inl TypeError, set_core db1 c)
        | Some items =>
          match find (N.eqb (pr_patient prescriptionDoc)) (patients (core c)),
                find (fun d => N.eqb (doctor_id d) (pr_doctor prescriptionDoc))
                  (doctors (core c)) with
          | Some patient_id, Some doctorDoc =>
            let invoiceData :=
              {| patientId := Some patient_id;
                 doctorId := Some (doctor_id doctorDoc);
                 appointmentId := None;
                 prescriptionId := Some prescriptionId;
                 labTestId := None;
                 b_invoiceType := Some "pharmacy"%string;
                 b_items := Some items;
                 b_notes :=
                   Some ("Prescription dispensed on " ++ ph_today req)%string;
                 b_paymentMethod := Some (orCash (ph_paymentMethod body));
                 b_paidAmount :=
                   Some (JS.or_num (JS.parseFloat (ph_paidAmount body)) 0);
                 b_dueDate := None |} in
            let (_, db2) :=
              createInvoice
                {| cr_env := ph_env req; cr_user := user;
                   cr_body := invoiceData |} db1 in
            (inr (Json 201 Undefined), set_core db2 c)
          | _, _ => (inl TypeError, set_core db1 c)
          end
        end
      end
    end
  end.

Definition generatePharmacyInvoice
    : PharmacyReq -> Clinical -> Response * Clinical :=
  catchAsyncC generatePharmacyInvoiceHandler.

End BillingSources.

(** ** Creation of a walk-in laboratory invoice *)

Module WalkInCreation.

Local Open Scope float_scope.

(** [req.user] as [createLaboratoryInvoice] reads it: [req.user.hospital]
    and [req.user._id], either of which may be [undefined]. *)
Record Staff := mkStaff {
  st_hospital : option ObjectId;
  st_id : option ObjectId
}.

Record TestInput := mkTestInput {
  ti_name : option string;
  ti_price : option JS.Number;
  ti_hsn : option string
}.

Record LaboratoryBody := mkLaboratoryBody {
  customerName : option string;
  contactNumber : option string;
  email : option string;
  address : option string;
  tests : option (list TestInput);
  wl_paymentMethod : option string;
  wl_paidAmount : option JS.Number;
  wl_notes : option string
}.

Record LaboratoryReq := mkLaboratoryReq {
  wl_env : Env;
  wl_user : Staff;
  wl_body : LaboratoryBody
}.

(** The item of a test of the request (lines 183-192). *)
Definition testItem (gstPercentage : JS.Number) (test : TestInput)
    : InvoiceItem :=
  {| description := ti_name test;
     quantity := Some 1;
     unitPrice := ti_price test;
     amount := ti_price test;
     hsn := Some (match ti_hsn test with
                  | Some h => if JS.truthy_str h then h else "998931"
                  | None => "998931"
                  end)%string;
     gstRate := Some gstPercentage |}.

Definition creationFailed : Response :=
  Json 500 (WalkInFailure "Error creating laboratory invoice").

(** [exports.createLaboratoryInvoice].  [Hospital.findById(undefined)]
    finds nothing.  The settings of the hospital are
    read and not created; without them the tax is 18 percent, the prefix
    LAB and the tax number empty (the hospital schema has no [gstNumber]).
    The document is constructed without balanceDue, paymentStatus and
    paymentDate, which take the defaults of the schema; an exception of
    [save], and the missing [createdBy] of a user without [_id], end in the
    500 answer of the [catch]. *)
Definition createLaboratoryInvoice (req : LaboratoryReq) (db : DB)
    : Response * DB :=
  let body := wl_body req in
  match customerName body, tests body with
  | Some name, Some (test :: rest) =>
    if negb (JS.truthy_str name) then
      (Json 400 (WalkInFailure
         "Customer name and at least one test are required"), db)
    else
      match st_hospital (wl_user req) with
      | None => (Json 404 (WalkInFailure "Hospital not found"), db)
      | Some h =>
        if negb (existsb (N.eqb h) (hospitals db)) then
          (Json 404 (WalkInFailure "Hospital not found"), db)
        else
          let found := find (fun s => N.eqb (bs_hospital s) h) (settings db) in
          let gstNumber_ :=
            match found with Some s => bs_gstNumber s | None => ""%string end in
          let gstPercentage_ :=
            match found with Some s => bs_gstPercentage s | None => 18 end in
          let prefix :=
            match found with
            | Some s => if JS.truthy_str (invoicePrefix s) then invoicePrefix s
                        else "LAB"%string
            | None => "LAB"%string
            end in
          let invoiceItems := map (testItem gstPercentage_) (test :: rest) in
          let subtotal_ :=
            fold_left (fun total item => total + JS.toNumber (amount item))
              invoiceItems 0 in
          let gstAmount_ := (subtotal_ * gstPercentage_) / 100 in
          let totalAmount_ := subtotal_ + gstAmount_ in
          let invoiceNumber_ :=
            InvoiceModel.generateInvoiceNumber prefix h (now (wl_env req))
              (invoices db) in
          let paid_ := JS.or_num (JS.toNumber (wl_paidAmount body)) 0 in
          match st_id (wl_user req) with
          | None => (creationFailed, db)
          | Some creator =>
            let invoice :=
              {| _id := freshId (wl_env req);
                 invoiceNumber := invoiceNumber_;
                 invoiceDate := now (wl_env req);
                 dueDate := Some (now (wl_env req));
                 customerType := walk_in;
                 patient := None;
                 walkInCustomer :=
                   Some {| wc_name := Some name;
                           wc_contactNumber := contactNumber body;
                           wc_email := email body;
                           wc_address := address body |};
                 doctor := None;
                 appointment := None;
                 prescription := None;
                 labTest := None;
                 invoiceType := "laboratory";
                 items := invoiceItems;
                 subtotal := subtotal_;
                 gstNumber := gstNumber_;
                 gstPercentage := gstPercentage_;
                 gstAmount := gstAmount_;
                 totalAmount := totalAmount_;
                 paidAmount := paid_;
                 balanceDue := totalAmount_ - paid_;
                 paymentMethod := BillingSources.orCash (wl_paymentMethod body);
                 paymentStatus := unpaid;
                 notes := wl_notes body;
                 paymentDate := None;
                 createdBy := creator;
                 hospital := h |} in
            match Store.save (now (wl_env req)) true invoice (invoices db) with
            | inl _ => (creationFailed, db)
            | inr (saved, coll) =>
                (Json 201 (WalkInData saved), set_invoices coll db)
            end
          end
      end
  | _, _ =>
    (Json 400 (WalkInFailure
       "Customer name and at least one test are required"), db)
  end.

End WalkInCreation.

(** ** Creation of a walk-in pharmacy invoice *)

Module WalkInPharmacy.

Import WalkInCreation.

Local Open Scope float_scope.

(** A line of the request: the medication, and the quantity and the unit
    price when they are given. *)
Record ItemInput := mkItemInput {
  ii_medicationId : ObjectId;
  ii_quantity : option JS.Number;
  ii_unitPrice : option JS.Number
}.

Record SaleBody := mkSaleBody {
  wp_customerName : option string;
  wp_contactNumber : option string;
  wp_email : option string;
  wp_address : option string;
  wp_items : option (list ItemInput);
  wp_paymentMethod : option string;
  wp_paidAmount : option JS.Number;
  wp_notes : option string
}.

Record SaleReq := mkSaleReq {
  wp_env : Env;
  wp_user : Staff;
  wp_body : SaleBody
}.

(** [item.unitPrice || medication.price]. *)
Definition priceOf (item : ItemInput) (medication : BillingSources.Medication)
    : option JS.Number :=
  if JS.truthy_opt (ii_unitPrice item) then ii_unitPrice item
  else BillingSources.med_price medication.

(** The invoice item of a line (lines 65-76), given the medication that
    [medications.find] returns.  The medication schema has no [hsn]: the
    code of the item is the default one. *)
Definition lineItem (gstPercentage : JS.Number)
    (medication : BillingSources.Medication) (item : ItemInput)
    : InvoiceItem :=
  {| description := BillingSources.med_name medication;
     quantity := ii_quantity item;
     unitPrice := priceOf item medication;
     amount :=
       Some (JS.toNumber (priceOf item medication)
             * JS.toNumber (ii_quantity item));
     hsn := Some "30049099"%string;
     gstRate := Some gstPercentage |}.

(** The items of the request; reading the name of a medication that
    [medications.find] does not return throws. *)
Fixpoint lineItems (gstPercentage : JS.Number)
    (found : list BillingSources.Medication) (l : list ItemInput)
    : option (list InvoiceItem) :=
  match l with
  | [] => Some []
  | item :: r =>
      match find (fun med => N.eqb (BillingSources.medication_id med)
                               (ii_medicationId item)) found with
      | None => None
      | Some medication =>
          match lineItems gstPercentage found r with
          | None => None
          | Some items => Some (lineItem gstPercentage medication item :: items)
          end
      end
  end.

Definition pharmacyFailed : Response :=
  Json 500 (WalkInFailure "Error creating pharmacy invoice").

(** [exports.createPharmacyInvoice].  [Medication.find] with [$in] gives
    the stored medications whose [_id] is listed, each once, and the
    handler compares their number with the number of lines.  The loop
    that follows [save] decrements [stock], which is no path of the
    medication schema and none of the properties modelled here: the
    medications are as before. *)
Definition createPharmacyInvoice (req : SaleReq)
    (medications : list BillingSources.Medication) (db : DB)
    : Response * DB :=
  let body := wp_body req in
  match wp_customerName body, wp_items body with
  | Some name, Some (item :: rest) =>
    if negb (JS.truthy_str name) then
      (Json 400 (WalkInFailure
         "Customer name and at least one item are required"), db)
    else
      match st_hospital (wp_user req) with
      | None => (Json 404 (WalkInFailure "Hospital not found"), db)
      | Some h =>
        if negb (existsb (N.eqb h) (hospitals db)) then
          (Json 404 (WalkInFailure "Hospital not found"), db)
        else
          let found := find (fun s => N.eqb (bs_hospital s) h) (settings db) in
          let gstNumber_ :=
            match found with Some s => bs_gstNumber s | None => ""%string end in
          let gstPercentage_ :=
            match found with Some s => bs_gstPercentage s | None => 18 end in
          let prefix :=
            match found with
            | Some s => if JS.truthy_str (invoicePrefix s) then invoicePrefix s
                        else "PH"%string
            | None => "PH"%string
            end in
          let medicationIds := map ii_medicationId (item :: rest) in
          let medications_ :=
            filter (fun med => existsb (N.eqb (BillingSources.medication_id med))
                                 medicationIds) medications in
          if negb (List.length medications_ =? List.length medicationIds)%nat
          then
            (Json 400 (WalkInFailure "One or more medications not found"), db)
          else
            match lineItems gstPercentage_ medications_ (item :: rest) with
            | None => (pharmacyFailed, db)
            | Some invoiceItems =>
              let subtotal_ :=
                fold_left (fun total item => total + JS.toNumber (amount item))
                  invoiceItems 0 in
              let gstAmount_ := (subtotal_ * gstPercentage_) / 100 in
              let totalAmount_ := subtotal_ + gstAmount_ in
              let invoiceNumber_ :=
                InvoiceModel.generateInvoiceNumber prefix h (now (wp_env req))
                  (invoices db) in
              let paid_ := JS.or_num (JS.toNumber (wp_paidAmount body)) 0 in
              match st_id (wp_user req) with
              | None => (pharmacyFailed, db)
              | Some creator =>
                let invoice :=
                  {| _id := freshId (wp_env req);
                     invoiceNumber := invoiceNumber_;
                     invoiceDate := now (wp_env req);
                     dueDate := Some (now (wp_env req));
                     customerType := walk_in;
                     patient := None;
                     walkInCustomer :=
                       Some {| wc_name := Some name;
                               wc_contactNumber := wp_contactNumber body;
                               wc_email := wp_email body;
                               wc_address := wp_address body |};
                     doctor := None;
                     appointment := None;
                     prescription := None;
                     labTest := None;
                     invoiceType := "pharmacy";
                     items := invoiceItems;
                     subtotal := subtotal_;
                     gstNumber := gstNumber_;
                     gstPercentage := gstPercentage_;
                     gstAmount := gstAmount_;
                     totalAmount := totalAmount_;
                     paidAmount := paid_;
                     balanceDue := totalAmount_ - paid_;
                     paymentMethod :=
                       BillingSources.orCash (wp_paymentMethod body);
                     paymentStatus := unpaid;
                     notes := wp_notes body;
                     paymentDate := None;
                     createdBy := creator;
                     hospital := h |} in
                match Store.save (now (wp_env req)) true invoice (invoices db)
                with
                | inl _ => (pharmacyFailed, db)
                | inr (saved, coll) =>
                    (Json 201 (WalkInData saved), set_invoices coll db)
                end
              end
            end
      end
  | _, _ =>
    (Json 400 (WalkInFailure
       "Customer name and at least one item are required"), db)
  end.

End WalkInPharmacy.

(** ** The pagination middleware ([src/middleware/pagination.js]) *)

Module Pagination.

Local Open Scope Z_scope.

Definition isSpace (c : ascii) : bool :=
  let n := nat_of_ascii c in
  (n =? 32)%nat || ((9 <=? n)%nat && (n <=? 13)%nat).

Fixpoint dropSpaces (s : string) : string :=
  match s with
  | EmptyString => EmptyString
  | String c r => if isSpace c then dropSpaces r else s
  end.

Definition digitOf (c : ascii) : option Z :=
  let n := nat_of_ascii c in
  if (48 <=? n)%nat && (n <=? 57)%nat then Some (Z.of_nat (n - 48)) else None.

(** The decimal digits at the start of a string; [None] when there is
    none. *)
Fixpoint readDigits (acc : Z) (seen : bool) (s : string) : option Z :=
  match s with
  | EmptyString => if seen then Some acc else None
  | String c r =>
      match digitOf c with
      | Some d => readDigits (10 * acc + d) true r
      | None => if seen then Some acc else None
      end
  end.

(** The integer that the numeral at the start of a parameter denotes:
    leading blanks, a sign, then the digits up to the first other
    character; [None] when there is no digit. *)
Definition readInt (x : option string) : option Z :=
  match x with
  | None => None
  | Some s =>
      match dropSpaces s with
      | String "-" r => option_map Z.opp (readDigits 0 false r)
      | String "+" r => readDigits 0 false r
      | t => readDigits 0 false t
      end
  end.

(** A number of the middleware.  An integer of absolute value 2^53 at most
    is a double, and the arithmetic of the middleware on such integers is
    exact.  Of a double that is not known to be such an integer, only the
    side is kept: [Huge] is a double that is 2^53 - 1 at least (infinite
    for a long numeral), [MinusHuge] one that is 1 - 2^53 at most. *)
Inductive Num :=
| Int (z : Z)
| Huge
| MinusHuge.

(** The double nearest to an integer, with what is kept of it: the
    double nearest to an integer above 2^53 is 2^53 at least. *)
Definition number (z : Z) : Num :=
  if 2 ^ 53 <? z then Huge
  else if z <? - 2 ^ 53 then MinusHuge
  else Int z.

(** [parseInt(x, 10)] on a query parameter, [None] standing for [NaN]. *)
Definition parseInt (x : option string) : option Num :=
  option_map number (readInt x).

(** [s.split(',')]. *)
Fixpoint splitComma (cur : string) (s : string) : list string :=
  match s with
  | EmptyString => [cur]
  | String c r =>
      if Ascii.eqb c "," then cur :: splitComma EmptyString r
      else splitComma (cur ++ String c EmptyString)%string r
  end.

(** [obj[key] = value] on an object kept as the list of its keys in the
    order in which they were first set. *)
Fixpoint setKey (key : string) (value : Z) (obj : list (string * Z))
    : list (string * Z) :=
  match obj with
  | [] => [(key, value)]
  | (k, v) :: r =>
      if String.eqb k key then (k, value) :: r
      else (k, v) :: setKey key value r
  end.

(** [obj[key] = value] for a number [value] on an object made by [{}]: the
    key [__proto__] reaches the setter of [Object.prototype], which ignores
    a number, and the object gets no property. *)
Definition assign (key : string) (value : Z) (obj : list (string * Z))
    : list (string * Z) :=
  if String.eqb key "__proto__" then obj else setKey key value obj.

(** The own property [key] of the object. *)
Definition lookupKey (key : string) (obj : list (string * Z)) : option Z :=
  option_map snd (find (fun kv => String.eqb (fst kv) key) obj).

(** One step of the [reduce] over the sort fields. *)
Definition sortStep (sortObj : list (string * Z)) (field : string)
    : list (string * Z) :=
  match field with
  | String "-" r => assign r (-1) sortObj
  | _ => assign field 1 sortObj
  end.

Fixpoint dropSpacesEnd (s : string) : string :=
  match s with
  | EmptyString => EmptyString
  | String c r =>
      match dropSpacesEnd r with
      | EmptyString => if isSpace c then EmptyString else String c EmptyString
      | t => String c t
      end
  end.

(** [s.trim()] on the ASCII blanks. *)
Definition trim (s : string) : string := dropSpacesEnd (dropSpaces s).

Definition projectionStep (projObj : list (string * Z)) (field : string)
    : list (string * Z) :=
  assign (trim field) 1 projObj.

Record Query := mkQuery {
  page : option string;
  limit : option string;
  sort : option string;
  fields : option string
}.

Record PaginationInfo := mkPaginationInfo {
  pg_page : Num;
  pg_limit : Z;
  pg_skip : Num;
  pg_sort : option (list (string * Z));
  pg_projection : option (list (string * Z))
}.

(** [paginationMiddleware]: the [req.pagination] it attaches.  The limit
    is an integer in every case: the least of a number above 2^53 and
    [MAX_LIMIT] is [MAX_LIMIT].  A page of 2^53 at least, less 1, is
    2^53 - 1 at least, and so is its product by a limit of 1 or more. *)
Definition paginate (q : Query) : PaginationInfo :=
  let DEFAULT_PAGE := 1 in
  let DEFAULT_LIMIT := 10 in
  let MAX_LIMIT := 100 in
  let page_ :=
    match parseInt (page q) with
    | Some (Int parsedPage) =>
        if 0 <? parsedPage then Int parsedPage else Int DEFAULT_PAGE
    | Some Huge => Huge
    | Some MinusHuge => Int DEFAULT_PAGE
    | None => Int DEFAULT_PAGE
    end in
  let limit_ :=
    match parseInt (limit q) with
    | Some (Int parsedLimit) =>
        if 0 <? parsedLimit then Z.min parsedLimit MAX_LIMIT
        else DEFAULT_LIMIT
    | Some Huge => MAX_LIMIT
    | Some MinusHuge => DEFAULT_LIMIT
    | None => DEFAULT_LIMIT
    end in
  {| pg_page := page_;
     pg_limit := limit_;
     pg_skip :=
       match page_ with
       | Int p => number ((p - 1) * limit_)
       | Huge => Huge
       | MinusHuge => MinusHuge
       end;
     pg_sort :=
       match sort q with
       | Some s =>
           if JS.truthy_str s
           then Some (fold_left sortStep (splitComma EmptyString s) [])
           else None
       | None => None
       end;
     pg_projection :=
       match fields q with
       | Some s =>
           if JS.truthy_str s
           then Some (fold_left projectionStep (splitComma EmptyString s) [])
           else None
       | None => None
       end |}.

Record Metadata := mkMetadata {
  md_total : Z;
  totalPages : Z;
  md_currentPage : Num;
  perPage : Z;
  hasNext : bool;
  hasPrev : bool
}.

(** [n < z] and [z < n] for an integer [z] of absolute value below
    2^53. *)
Definition below (n : Num) (z : Z) : bool :=
  match n with
  | Int a => a <? z
  | Huge => false
  | MinusHuge => true
  end.

Definition above (n : Num) (z : Z) : bool :=
  match n with
  | Int a => z <? a
  | Huge => true
  | MinusHuge => false
  end.

(** [paginationMetadata(total, pagination)], for a count [total] and the
    positive [limit] the middleware gives: [Math.ceil(total / limit)] is
    the quotient rounded up (for counts far below 2^53, where the division
    of doubles does not round a quotient to the next integer). *)
Definition paginationMetadata (total : Z) (pagination : PaginationInfo)
    : Metadata :=
  let page_ := pg_page pagination in
  let limit_ := pg_limit pagination in
  let totalPages_ := (total + limit_ - 1) / limit_ in
  {| md_total := total;
     totalPages := totalPages_;
     md_currentPage := page_;
     perPage := limit_;
     hasNext := below page_ totalPages_;
     hasPrev := above page_ 1 |}.

End Pagination.

(** ** The user of a request ([src/middleware/auth.js]) *)

Module Auth.

(** The values of the properties of [req.user]. *)
Inductive Value :=
| Id (x : ObjectId)
| Text (s : string).

(** A JavaScript object as the list of its properties. *)
Definition Object := list (string * Value).

(** [obj.key]; [None] is [undefined]. *)
Definition get (key : string) (obj : Object) : option Value :=
  option_map snd (find (fun kv => String.eqb (fst kv) key) obj).

(** The payload of a verified token. *)
Record Decoded := mkDecoded {
  d_userId : ObjectId;
  d_role : string;
  d_hospitalId : ObjectId
}.

(** The object [authenticate] attaches to the request (lines 32-36). *)
Definition attach (decoded : Decoded) : Object :=
  [("userId", Id (d_userId decoded));
   ("role", Text (d_role decoded));
   ("hospitalId", Id (d_hospitalId decoded))].

(** What a middleware does with a request: it calls [next()], or answers
    [res.status(s).json({ message })]. *)
Inductive Gate :=
| Pass
| Deny (status : nat) (message : string).

Definition showValue (v : option Value) : string :=
  match v with
  | Some (Text s) => s
  | Some (Id x) => JS.toString x
  | None => "undefined"
  end.

(** [roles.includes(x)]: strict equality with one of the role names. *)
Definition rolesInclude (roles : list string) (v : option Value) : bool :=
  match v with
  | Some (Text r) => existsb (String.eqb r) roles
  | _ => false
  end.

(** [exports.authorize(...roles)]. *)
Definition authorize (roles : list string) (user : option Object) : Gate :=
  match user with
  | None => Deny 401 "Authentication required"
  | Some u =>
      if negb (rolesInclude roles (get "role" u)) then
        Deny 403
          ("Access denied. " ++ showValue (get "role" u)
           ++ " role is not authorized to access this resource")
      else Pass
  end.

End Auth.

(** ** The route of the walk-in laboratory invoice
    ([src/routes/walkInRoutes.js]) *)

Module WalkInRoutes.

Import Auth WalkInCreation.

(** What the route answers: the refusal of a middleware, or the answer of
    the handler. *)
Inductive Routed :=
| Refused (status : nat) (message : string)
| Handled (response : Response).

Definition idOf (v : option Value) : option ObjectId :=
  match v with
  | Some (Id x) => Some x
  | _ => None
  end.

(** [req.user.hospital] and [req.user._id], as the handler reads them. *)
Definition staffOf (user : Object) : Staff :=
  {| st_hospital := idOf (get "hospital" user);
     st_id := idOf (get "_id" user) |}.

(** POST /laboratory/invoice for a request whose token was verified and
    whose user is active: [authenticate] attaches the user, the two
    [authorize] of the router and of the route follow, then the handler. *)
Definition postLaboratoryInvoice (decoded : Decoded) (env : Env)
    (body : LaboratoryBody) (db : DB) : Routed * DB :=
  let user := attach decoded in
  match authorize ["admin"; "pharmacist"; "staff"; "lab_technician"]
          (Some user) with
  | Deny st m => (Refused st m, db)
  | Pass =>
      match authorize ["admin"; "lab_technician"; "staff"] (Some user) with
      | Deny st m => (Refused st m, db)
      | Pass =>
          let (response, db') :=
            createLaboratoryInvoice
              {| wl_env := env; wl_user := staffOf user; wl_body := body |}
              db in
          (Handled response, db')
      end
  end.

(** POST /pharmacy/invoice, in the same way. *)
Definition postPharmacyInvoice (decoded : Decoded) (env : Env)
    (body : WalkInPharmacy.SaleBody)
    (medications : list BillingSources.Medication) (db : DB) : Routed * DB :=
  let user := attach decoded in
  match authorize ["admin"; "pharmacist"; "staff"; "lab_technician"]
          (Some user) with
  | Deny st m => (Refused st m, db)
  | Pass =>
      match authorize ["admin"; "pharmacist"; "staff"] (Some user) with
      | Deny st m => (Refused st m, db)
      | Pass =>
          let (response, db') :=
            WalkInPharmacy.createPharmacyInvoice
              {| WalkInPharmacy.wp_env := env;
                 WalkInPharmacy.wp_user := staffOf user;
                 WalkInPharmacy.wp_body := body |} medications db in
          (Handled response, db')
      end
  end.

End WalkInRoutes.

(** ** Vocabulary of the statements *)

Module Spec.

Local Open Scope float_scope.

(** The number a string of decimal digits denotes. *)
Definition readDecimal (s : string) : option N :=
  option_map N.of_uint (NilEmpty.uint_of_string s).

(** The sequence number [generateInvoiceNumber] prints for a hospital. *)
Definition sequenceOf (h : ObjectId) (coll : list Invoice) : N :=
  N.of_nat (InvoiceModel.countDocuments (fun i => N.eqb (hospital i) h) coll)
  + 1.

(** [{prefix}-{YY}{MM}-], the part of an invoice number before the
    sequence number. *)
Definition numberHead (prefix : string) (now : Date) : string :=
  prefix ++ "-" ++ JS.slice_last 2 (JS.toString (getFullYear now)) ++
  JS.padStart 2 "0" (JS.toString (getMonth now + 1)) ++ "-".

(** The number a counter scoped to (tenant, prefix, year-month) would
    give: one more than the invoices of the hospital whose number starts
    with the same prefix, year and month. *)
Definition scopedNumber (prefix : string) (h : ObjectId) (now : Date)
    (coll : list Invoice) : string :=
  let count :=
    InvoiceModel.countDocuments
      (fun i => N.eqb (hospital i) h &&
                String.prefix (numberHead prefix now) (invoiceNumber i))
      coll in
  numberHead prefix now ++ JS.padStart 4 "0" (JS.toString (N.of_nat count + 1)).

(** The invoices that reference an appointment. *)
Definition refersTo (a : ObjectId) (i : Invoice) : bool :=
  match appointment i with
  | Some x => N.eqb x a
  | None => false
  end.

Definition invoicesOf (a : ObjectId) (coll : list Invoice) : list Invoice :=
  filter (refersTo a) coll.

(** The payment state of an invoice agrees with its amounts. *)
Definition statusRule (inv : Invoice) : Prop :=
  balanceDue inv = totalAmount inv - paidAmount inv /\
  ((paidAmount inv <=? 0) = true -> paymentStatus inv = unpaid) /\
  ((0 <? paidAmount inv) = true ->
   (paidAmount inv <? totalAmount inv) = true ->
   paymentStatus inv = partial) /\
  ((0 <? paidAmount inv) = true ->
   (totalAmount inv <=? paidAmount inv) = true ->
   paymentStatus inv = paid).

(** The status tells the case of the amounts, and the balance is the
    plain difference. *)
Definition statusIff (inv : Invoice) : Prop :=
  (paymentStatus inv = unpaid <-> (paidAmount inv <=? 0) = true) /\
  (paymentStatus inv = paid <->
     (0 <? paidAmount inv) = true /\
     (totalAmount inv <=? paidAmount inv) = true) /\
  (paymentStatus inv = partial <->
     (0 <? paidAmount inv) = true /\
     (paidAmount inv <? totalAmount inv) = true) /\
  balanceDue inv = totalAmount inv - paidAmount inv.

(** "paid when paidAmount >= totalAmount", with no condition on the sign
    of the paid amount. *)
Definition paidWhenCovered (inv : Invoice) : Prop :=
  (totalAmount inv <=? paidAmount inv) = true -> paymentStatus inv = paid.

(** The totals of an invoice in the arithmetic of the code: the amounts
    added from the left starting at 0, the tax as (subtotal * rate) / 100,
    and their sum. *)
Definition totalsRule (inv : Invoice) : Prop :=
  subtotal inv
    = fold_left (fun sum item => sum + JS.toNumber (amount item))
        (items inv) 0 /\
  gstAmount inv = (subtotal inv * gstPercentage inv) / 100 /\
  totalAmount inv = subtotal inv + gstAmount inv.

(** The rational number a finite float is. *)
Definition exact (x : float) : option Q :=
  match Prim2SF x with
  | S754_zero _ => Some 0%Q
  | S754_finite s m e =>
      Some ((if s then (-1)%Q else 1%Q) * (Z.pos m # 1) * Qpower (2 # 1) e)%Q
  | _ => None
  end.

(** The sum of the amounts as rational numbers. *)
Fixpoint exactSum (l : list float) : option Q :=
  match l with
  | [] => Some 0%Q
  | x :: r =>
      match exact x, exactSum r with
      | Some a, Some b => Some (a + b)%Q
      | _, _ => None
      end
  end.

Definition sameQ (a b : option Q) : bool :=
  match a, b with
  | Some x, Some y => Qeq_bool x y
  | _, _ => false
  end.

(** The values of a creation pass the validators of the schema: the type
    is one of the three, every item as [calculateTotals] leaves it has a
    description, a quantity of 1 at least, a unit price that is not
    negative and an amount that is a number, the subtotal and the total
    are not negative, the tax and the balance are numbers, the amount
    paid is not negative and the payment method is one of the five. *)
Definition accepted (invoiceType : string) (its : list InvoiceItem)
    (gstPercentage paid : JS.Number) (method : string) : bool :=
  let t := BillingController.calculateTotals its gstPercentage in
  Mongoose.mem invoiceType Mongoose.invoiceTypeEnum &&
  forallb Mongoose.validItem (BillingController.processedItems t) &&
  (0 <=? BillingController.t_subtotal t) &&
  Mongoose.castable gstPercentage &&
  Mongoose.castable (BillingController.t_gstAmount t) &&
  (0 <=? BillingController.t_totalAmount t) &&
  (0 <=? paid) &&
  Mongoose.castable (BillingController.t_totalAmount t - paid) &&
  Mongoose.mem method Mongoose.paymentMethodEnum.

(** A fee and a tax rate make an invoice of one item of quantity 1 that
    the schema accepts, with the amount paid: the fee is a number that is
    neither 0 nor negative, and the totals computed from it are numbers
    that are not negative. *)
Definition billable (fee gstPercentage paid : JS.Number) : bool :=
  let t :=
    BillingController.calculateTotals
      [ {| description := None; quantity := Some 1; unitPrice := Some fee;
           amount := Some fee; hsn := None; gstRate := None |} ]
      gstPercentage in
  JS.truthy fee && (0 <=? fee) &&
  Mongoose.castable gstPercentage &&
  (0 <=? BillingController.t_subtotal t) &&
  Mongoose.castable (BillingController.t_gstAmount t) &&
  (0 <=? BillingController.t_totalAmount t) &&
  (0 <=? paid) &&
  Mongoose.castable (BillingController.t_totalAmount t - paid).

End Spec.

(** ** Vocabulary of the further statements *)

Module Further.

(** Two invoices agree on everything but the five payment fields
    (paidAmount, paymentMethod, paymentDate, balanceDue, paymentStatus). *)
Definition samePayload (a b : Invoice) : Prop :=
  _id a = _id b /\ invoiceNumber a = invoiceNumber b /\
  invoiceDate a = invoiceDate b /\ dueDate a = dueDate b /\
  customerType a = customerType b /\ patient a = patient b /\
  walkInCustomer a = walkInCustomer b /\ doctor a = doctor b /\
  appointment a = appointment b /\ prescription a = prescription b /\
  labTest a = labTest b /\ invoiceType a = invoiceType b /\
  items a = items b /\ subtotal a = subtotal b /\
  gstNumber a = gstNumber b /\ gstPercentage a = gstPercentage b /\
  gstAmount a = gstAmount b /\ totalAmount a = totalAmount b /\
  notes a = notes b /\ createdBy a = createdBy b /\
  hospital a = hospital b.

(** A list of invoices runs from the latest invoice date to the earliest. *)
Definition latestFirst (l : list Invoice) : Prop :=
  StronglySorted
    (fun a b => (getTime (invoiceDate b) <= getTime (invoiceDate a))%Z) l.

(** No two invoices share an [_id] or an invoice number. *)
Definition uniqueInvoices (coll : list Invoice) : Prop :=
  NoDup (map _id coll) /\ NoDup (map invoiceNumber coll).

(** A hospital has at most one settings record. *)
Definition uniqueSettings (db : DB) : Prop :=
  NoDup (map bs_hospital (settings db)).

(** The queries of [getInvoices] that are embedded: [page] and [limit]
    are absent or plain numerals, for the integers [p] and [l], and the
    product is below 2^53. *)
Definition plainQuery (q : BillingQueries.InvoicesQuery) (p l : nat) : Prop :=
  BillingQueries.pageOf q = Some (N.of_nat p) /\
  BillingQueries.limitOf q = Some (N.of_nat l) /\
  (N.of_nat p * N.of_nat l < 2 ^ 53)%N.

(** An invoice passes the filters that the query gives. *)
Definition passes (q : BillingQueries.InvoicesQuery) (i : Invoice) : Prop :=
  (forall p, BillingQueries.q_patientId q = Some p -> patient i = Some p) /\
  (forall d, BillingQueries.q_doctorId q = Some d -> doctor i = Some d) /\
  (forall st, BillingQueries.q_paymentStatus q = Some st -> st <> ""%string ->
              BillingController.statusName (paymentStatus i) = st) /\
  (forall ty, BillingQueries.q_invoiceType q = Some ty -> ty <> ""%string ->
              invoiceType i = ty) /\
  (forall d, BillingQueries.q_startDate q = Some d ->
             (getTime d <= getTime (invoiceDate i))%Z) /\
  (forall d, BillingQueries.q_endDate q = Some d ->
             (getTime (invoiceDate i) <= getTime d)%Z).

(** The key and the direction a sort field stands for: [-name] is [name]
    descending. *)
Definition sortKey (field : string) : string :=
  match field with
  | String "-" r => r
  | _ => field
  end.

Definition sortDirection (field : string) : Z :=
  match field with
  | String "-" _ => (-1)%Z
  | _ => 1%Z
  end.

(** The invoices that reference a prescription. *)
Definition dispenses (p : ObjectId) (i : Invoice) : bool :=
  match prescription i with
  | Some x => N.eqb x p
  | None => false
  end.

End Further.

(** ** Sample data *)

Module Sample.

Local Open Scope float_scope.

Definition january : Date :=
  {| getTime := 1736935200000; getFullYear := 2025; getMonth := 0 |}.

Definition february : Date :=
  {| getTime := 1739613600000; getFullYear := 2025; getMonth := 1 |}.

Definition march : Date :=
  {| getTime := 1742032800000; getFullYear := 2025; getMonth := 2 |}.

Definition item (text : string) (q p : JS.Number) (a : option JS.Number)
    : InvoiceItem :=
  {| description := Some text; quantity := Some q; unitPrice := Some p;
     amount := a; hsn := None; gstRate := None |}.

(** A stored consultation invoice of hospital [h]. *)
Definition stored (id : ObjectId) (number : string) (h : ObjectId)
    (total paid_ : JS.Number) (status : PaymentStatus) (date : option Date)
    : Invoice :=
  {| _id := id; invoiceNumber := number; invoiceDate := january;
     dueDate := None; customerType := registered; patient := Some 7%N;
     walkInCustomer := None; doctor := None; appointment := None;
     prescription := None; labTest := None; invoiceType := "consultation";
     items := [item "Consultation" 1 total (Some total)];
     subtotal := total; gstNumber := ""; gstPercentage := 0;
     gstAmount := 0; totalAmount := total; paidAmount := paid_;
     balanceDue := total - paid_; paymentMethod := "Cash";
     paymentStatus := status; notes := None; paymentDate := date;
     createdBy := 3%N; hospital := h |}.

(** A collection with one unpaid January invoice of hospital 1, numbered
    under the prefix INV. *)
Definition oneJanuaryInvoice : list Invoice :=
  [stored 100%N "INV-2501-0001" 1%N 500 0 unpaid None].

(** One hundred tablets at 0.1 each. *)
Definition hundredTablets : list InvoiceItem :=
  repeat (item "Tablet" 1 0.1 None) 100.

Definition staff : User := {| userId := 3%N; hospitalId := 1%N |}.

(** A hospital with one patient, one doctor and one follow-up appointment,
    and no invoice yet. *)
Definition clinic : DB :=
  {| invoices := [];
     patients := [7%N];
     doctors := [ {| doctor_id := 9%N; specialization := "Cardiology" |} ];
     hospitals := [1%N];
     appointments :=
       [ {| appointment_id := 5%N; ap_patient := 7%N; ap_doctor := 9%N;
            ap_type := "follow-up";
            appointmentDate := "1/15/2025"; appointmentTime := "10:00" |} ];
     settings := [] |}.

(** A manual invoice request of the staff user for patient 7. *)
Definition manual (id : ObjectId) (at_ : Date) (its : list InvoiceItem)
    (paid_ : option JS.Number) : BillingController.CreateInvoiceReq :=
  {| BillingController.cr_env := {| now := at_; freshId := id |};
     BillingController.cr_user := staff;
     BillingController.cr_body :=
       {| BillingController.patientId := Some 7%N;
          BillingController.doctorId := None;
          BillingController.appointmentId := None;
          BillingController.prescriptionId := None;
          BillingController.labTestId := None;
          BillingController.b_invoiceType := Some "laboratory";
          BillingController.b_items := Some its;
          BillingController.b_notes := None;
          BillingController.b_paymentMethod := None;
          BillingController.b_paidAmount := paid_;
          BillingController.b_dueDate := None |} |}.

(** A laboratory invoice request for patient 8, who is not registered. *)
Definition unknownPatient : BillingController.CreateInvoiceReq :=
  {| BillingController.cr_env := {| now := january; freshId := 100%N |};
     BillingController.cr_user := staff;
     BillingController.cr_body :=
       {| BillingController.patientId := Some 8%N;
          BillingController.doctorId := None;
          BillingController.appointmentId := None;
          BillingController.prescriptionId := None;
          BillingController.labTestId := None;
          BillingController.b_invoiceType := Some "laboratory";
          BillingController.b_items := Some [item "Blood count" 1 250 None];
          BillingController.b_notes := None;
          BillingController.b_paymentMethod := None;
          BillingController.b_paidAmount := None;
          BillingController.b_dueDate := None |} |}.

(** Two requests for an invoice of appointment 5. *)
Definition consult1 : BillingController.ConsultationReq :=
  {| BillingController.co_env := {| now := january; freshId := 100%N |};
     BillingController.co_user := staff;
     BillingController.co_body :=
       {| BillingController.c_appointmentId := Some 5%N;
          BillingController.c_paymentMethod := None;
          BillingController.c_paidAmount := None |} |}.

Definition consult2 : BillingController.ConsultationReq :=
  {| BillingController.co_env := {| now := february; freshId := 101%N |};
     BillingController.co_user := staff;
     BillingController.co_body :=
       {| BillingController.c_appointmentId := Some 5%N;
          BillingController.c_paymentMethod := Some "UPI";
          BillingController.c_paidAmount := Some 590 |} |}.

(** A payment request on invoice [id]. *)
Definition payment (id : ObjectId) (at_ : Date) (paid_ : option JS.Number)
    : BillingController.PaymentReq :=
  {| BillingController.pr_env := {| now := at_; freshId := 0%N |};
     BillingController.pr_id := id;
     BillingController.pr_body :=
       {| BillingController.p_paidAmount := paid_;
          BillingController.p_paymentMethod := None;
          BillingController.p_paymentDate := None |} |}.

(** The clinic with one invoice of 500, paid in full in January. *)
Definition clinicPaid : DB :=
  set_invoices
    [stored 100%N "INV-2501-0001" 1%N 500 500 paid (Some january)] clinic.

(** A stored walk-in pharmacy invoice of hospital [h]. *)
Definition walkIn (id : ObjectId) (number : string) (h : ObjectId)
    : Invoice :=
  {| _id := id; invoiceNumber := number; invoiceDate := january;
     dueDate := Some january; customerType := walk_in; patient := None;
     walkInCustomer :=
       Some {| wc_name := Some "R. Kumar"; wc_contactNumber := None;
               wc_email := None; wc_address := None |};
     doctor := None; appointment := None; prescription := None;
     labTest := None; invoiceType := "pharmacy";
     items := [item "Paracetamol" 2 10 (Some 20)];
     subtotal := 20; gstNumber := ""; gstPercentage := 0; gstAmount := 0;
     totalAmount := 20; paidAmount := 20; balanceDue := 0;
     paymentMethod := "Cash"; paymentStatus := paid; notes := None;
     paymentDate := Some january; createdBy := 3%N; hospital := h |}.

(** Invoices of two hospitals: a walk-in invoice of each, and an invoice
    of a registered patient of hospital 1. *)
Definition twoHospitals : DB :=
  set_invoices
    [walkIn 200%N "PH-2501-0001" 1%N;
     walkIn 201%N "PH-2501-0001b" 2%N;
     stored 100%N "INV-2501-0002" 1%N 500 0 unpaid None] clinic.

End Sample.

(** ** Further sample data *)

Module Sample2.

Local Open Scope float_scope.

Definition staff2 : User := {| userId := 4%N; hospitalId := 2%N |}.

(** Two hospitals that share the patient register; hospital 1 has issued
    INV-2501-0001, hospital 2 nothing yet, and neither has settings. *)
Definition twoTenants : DB :=
  {| invoices := [Sample.stored 100%N "INV-2501-0001" 1%N 500 0 unpaid None];
     patients := [7%N];
     doctors := [];
     hospitals := [1%N; 2%N];
     appointments := [];
     settings := [] |}.

(** The two hospitals with the doctor and the appointment of the sample
    clinic. *)
Definition sharedRegister : DB :=
  {| invoices := invoices twoTenants;
     patients := patients twoTenants;
     doctors := doctors Sample.clinic;
     hospitals := hospitals twoTenants;
     appointments := appointments Sample.clinic;
     settings := [] |}.

(** Two requests of the staff of hospital 2 for an invoice of
    appointment 5. *)
Definition consultAgain1 : BillingController.ConsultationReq :=
  {| BillingController.co_env :=
       {| now := Sample.january; freshId := 101%N |};
     BillingController.co_user := staff2;
     BillingController.co_body :=
       BillingController.co_body Sample.consult1 |}.

Definition consultAgain2 : BillingController.ConsultationReq :=
  {| BillingController.co_env :=
       {| now := Sample.january; freshId := 102%N |};
     BillingController.co_user := staff2;
     BillingController.co_body :=
       BillingController.co_body Sample.consult1 |}.

(** A manual invoice request of the staff of hospital 2. *)
Definition manual2 (id : ObjectId) (at_ : Date) (its : list InvoiceItem)
    : BillingController.CreateInvoiceReq :=
  {| BillingController.cr_env := {| now := at_; freshId := id |};
     BillingController.cr_user := staff2;
     BillingController.cr_body :=
       BillingController.cr_body (Sample.manual id at_ its None) |}.

(** A laboratory invoice request for one blood count at 250. *)
Definition bloodCount : BillingController.CreateInvoiceReq :=
  Sample.manual 100%N Sample.january
    [Sample.item "Blood count" 1 250 None] None.

(** A walk-in customer asks for the given tests at hospital 1; the staff
    member is user 3. *)
Definition walkInBody (l : list WalkInCreation.TestInput)
    : WalkInCreation.LaboratoryBody :=
  {| WalkInCreation.customerName := Some "R. Kumar"%string;
     WalkInCreation.contactNumber := None;
     WalkInCreation.email := None;
     WalkInCreation.address := None;
     WalkInCreation.tests := Some l;
     WalkInCreation.wl_paymentMethod := None;
     WalkInCreation.wl_paidAmount := Some 472;
     WalkInCreation.wl_notes := None |}.

Definition bloodTest : WalkInCreation.TestInput :=
  {| WalkInCreation.ti_name := Some "Blood count"%string;
     WalkInCreation.ti_price := Some 400;
     WalkInCreation.ti_hsn := None |}.

Definition unpricedTest : WalkInCreation.TestInput :=
  {| WalkInCreation.ti_name := Some "Urine culture"%string;
     WalkInCreation.ti_price := None;
     WalkInCreation.ti_hsn := None |}.

Definition walkInLab (creator : option ObjectId)
    (l : list WalkInCreation.TestInput) : WalkInCreation.LaboratoryReq :=
  {| WalkInCreation.wl_env := {| now := Sample.january; freshId := 300%N |};
     WalkInCreation.wl_user :=
       {| WalkInCreation.st_hospital := Some 1%N;
          WalkInCreation.st_id := creator |};
     WalkInCreation.wl_body := walkInBody l |}.

(** A request for an invoice of appointment 5 by the staff of hospital 2,
    which the sample clinic does not have. *)
Definition consultOther : BillingController.ConsultationReq :=
  {| BillingController.co_env := {| now := Sample.january; freshId := 100%N |};
     BillingController.co_user := staff2;
     BillingController.co_body :=
       BillingController.co_body Sample.consult1 |}.

(** The clinic with two lab tests, one medication and two prescriptions
    of patient 7 by doctor 9. *)
Definition bloodCountTest : BillingSources.LabTest :=
  {| BillingSources.labTest_id := 21%N;
     BillingSources.testType := "Blood count"%string;
     BillingSources.lt_price := Some 400 |}.

Definition lipidTest : BillingSources.LabTest :=
  {| BillingSources.labTest_id := 22%N;
     BillingSources.testType := "Lipid profile"%string;
     BillingSources.lt_price := Some 150 |}.

Definition tablets (medication : ObjectId)
    : BillingSources.PrescribedMedication :=
  {| BillingSources.pm_medication := medication;
     BillingSources.pm_dosage := Some "500mg"%string;
     BillingSources.pm_frequency := Some "twice daily"%string;
     BillingSources.pm_duration := Some "5 days"%string;
     BillingSources.pm_instructions := None;
     BillingSources.pm_quantity := Some 10 |}.

Definition ward : BillingSources.Clinical :=
  {| BillingSources.core := Sample.clinic;
     BillingSources.labTests := [bloodCountTest; lipidTest];
     BillingSources.prescriptions :=
       [ {| BillingSources.prescription_id := 41%N;
            BillingSources.pr_patient := 7%N;
            BillingSources.pr_doctor := 9%N;
            BillingSources.pr_medications := [tablets 31%N] |};
         {| BillingSources.prescription_id := 42%N;
            BillingSources.pr_patient := 7%N;
            BillingSources.pr_doctor := 9%N;
            BillingSources.pr_medications := [tablets 31%N; tablets 32%N] |} ];
     BillingSources.medications :=
       [ {| BillingSources.medication_id := 31%N;
            BillingSources.med_name := Some "Paracetamol"%string;
            BillingSources.med_price := Some 2 |} ] |}.

(** An order of lab tests for patient 7. *)
Definition labOrder (id : ObjectId) (ids : list ObjectId)
    : BillingSources.LabReq :=
  {| BillingSources.lab_env := {| now := Sample.january; freshId := id |};
     BillingSources.lab_today := "1/15/2025"%string;
     BillingSources.lab_user := Sample.staff;
     BillingSources.lab_body :=
       {| BillingSources.l_labTestIds := Some ids;
          BillingSources.l_patientId := Some 7%N;
          BillingSources.l_paymentMethod := None;
          BillingSources.l_paidAmount := None |} |}.

(** A request to bill prescription [p]. *)
Definition dispense (id : ObjectId) (p : ObjectId)
    : BillingSources.PharmacyReq :=
  {| BillingSources.ph_env := {| now := Sample.january; freshId := id |};
     BillingSources.ph_today := "1/15/2025"%string;
     BillingSources.ph_user := Sample.staff;
     BillingSources.ph_body :=
       {| BillingSources.ph_prescriptionId := Some p;
          BillingSources.ph_paymentMethod := None;
          BillingSources.ph_paidAmount := None |} |}.

(** Every invoice of the hospital, on the first page and on the fifth. *)
Definition everyInvoice (page : option string)
    : BillingQueries.InvoicesQuery :=
  {| BillingQueries.q_patientId := None;
     BillingQueries.q_doctorId := None;
     BillingQueries.q_startDate := None;
     BillingQueries.q_endDate := None;
     BillingQueries.q_paymentStatus := None;
     BillingQueries.q_invoiceType := None;
     BillingQueries.q_page := page;
     BillingQueries.q_limit := None |}.

(** A walk-in customer buys the given lines at hospital 1. *)
Definition counterSale (l : list WalkInPharmacy.ItemInput)
    : WalkInPharmacy.SaleReq :=
  {| WalkInPharmacy.wp_env := {| now := Sample.january; freshId := 400%N |};
     WalkInPharmacy.wp_user :=
       {| WalkInCreation.st_hospital := Some 1%N;
          WalkInCreation.st_id := Some 3%N |};
     WalkInPharmacy.wp_body :=
       {| WalkInPharmacy.wp_customerName := Some "R. Kumar"%string;
          WalkInPharmacy.wp_contactNumber := None;
          WalkInPharmacy.wp_email := None;
          WalkInPharmacy.wp_address := None;
          WalkInPharmacy.wp_items := Some l;
          WalkInPharmacy.wp_paymentMethod := None;
          WalkInPharmacy.wp_paidAmount := None;
          WalkInPharmacy.wp_notes := None |} |}.

(** [q] units of medication [m] at the price of the medication. *)
Definition line (m : ObjectId) (q : JS.Number) : WalkInPharmacy.ItemInput :=
  {| WalkInPharmacy.ii_medicationId := m;
     WalkInPharmacy.ii_quantity := Some q;
     WalkInPharmacy.ii_unitPrice := None |}.

Definition paracetamolTwice : list WalkInPharmacy.ItemInput :=
  [line 31%N 2; line 31%N 3].

Definition unknownMedication : list WalkInPharmacy.ItemInput :=
  [line 32%N 1].

Definition tenTablets : list WalkInPharmacy.ItemInput := [line 31%N 10].

(** The third page of ten. *)
Definition thirdPage : Pagination.Query :=
  {| Pagination.page := Some "3"%string;
     Pagination.limit := Some "10"%string;
     Pagination.sort := None;
     Pagination.fields := None |}.



(** The token of the staff member. *)
Definition staffToken : Auth.Decoded :=
  {| Auth.d_userId := 3%N; Auth.d_role := "staff"%string;
     Auth.d_hospitalId := 1%N |}.

End Sample2.

(** * Properties *)

(** ** Comparisons of floats *)

Module FloatFacts.

Local Open Scope float_scope.

Lemma SFcompare_swap (a b : spec_float) :
  SFcompare b a = option_map CompOpp (SFcompare a b).
Proof.
  destruct a as [sa|sa| |sa ma ea], b as [sb|sb| |sb mb eb]; simpl;
    try reflexivity; try (destruct sa; reflexivity);
    try (destruct sb; reflexivity); try (destruct sa, sb; reflexivity).
  destruct sa, sb; simpl; try reflexivity;
    rewrite (Z.compare_antisym ea eb);
    destruct (ea ?= eb)%Z; simpl; try reflexivity;
    repeat f_equal; exact (eq_sym (Pos.compare_cont_antisym ma mb Eq)).
Qed.

Lemma SFcompare_none (a b : spec_float) :
  SFcompare a b = None <-> a = S754_nan \/ b = S754_nan.
Proof.
  destruct a, b; simpl; split; intros H; try discriminate; auto;
    destruct H; discriminate.
Qed.

(** Both comparisons of a goal read on the comparison of [x] with [y]. *)
Ltac by_comparison x y :=
  rewrite ?ltb_spec, ?leb_spec, ?FloatAxioms.eqb_spec;
  unfold SFltb, SFleb, SFeqb;
  rewrite (SFcompare_swap (Prim2SF x) (Prim2SF y));
  let E := fresh "E" in
  destruct (SFcompare (Prim2SF x) (Prim2SF y)) as [[]|] eqn:E; simpl;
  try congruence;
  try (apply SFcompare_none in E; tauto).

Lemma ltb_true_leb_false (x y : float) :
  (x <? y) = true -> (y <=? x) = false.
Proof. by_comparison x y. Qed.

Lemma leb_true_ltb_false (x y : float) :
  (x <=? y) = true -> (y <? x) = false.
Proof. by_comparison x y. Qed.

Lemma leb_true_number_r (x y : float) :
  (x <=? y) = true -> Prim2SF y <> S754_nan.
Proof.
  rewrite leb_spec. unfold SFleb. intros H E.
  assert (N : SFcompare (Prim2SF x) (Prim2SF y) = None)
    by (apply SFcompare_none; auto).
  rewrite N in H. discriminate.
Qed.

Lemma ltb_false_leb_true (x y : float) :
  Prim2SF x <> S754_nan -> Prim2SF y <> S754_nan ->
  (x <? y) = false -> (y <=? x) = true.
Proof. intros Hx Hy. by_comparison x y. Qed.

Lemma leb_false_ltb_true (x y : float) :
  Prim2SF x <> S754_nan -> Prim2SF y <> S754_nan ->
  (x <=? y) = false -> (y <? x) = true.
Proof. intros Hx Hy. by_comparison x y. Qed.

Lemma leb_antisym_eqb (x y : float) :
  (x <=? y) = true -> (y <=? x) = true -> (x =? y) = true.
Proof. by_comparison x y. Qed.

Lemma ltb_true_eqb_false (x y : float) :
  (x <? y) = true -> (y =? x) = false.
Proof. by_comparison x y. Qed.

End FloatFacts.

(** ** Decimal strings *)

Module StringFacts.

Lemma length_append (a b : string) :
  String.length (a ++ b) = String.length a + String.length b.
Proof. induction a as [|c a IH]; simpl; [reflexivity | now rewrite IH]. Qed.

Lemma length_repeat_char (c : ascii) (n : nat) :
  String.length (JS.repeat_char c n) = n.
Proof. induction n as [|n IH]; simpl; [reflexivity | now rewrite IH]. Qed.

Lemma length_padStart (k : nat) (c : ascii) (s : string) :
  String.length (JS.padStart k c s) = Nat.max k (String.length s).
Proof.
  unfold JS.padStart. rewrite length_append, length_repeat_char. lia.
Qed.

Lemma length_string_of_uint (d : Decimal.uint) :
  String.length (NilEmpty.string_of_uint d) = Decimal.nb_digits d.
Proof. induction d; simpl; congruence. Qed.

Lemma readDecimal_zeros (n : nat) (s : string) :
  Spec.readDecimal (JS.repeat_char "0" n ++ s) = Spec.readDecimal s.
Proof.
  induction n as [|n IH]; simpl; [reflexivity|].
  unfold Spec.readDecimal in *. simpl.
  destruct (NilEmpty.uint_of_string (JS.repeat_char "0" n ++ s)) as [d|];
    destruct (NilEmpty.uint_of_string s) as [d'|]; simpl in *;
    try discriminate; auto.
Qed.

Lemma readDecimal_toString (n : N) :
  Spec.readDecimal (JS.toString n) = Some n.
Proof.
  unfold Spec.readDecimal, JS.toString.
  rewrite NilEmpty.usu. simpl. now rewrite DecimalN.Unsigned.of_to.
Qed.

Lemma readDecimal_padStart (k : nat) (n : N) :
  Spec.readDecimal (JS.padStart k "0" (JS.toString n)) = Some n.
Proof.
  unfold JS.padStart. now rewrite readDecimal_zeros, readDecimal_toString.
Qed.

(** A number below 10000 prints in at most four digits. *)
Lemma toString_short (n : N) :
  (n < 10000)%N -> String.length (JS.toString n) <= 4.
Proof.
  intros H.
  assert (A : forallb (fun k => (String.length (JS.toString (N.of_nat k)) <=? 4)%nat)
                (seq 0 (100 * 100)) = true) by (vm_compute; reflexivity).
  rewrite forallb_forall in A.
  specialize (A (N.to_nat n)). rewrite N2Nat.id in A.
  apply Nat.leb_le, A, in_seq. lia.
Qed.

(** A number from 10 on prints in at least two digits. *)
Lemma toString_long (n : N) :
  (10 <= n)%N -> 2 <= String.length (JS.toString n).
Proof.
  intros H. unfold JS.toString. rewrite length_string_of_uint.
  pose proof (DecimalN.Unsigned.of_to n) as E.
  destruct (N.to_uint n) as [|d|d|d|d|d|d|d|d|d|d]; simpl in *;
    try (destruct d; simpl in *; lia); lia.
Qed.

Lemma length_substring (s : string) (i k : nat) :
  i + k <= String.length s -> String.length (substring i k s) = k.
Proof.
  revert i k. induction s as [|c s IH]; intros i k H; simpl in *.
  - destruct i, k; simpl; lia.
  - destruct i as [|i].
    + destruct k as [|k]; simpl; [reflexivity|]. rewrite IH; lia.
    + apply IH. lia.
Qed.

End StringFacts.

(** ** Invoice numbers *)

Module InvoiceNumber.

Lemma sequenceOf_nil (h : ObjectId) : Spec.sequenceOf h [] = 1%N.
Proof. reflexivity. Qed.

Lemma sequenceOf_snoc (h : ObjectId) (coll : list Invoice) (inv : Invoice) :
  Spec.sequenceOf h (coll ++ [inv]) =
  if N.eqb (hospital inv) h then (Spec.sequenceOf h coll + 1)%N
  else Spec.sequenceOf h coll.
Proof.
  unfold Spec.sequenceOf, InvoiceModel.countDocuments.
  rewrite filter_app, length_app. simpl.
  destruct (N.eqb (hospital inv) h); simpl; lia.
Qed.

Lemma month_two_digits (now : Date) :
  (getMonth now < 12)%N ->
  String.length (JS.padStart 2 "0" (JS.toString (getMonth now + 1))) = 2.
Proof.
  intros H. rewrite StringFacts.length_padStart.
  assert (A : forallb (fun k => (String.length (JS.toString (N.of_nat k))
                                 <=? 2)%nat) (seq 0 13) = true)
    by (vm_compute; reflexivity).
  rewrite forallb_forall in A.
  specialize (A (N.to_nat (getMonth now + 1))). rewrite N2Nat.id in A.
  assert (B : String.length (JS.toString (getMonth now + 1)) <= 2)
    by (apply Nat.leb_le, A, in_seq; lia).
  lia.
Qed.

Lemma year_two_digits (now : Date) :
  (10 <= getFullYear now)%N ->
  String.length (JS.slice_last 2 (JS.toString (getFullYear now))) = 2.
Proof.
  intros H. apply StringFacts.toString_long in H.
  unfold JS.slice_last. apply StringFacts.length_substring. lia.
Qed.

(** C1, as the code has it: the number is [{prefix}-{YY}{MM}-{seq}] with
    [YY] the last two digits of the year and [MM] the month in two digits;
    [seq] is the decimal writing, padded with zeros to at least four digits
    (exactly four below 10000), of one more than the number of invoices
    stored for the hospital.  The counter belongs to the tenant alone: it
    starts at 1, every invoice stored for the hospital advances it by one
    whatever its prefix or month, and invoices of other hospitals leave
    it alone. *)
Theorem generateInvoiceNumber_tenant_counter
    (prefix : string) (h : ObjectId) (now : Date) (coll : list Invoice) :
  exists seq : string,
    InvoiceModel.generateInvoiceNumber prefix h now coll =
      prefix ++ "-" ++ JS.slice_last 2 (JS.toString (getFullYear now)) ++
      JS.padStart 2 "0" (JS.toString (getMonth now + 1)) ++ "-" ++ seq /\
    Spec.readDecimal seq = Some (Spec.sequenceOf h coll) /\
    4 <= String.length seq /\
    ((Spec.sequenceOf h coll < 10000)%N -> String.length seq = 4) /\
    ((getMonth now < 12)%N ->
     String.length (JS.padStart 2 "0" (JS.toString (getMonth now + 1))) = 2) /\
    ((10 <= getFullYear now)%N ->
     String.length (JS.slice_last 2 (JS.toString (getFullYear now))) = 2) /\
    Spec.sequenceOf h [] = 1%N /\
    (forall inv : Invoice,
       Spec.sequenceOf h (coll ++ [inv]) =
       if N.eqb (hospital inv) h then (Spec.sequenceOf h coll + 1)%N
       else Spec.sequenceOf h coll).
Proof.
  exists (JS.padStart 4 "0" (JS.toString (Spec.sequenceOf h coll))).
  split; [reflexivity|].
  split; [apply StringFacts.readDecimal_padStart|].
  split; [rewrite StringFacts.length_padStart; lia|].
  split.
  { intros H. rewrite StringFacts.length_padStart.
    apply StringFacts.toString_short in H. lia. }
  split; [apply month_two_digits|].
  split; [apply year_two_digits|].
  split; [apply sequenceOf_nil|].
  apply sequenceOf_snoc.
Qed.

(** The first invoice of a hospital in January 2025 under the prefix INV is
    numbered INV-2501-0001. *)
Lemma generateInvoiceNumber_tenant_counter_witness :
  exists seq : string,
    InvoiceModel.generateInvoiceNumber "INV" 1%N Sample.january []
      = "INV-2501-" ++ seq /\
    Spec.readDecimal seq = Some 1%N /\
    String.length seq = 4.
Proof.
  destruct (generateInvoiceNumber_tenant_counter "INV" 1%N Sample.january [])
    as (seq & E & R & _ & L & _).
  exists seq. split; [exact E|]. split; [exact R|].
  apply L. reflexivity.
Defined.

(** C1 as stated fails: with one January invoice numbered under the prefix
    INV, the first invoice of the same hospital under the prefix PH in
    February is numbered 0002, where a counter scoped to the prefix and
    the month would restart at 0001. *)
Lemma generateInvoiceNumber_not_scoped :
  InvoiceModel.generateInvoiceNumber "PH" 1%N Sample.february
    Sample.oneJanuaryInvoice = "PH-2502-0002" /\
  Spec.scopedNumber "PH" 1%N Sample.february Sample.oneJanuaryInvoice
    = "PH-2502-0001" /\
  InvoiceModel.generateInvoiceNumber "PH" 1%N Sample.february
    Sample.oneJanuaryInvoice
    <> Spec.scopedNumber "PH" 1%N Sample.february Sample.oneJanuaryInvoice.
Proof.
  repeat split; try (vm_compute; reflexivity).
  vm_compute. discriminate.
Qed.

End InvoiceNumber.

(** ** Saving and the handlers that save *)

Module Saving.

Local Open Scope float_scope.

Lemma zero_number : Prim2SF 0 <> S754_nan.
Proof. vm_compute. discriminate. Qed.

Lemma derive_amounts (now : Date) (inv : Invoice) :
  totalAmount (Mongoose.derive now inv) = totalAmount inv /\
  paidAmount (Mongoose.derive now inv) = paidAmount inv /\
  balanceDue (Mongoose.derive now inv) = totalAmount inv - paidAmount inv.
Proof.
  unfold Mongoose.derive.
  destruct (paidAmount inv <=? 0); [|destruct (paidAmount inv <? totalAmount inv)];
    simpl; auto.
Qed.

Lemma derive_fields (now : Date) (inv : Invoice) :
  _id (Mongoose.derive now inv) = _id inv /\
  invoiceNumber (Mongoose.derive now inv) = invoiceNumber inv /\
  appointment (Mongoose.derive now inv) = appointment inv /\
  hospital (Mongoose.derive now inv) = hospital inv /\
  customerType (Mongoose.derive now inv) = customerType inv /\
  items (Mongoose.derive now inv) = items inv /\
  subtotal (Mongoose.derive now inv) = subtotal inv /\
  gstPercentage (Mongoose.derive now inv) = gstPercentage inv /\
  gstAmount (Mongoose.derive now inv) = gstAmount inv.
Proof.
  unfold Mongoose.derive.
  destruct (paidAmount inv <=? 0); [|destruct (paidAmount inv <? totalAmount inv)];
    simpl; auto 12.
Qed.

(** The three branches of the derivation. *)
Lemma derive_unpaid (now : Date) (inv : Invoice) :
  (paidAmount inv <=? 0) = true ->
  paymentStatus (Mongoose.derive now inv) = unpaid /\
  paymentDate (Mongoose.derive now inv) = paymentDate inv.
Proof. intros H. unfold Mongoose.derive. rewrite H. simpl. auto. Qed.

Lemma derive_partial (now : Date) (inv : Invoice) :
  (paidAmount inv <=? 0) = false ->
  (paidAmount inv <? totalAmount inv) = true ->
  paymentStatus (Mongoose.derive now inv) = partial /\
  paymentDate (Mongoose.derive now inv) = paymentDate inv.
Proof. intros H1 H2. unfold Mongoose.derive. rewrite H1, H2. simpl. auto. Qed.

Lemma derive_paid (now : Date) (inv : Invoice) :
  (paidAmount inv <=? 0) = false ->
  (paidAmount inv <? totalAmount inv) = false ->
  paymentStatus (Mongoose.derive now inv) = paid /\
  paymentDate (Mongoose.derive now inv)
    = Mongoose.or_date (paymentDate inv) now.
Proof. intros H1 H2. unfold Mongoose.derive. rewrite H1, H2. simpl. auto. Qed.

(** The derived state satisfies the rule of the statements, whatever the
    document held before. *)
Lemma derive_statusRule (now : Date) (inv : Invoice) :
  Spec.statusRule (Mongoose.derive now inv).
Proof.
  destruct (derive_amounts now inv) as (Et & Ep & Eb).
  unfold Spec.statusRule. rewrite Et, Ep, Eb.
  split; [reflexivity|]. repeat split.
  - intros H. now apply derive_unpaid.
  - intros H0 H1. apply derive_partial; [|assumption].
    now apply FloatFacts.ltb_true_leb_false.
  - intros H0 H1. apply derive_paid.
    + now apply FloatFacts.ltb_true_leb_false.
    + now apply FloatFacts.leb_true_ltb_false.
Qed.

(** For amounts that passed the minimum validators the status tells the
    case of the amounts. *)
Lemma derive_status_iff (now : Date) (inv : Invoice) :
  (0 <=? totalAmount inv) = true ->
  (0 <=? paidAmount inv) = true ->
  (paymentStatus (Mongoose.derive now inv) = unpaid <->
     (paidAmount inv <=? 0) = true) /\
  (paymentStatus (Mongoose.derive now inv) = paid <->
     (0 <? paidAmount inv) = true /\
     (totalAmount inv <=? paidAmount inv) = true) /\
  (paymentStatus (Mongoose.derive now inv) = partial <->
     (0 <? paidAmount inv) = true /\
     (paidAmount inv <? totalAmount inv) = true).
Proof.
  intros Ht Hp.
  pose proof (FloatFacts.leb_true_number_r _ _ Ht) as Nt.
  pose proof (FloatFacts.leb_true_number_r _ _ Hp) as Np.
  destruct (paidAmount inv <=? 0) eqn:E1.
  - destruct (derive_unpaid now inv E1) as (S & _). rewrite S.
    pose proof (FloatFacts.leb_true_ltb_false _ _ E1) as F.
    rewrite F. repeat split; try congruence; intros (A & _); congruence.
  - pose proof (FloatFacts.leb_false_ltb_true _ _ Np zero_number E1) as P.
    rewrite P.
    destruct (paidAmount inv <? totalAmount inv) eqn:E2.
    + destruct (derive_partial now inv E1 E2) as (S & _). rewrite S.
      pose proof (FloatFacts.ltb_true_leb_false _ _ E2) as F. rewrite F.
      repeat split; try congruence; intros (_ & A); congruence.
    + destruct (derive_paid now inv E1 E2) as (S & _). rewrite S.
      pose proof (FloatFacts.ltb_false_leb_true _ _ Np Nt E2) as F.
      rewrite F.
      repeat split; try congruence; intros (_ & A); congruence.
Qed.

Lemma derive_idempotent (now : Date) (inv : Invoice) :
  Mongoose.derive now (Mongoose.derive now inv) = Mongoose.derive now inv.
Proof.
  unfold Mongoose.derive.
  destruct (paidAmount inv <=? 0) eqn:E1;
    [|destruct (paidAmount inv <? totalAmount inv) eqn:E2];
    simpl; rewrite ?E1, ?E2; simpl; try reflexivity.
  destruct (paymentDate inv); reflexivity.
Qed.

(** What a successful save did. *)
Lemma save_ok (now : Date) (isNew : bool) (doc saved : Invoice)
    (coll coll' : list Invoice) :
  Store.save now isNew doc coll = inr (saved, coll') ->
  Mongoose.validate doc = true /\
  saved = Mongoose.preSave now doc /\
  coll' = (if isNew then (coll ++ [saved])%list
           else map (fun i => if N.eqb (_id i) (_id saved) then saved else i)
                  coll) /\
  (isNew = true ->
   existsb (fun i => N.eqb (_id i) (_id saved) ||
                     String.eqb (invoiceNumber i) (invoiceNumber saved))
     coll = false).
Proof.
  unfold Store.save. destruct (Mongoose.validate doc); simpl; [|discriminate].
  destruct isNew.
  - destruct (existsb _ coll) eqn:E; [discriminate|].
    intros H. inversion H; subst. auto.
  - intros H. inversion H; subst. repeat split; auto. discriminate.
Qed.

Lemma validate_amounts (doc : Invoice) :
  Mongoose.validate doc = true ->
  (0 <=? totalAmount doc) = true /\ (0 <=? paidAmount doc) = true.
Proof.
  unfold Mongoose.validate. intros H.
  repeat (apply andb_true_iff in H; destruct H as [H ?]). auto.
Qed.

Lemma resolveSettings_invoices (u : User) (db : DB) :
  invoices (snd (BillingController.resolveSettings u db)) = invoices db /\
  patients (snd (BillingController.resolveSettings u db)) = patients db /\
  doctors (snd (BillingController.resolveSettings u db)) = doctors db /\
  hospitals (snd (BillingController.resolveSettings u db)) = hospitals db /\
  appointments (snd (BillingController.resolveSettings u db))
    = appointments db.
Proof.
  unfold BillingController.resolveSettings.
  destruct (find _ (settings db)); simpl; auto.
Qed.

End Saving.

Module Handlers.

Import BillingController.

Local Open Scope float_scope.

(** [createInvoice] either answers through [next] and leaves the invoices
    as they were, or stores one validated document, passed through the
    pre-save hook, at the end of the collection and answers 201 with it. *)
Lemma createInvoice_cases (req : CreateInvoiceReq) (db : DB) :
  (exists err,
     fst (createInvoice req db) = Next err /\
     invoices (snd (createInvoice req db)) = invoices db) \/
  (exists doc,
     Mongoose.validate doc = true /\
     fst (createInvoice req db)
       = Json 201 (InvoiceCreated (Mongoose.preSave (now (cr_env req)) doc)) /\
     invoices (snd (createInvoice req db))
       = (invoices db ++ [Mongoose.preSave (now (cr_env req)) doc])%list /\
     _id doc = freshId (cr_env req) /\
     appointment doc = appointmentId (cr_body req) /\
     hospital doc = hospitalId (cr_user req) /\
     Spec.totalsRule doc /\
     paymentDate doc
       = (if PaymentStatus_eqb
               (if paidAmount doc =? 0 then unpaid
                else if paidAmount doc <? totalAmount doc then partial
                else paid) paid
          then Some (now (cr_env req)) else None) /\
     existsb (fun i => N.eqb (_id i) (_id doc) ||
                       String.eqb (invoiceNumber i) (invoiceNumber doc))
       (invoices db) = false).
Proof.
  unfold createInvoice, catchAsync, createInvoiceHandler, missingFields.
  destruct (patientId (cr_body req)) as [pid|];
    [|left; eexists; split; reflexivity].
  destruct (b_invoiceType (cr_body req)) as [ty|];
    [|left; eexists; split; reflexivity].
  destruct (b_items (cr_body req)) as [[|item rest]|];
    try (left; eexists; split; reflexivity).
  destruct (negb (JS.truthy_str ty));
    [left; eexists; split; reflexivity|].
  destruct (negb (existsb (N.eqb pid) (patients db)));
    [left; eexists; split; reflexivity|].
  match goal with
  | |- context [if ?c then (inr (Next (AppError "Doctor not found" 404)), db)
                else _] => destruct c
  end; [left; eexists; split; reflexivity|].
  destruct (negb (existsb (N.eqb (hospitalId (cr_user req))) (hospitals db)));
    [left; eexists; split; reflexivity|].
  pose proof (Saving.resolveSettings_invoices (cr_user req) db) as (Ei & _).
  destruct (resolveSettings (cr_user req) db) as [bs db1]. simpl in Ei.
  match goal with
  | |- context [Store.save ?n true ?d ?c] =>
      destruct (Store.save n true d c) as [err|[saved coll]] eqn:S
  end.
  - left. eexists. split; [reflexivity|]. exact Ei.
  - right. apply Saving.save_ok in S. destruct S as (V & E & C & U).
    specialize (U eq_refl). subst saved. subst coll.
    match type of V with
    | Mongoose.validate ?d = true =>
        destruct (Saving.derive_fields (now (cr_env req)) d) as (F1 & F2 & _);
        exists d
    end.
    unfold Mongoose.preSave in *. rewrite F1, F2 in U.
    split; [exact V|]. simpl. rewrite <- Ei.
    repeat split; try reflexivity. exact U.
Qed.

(** [createInvoice] writes to the invoices and the settings only. *)
Lemma createInvoice_appointments (req : CreateInvoiceReq) (db : DB) :
  appointments (snd (createInvoice req db)) = appointments db.
Proof.
  unfold createInvoice, catchAsync, createInvoiceHandler, missingFields.
  destruct (patientId (cr_body req)) as [pid|]; [|reflexivity].
  destruct (b_invoiceType (cr_body req)) as [ty|]; [|reflexivity].
  destruct (b_items (cr_body req)) as [[|item rest]|]; try reflexivity.
  destruct (negb (JS.truthy_str ty)); [reflexivity|].
  destruct (negb (existsb (N.eqb pid) (patients db))); [reflexivity|].
  match goal with
  | |- context [if ?c then (inr (Next (AppError "Doctor not found" 404)), db)
                else _] => destruct c
  end; [reflexivity|].
  destruct (negb (existsb (N.eqb (hospitalId (cr_user req))) (hospitals db)));
    [reflexivity|].
  pose proof (Saving.resolveSettings_invoices (cr_user req) db)
    as (_ & _ & _ & _ & Ea).
  destruct (resolveSettings (cr_user req) db) as [bs db1]. simpl in Ea.
  match goal with
  | |- context [Store.save ?n true ?d ?c] =>
      destruct (Store.save n true d c) as [err|[saved coll]]
  end; simpl; exact Ea.
Qed.

Lemma applyPayment_fields (body : PaymentBody) (inv : Invoice) :
  _id (applyPayment body inv) = _id inv /\
  totalAmount (applyPayment body inv) = totalAmount inv /\
  hospital (applyPayment body inv) = hospital inv /\
  appointment (applyPayment body inv) = appointment inv.
Proof. unfold applyPayment. simpl. auto. Qed.

(** [updateInvoicePayment] either answers through [next] and changes
    nothing, or replaces the stored invoice by the derived document and
    answers 200 with it. *)
Lemma updateInvoicePayment_cases (req : PaymentReq) (db : DB) :
  (exists err,
     fst (updateInvoicePayment req db) = Next err /\
     snd (updateInvoicePayment req db) = db) \/
  (exists old doc,
     InvoiceModel.findById (pr_id req) (invoices db) = Some old /\
     doc = Mongoose.derive (now (pr_env req)) (applyPayment (pr_body req) old) /\
     Mongoose.validate doc = true /\
     fst (updateInvoicePayment req db) = Json 200 (PaymentUpdated doc) /\
     invoices (snd (updateInvoicePayment req db))
       = map (fun i => if N.eqb (_id i) (_id old) then doc else i)
           (invoices db)).
Proof.
  unfold updateInvoicePayment, catchAsync, updateInvoicePaymentHandler.
  destruct (InvoiceModel.findById (pr_id req) (invoices db)) as [old|];
    [|left; eexists; split; reflexivity].
  match goal with
  | |- context [Store.save ?n false ?d ?c] =>
      destruct (Store.save n false d c) as [err|[saved coll]] eqn:S
  end.
  - left. eexists. split; reflexivity.
  - right. apply Saving.save_ok in S. destruct S as (V & E & C & _).
    unfold Mongoose.preSave in E. rewrite Saving.derive_idempotent in E.
    subst saved coll. exists old. eexists. split; [reflexivity|].
    split; [reflexivity|]. split; [exact V|]. simpl.
    destruct (Saving.derive_fields (now (pr_env req))
                (applyPayment (pr_body req) old)) as (F1 & _).
    destruct (applyPayment_fields (pr_body req) old) as (G1 & _).
    rewrite F1, G1. split; reflexivity.
Qed.

Lemma number_not_empty (prefix : string) (h : ObjectId) (now : Date)
    (coll : list Invoice) :
  JS.truthy_str (InvoiceModel.generateInvoiceNumber prefix h now coll) = true.
Proof.
  unfold InvoiceModel.generateInvoiceNumber. destruct prefix; reflexivity.
Qed.

Lemma type_not_empty (ty : string) :
  Mongoose.mem ty Mongoose.invoiceTypeEnum = true -> JS.truthy_str ty = true.
Proof.
  unfold Mongoose.mem. intros H. apply existsb_exists in H.
  destruct H as (x & I & E). apply String.eqb_eq in E. subst x.
  simpl in I. destruct I as [I|[I|[I|[]]]]; subst ty; reflexivity.
Qed.

(** The settings are resolved once: a second look-up returns the record of
    the first and writes nothing. *)
Lemma resolveSettings_again (user : User) (db : DB) :
  resolveSettings user (snd (resolveSettings user db))
    = (fst (resolveSettings user db), snd (resolveSettings user db)).
Proof.
  unfold resolveSettings.
  destruct (find (fun s => N.eqb (bs_hospital s) (hospitalId user))
              (settings db)) as [t|] eqn:F; cbn [fst snd].
  - now rewrite F.
  - cbn [settings set_settings].
    assert (G : forall l,
               find (fun s => N.eqb (bs_hospital s) (hospitalId user)) l
                 = None ->
               find (fun s => N.eqb (bs_hospital s) (hospitalId user))
                 (l ++ [defaultSettings (hospitalId user) (userId user)])%list
               = Some (defaultSettings (hospitalId user) (userId user))).
    { induction l as [|x l IH]; simpl; intros H.
      - now rewrite N.eqb_refl.
      - destruct (N.eqb (bs_hospital x) (hospitalId user)); [discriminate|].
        now apply IH. }
    now rewrite (G _ F).
Qed.

Lemma derive_prescription (now : Date) (inv : Invoice) :
  prescription (Mongoose.derive now inv) = prescription inv.
Proof.
  unfold Mongoose.derive.
  destruct (paidAmount inv <=? 0);
    [|destruct (paidAmount inv <? totalAmount inv)]; reflexivity.
Qed.

(** The amount paid that a generated request carries is read back as it
    is by [createInvoice]. *)
Lemma paid_again (x : option JS.Number) :
  JS.or_num (JS.parseFloat (Some (JS.or_num (JS.parseFloat x) 0))) 0
    = JS.or_num (JS.parseFloat x) 0.
Proof.
  unfold JS.or_num at 2 3.
  destruct (JS.truthy (JS.parseFloat x)) eqn:T; [|reflexivity].
  unfold JS.parseFloat at 1.
  assert (Z : (JS.parseFloat x =? 0) = false).
  { unfold JS.truthy in T. apply negb_true_iff in T.
    apply orb_false_iff in T. tauto. }
  rewrite Z. unfold JS.or_num. now rewrite T.
Qed.

(** A creation that nothing stands against is answered 201 and stored:
    the patient, the doctor when one is given and the hospital exist, the
    values pass the validators of the schema, and no stored invoice has
    the new [_id] or the generated number. *)
Lemma createInvoice_accepts (req : CreateInvoiceReq) (db : DB)
    (pid : ObjectId) (ty : string) (its : list InvoiceItem) :
  patientId (cr_body req) = Some pid ->
  b_invoiceType (cr_body req) = Some ty ->
  b_items (cr_body req) = Some its -> its <> [] ->
  existsb (N.eqb pid) (patients db) = true ->
  (forall d, doctorId (cr_body req) = Some d ->
     existsb (fun x => N.eqb (doctor_id x) d) (doctors db) = true) ->
  existsb (N.eqb (hospitalId (cr_user req))) (hospitals db) = true ->
  Spec.accepted ty its
    (bs_gstPercentage (fst (resolveSettings (cr_user req) db)))
    (JS.or_num (JS.parseFloat (b_paidAmount (cr_body req))) 0)
    (match b_paymentMethod (cr_body req) with
     | Some m => m
     | None => "Cash"%string
     end) = true ->
  (forall i, In i (invoices db) ->
     _id i <> freshId (cr_env req) /\
     invoiceNumber i
       <> InvoiceModel.generateInvoiceNumber
            (invoicePrefix (fst (resolveSettings (cr_user req) db)))
            (hospitalId (cr_user req)) (now (cr_env req)) (invoices db)) ->
  exists saved : Invoice,
    createInvoice req db
      = (Json 201 (InvoiceCreated saved),
         set_invoices (invoices db ++ [saved])%list
           (snd (resolveSettings (cr_user req) db))) /\
    _id saved = freshId (cr_env req) /\
    appointment saved = appointmentId (cr_body req) /\
    prescription saved = prescriptionId (cr_body req).
Proof.
  intros Ep Et Ei Ne P D Hh A U.
  unfold Spec.accepted in A.
  repeat (apply andb_true_iff in A; destruct A as (A & ?)).
  unfold createInvoice, catchAsync, createInvoiceHandler.
  rewrite Ep, Et, Ei. destruct its as [|item rest]; [contradiction|].
  rewrite (type_not_empty ty A), P. cbn [negb].
  assert (Dx : match doctorId (cr_body req) with
               | Some d => negb (existsb (fun x => N.eqb (doctor_id x) d)
                                   (doctors db))
               | None => false
               end = false).
  { destruct (doctorId (cr_body req)) as [d|]; [|reflexivity].
    now rewrite (D d eq_refl). }
  rewrite Dx, Hh. cbn [negb].
  pose proof (Saving.resolveSettings_invoices (cr_user req) db) as (Ri & _).
  destruct (resolveSettings (cr_user req) db) as [bs db1].
  cbn [fst snd] in *. rewrite Ri.
  unfold Store.save.
  match goal with
  | |- context [Mongoose.validate ?d] =>
      assert (V : Mongoose.validate d = true)
  end.
  { unfold Mongoose.validate.
    cbn [invoiceNumber customerType patient invoiceType items subtotal
         gstPercentage gstAmount totalAmount paidAmount balanceDue
         paymentMethod].
    rewrite number_not_empty, A.
    repeat match goal with
           | H : _ = true |- _ => rewrite H; clear H
           end.
    reflexivity. }
  rewrite V. cbn [negb].
  unfold Mongoose.preSave.
  match goal with
  | |- context [Mongoose.derive ?n ?d] =>
      destruct (Saving.derive_fields n d) as (F1 & F2 & F3 & _);
      pose proof (derive_prescription n d) as F4;
      set (saved := Mongoose.derive n d) in *
  end.
  cbn [_id invoiceNumber appointment prescription] in F1, F2, F3, F4.
  assert (X : existsb
                (fun i => N.eqb (_id i) (_id saved) ||
                          String.eqb (invoiceNumber i) (invoiceNumber saved))
                (invoices db) = false).
  { destruct (existsb _ (invoices db)) eqn:Y; [|reflexivity].
    apply existsb_exists in Y. destruct Y as (i & I & Y).
    destruct (U i I) as (U1 & U2). rewrite F1, F2 in Y.
    apply orb_true_iff in Y. destruct Y as [Y|Y].
    - apply N.eqb_eq in Y. contradiction.
    - apply String.eqb_eq in Y. contradiction. }
  rewrite X. exists saved. auto.
Qed.

End Handlers.

(** ** Payment state *)

Module PaymentState.

Import BillingController.

Local Open Scope float_scope.

Lemma findById_some (id : ObjectId) (coll : list Invoice) (inv : Invoice) :
  InvoiceModel.findById id coll = Some inv -> In inv coll /\ _id inv = id.
Proof.
  unfold InvoiceModel.findById. intros H. apply find_some in H.
  destruct H as (I & E). apply N.eqb_eq in E. auto.
Qed.

Lemma saved_statusIff (now : Date) (doc : Invoice) :
  Mongoose.validate doc = true ->
  Spec.statusIff (Mongoose.derive now doc).
Proof.
  intros V. apply Saving.validate_amounts in V. destruct V as (Ht & Hp).
  destruct (Saving.derive_amounts now doc) as (Et & Ep & Eb).
  destruct (Saving.derive_status_iff now doc Ht Hp) as (A & B & C).
  unfold Spec.statusIff. rewrite Et, Ep, Eb. auto.
Qed.

(** C2, as the code has it: the invoice that a creation or a payment update
    stores has status unpaid exactly when paidAmount <= 0, paid exactly
    when paidAmount > 0 and paidAmount >= totalAmount, and partial exactly
    when 0 < paidAmount < totalAmount; its balanceDue is the difference
    totalAmount - paidAmount, not clamped.  The creation appends that one
    invoice; the update replaces the invoice of the given id and no other. *)
Theorem stored_payment_state :
  (forall (req : CreateInvoiceReq) (db : DB) (saved : Invoice),
     fst (createInvoice req db) = Json 201 (InvoiceCreated saved) ->
     invoices (snd (createInvoice req db)) = (invoices db ++ [saved])%list /\
     Spec.statusIff saved) /\
  (forall (req : PaymentReq) (db : DB) (saved : Invoice),
     fst (updateInvoicePayment req db) = Json 200 (PaymentUpdated saved) ->
     In saved (invoices (snd (updateInvoicePayment req db))) /\
     invoices (snd (updateInvoicePayment req db))
       = map (fun i => if N.eqb (_id i) (pr_id req) then saved else i)
           (invoices db) /\
     Spec.statusIff saved).
Proof.
  split.
  - intros req db saved H.
    destruct (Handlers.createInvoice_cases req db)
      as [(err & E & _)|(doc & V & E & C & _)];
      rewrite E in H; [discriminate|].
    inversion H; subst saved. split; [exact C|].
    now apply saved_statusIff.
  - intros req db saved H.
    destruct (Handlers.updateInvoicePayment_cases req db)
      as [(err & E & _)|(old & doc & F & D & V & E & C)];
      rewrite E in H; [discriminate|].
    inversion H; subst saved.
    apply findById_some in F. destruct F as (I & Eid).
    rewrite C, Eid. split; [|split; [reflexivity|]].
    + apply in_map_iff. exists old. split; [|exact I].
      rewrite <- Eid, N.eqb_refl. reflexivity.
    + clear H C E. rewrite D in V |- *.
      rewrite <- (Saving.derive_idempotent (now (pr_env req))).
      now apply saved_statusIff.
Qed.

(** An overpayment of 150 on a total of 100 is stored with the negative
    balance -50 and the status paid. *)
Lemma stored_payment_state_witness :
  Spec.statusIff
    (Sample.stored 100%N "INV-2501-0001" 1%N 100 150 paid
       (Some Sample.february)) /\
  balanceDue
    (Sample.stored 100%N "INV-2501-0001" 1%N 100 150 paid
       (Some Sample.february)) = (-50)%float.
Proof.
  split; [|reflexivity].
  exact (proj2 (proj2 (proj2 stored_payment_state
    (Sample.payment 100%N Sample.february (Some 150))
    (set_invoices
       [Sample.stored 100%N "INV-2501-0001" 1%N 100 0 unpaid None]
       Sample.clinic)
    (Sample.stored 100%N "INV-2501-0001" 1%N 100 150 paid
       (Some Sample.february))
    eq_refl))).
Defined.

(** C2 as stated fails: an invoice for a free item, created with nothing
    paid, has paidAmount >= totalAmount (both are 0) and is stored with the
    status unpaid, so "paid if and only if paidAmount >= totalAmount" does
    not hold of it. *)
Lemma free_invoice_created_unpaid :
  exists saved : Invoice,
    fst (createInvoice
           (Sample.manual 100%N Sample.january
              [Sample.item "Free screening" 1 0 None] None)
           Sample.clinic) = Json 201 (InvoiceCreated saved) /\
    (totalAmount saved <=? paidAmount saved) = true /\
    paymentStatus saved = unpaid /\
    ~ (paymentStatus saved = paid <->
       (totalAmount saved <=? paidAmount saved) = true).
Proof.
  eexists. split; [vm_compute; reflexivity|].
  split; [vm_compute; reflexivity|].
  split; [vm_compute; reflexivity|].
  vm_compute. intros (_ & H). specialize (H eq_refl). discriminate.
Qed.

Lemma statusRule_replace (coll : list Invoice) (id : ObjectId)
    (doc : Invoice) :
  Spec.statusRule doc ->
  Forall Spec.statusRule coll ->
  Forall Spec.statusRule
    (map (fun i => if N.eqb (_id i) id then doc else i) coll).
Proof.
  intros D H. induction H as [|i l Hi Hl IH]; simpl; constructor; auto.
  destruct (N.eqb (_id i) id); assumption.
Qed.

(** C9, as the code has it: the pre-save hook overwrites whatever balanceDue,
    paymentStatus and paymentDate the caller placed, so that every saved
    invoice has balanceDue = totalAmount - paidAmount and status unpaid
    when paidAmount <= 0, partial when 0 < paidAmount < totalAmount, and
    paid when paidAmount > 0 and paidAmount >= totalAmount; creation and
    payment update keep this true of every stored invoice. *)
Theorem save_recomputes_payment_state :
  (forall (now : Date) (inv : Invoice) (b : JS.Number) (s : PaymentStatus)
          (d : option Date),
     Spec.statusRule (Mongoose.preSave now (Mongoose.set_derived inv b s d)) /\
     balanceDue (Mongoose.preSave now (Mongoose.set_derived inv b s d))
       = totalAmount inv - paidAmount inv /\
     paymentStatus (Mongoose.preSave now (Mongoose.set_derived inv b s d))
       = paymentStatus (Mongoose.preSave now inv)) /\
  (forall (now : Date) (isNew : bool) (doc saved : Invoice)
          (coll coll' : list Invoice),
     Store.save now isNew doc coll = inr (saved, coll') ->
     Spec.statusRule saved) /\
  (forall (req : CreateInvoiceReq) (db : DB),
     Forall Spec.statusRule (invoices db) ->
     Forall Spec.statusRule (invoices (snd (createInvoice req db)))) /\
  (forall (req : PaymentReq) (db : DB),
     Forall Spec.statusRule (invoices db) ->
     Forall Spec.statusRule (invoices (snd (updateInvoicePayment req db)))).
Proof.
  split; [|split; [|split]].
  - intros now inv b s d.
    split; [apply (Saving.derive_statusRule now (Mongoose.set_derived inv b s d))|].
    split;
      [apply (Saving.derive_amounts now (Mongoose.set_derived inv b s d))|].
    unfold Mongoose.preSave, Mongoose.derive. simpl.
    destruct (paidAmount inv <=? 0);
      [|destruct (paidAmount inv <? totalAmount inv)]; reflexivity.
  - intros now isNew doc saved coll coll' H.
    apply Saving.save_ok in H. destruct H as (_ & E & _). subst saved.
    apply Saving.derive_statusRule.
  - intros req db H.
    destruct (Handlers.createInvoice_cases req db)
      as [(err & _ & C)|(doc & _ & _ & C & _)]; rewrite C; [exact H|].
    apply Forall_app. split; [exact H|]. constructor; [|constructor].
    apply Saving.derive_statusRule.
  - intros req db H.
    destruct (Handlers.updateInvoicePayment_cases req db)
      as [(err & _ & C)|(old & doc & _ & D & _ & _ & C)]; rewrite C;
      [exact H|].
    apply statusRule_replace; [|exact H]. subst doc.
    apply Saving.derive_statusRule.
Qed.

Lemma clinicPaid_statusRule : Forall Spec.statusRule (invoices Sample.clinicPaid).
Proof.
  constructor; [|constructor]. unfold Spec.statusRule. simpl.
  split; [reflexivity|].
  repeat split; intros H; try intros H'; vm_compute in H; try discriminate;
    reflexivity.
Defined.

(** The invariant survives a payment of 200 on the paid invoice of the
    sample clinic. *)
Lemma save_recomputes_payment_state_witness :
  Forall Spec.statusRule
    (invoices (snd (updateInvoicePayment
                      (Sample.payment 100%N Sample.march (Some 200))
                      Sample.clinicPaid))).
Proof.
  exact (proj2 (proj2 (proj2 save_recomputes_payment_state))
           (Sample.payment 100%N Sample.march (Some 200)) Sample.clinicPaid
           clinicPaid_statusRule).
Defined.

(** C9 as stated fails: a document with totalAmount 0 and paidAmount 0 on
    which the caller placed the status paid is saved with the status
    unpaid, although its paidAmount >= totalAmount. *)
Lemma save_free_invoice_unpaid :
  exists saved : Invoice,
    Store.save Sample.january true
      (Sample.stored 100%N "INV-2501-0001" 1%N 0 0 paid None) []
      = inr (saved, [saved]) /\
    paymentStatus saved = unpaid /\
    ~ Spec.paidWhenCovered saved.
Proof.
  eexists. split; [vm_compute; reflexivity|].
  split; [reflexivity|].
  unfold Spec.paidWhenCovered. simpl. intros H.
  specialize (H eq_refl). discriminate.
Qed.

(** C5, as the code has it: when paidAmount <= 0 the status becomes unpaid
    and the paymentDate stays what it was (none at a creation; what the
    invoice or the request of a payment update carries); when
    paidAmount > 0 and paidAmount >= totalAmount the status becomes paid
    and the paymentDate is kept when there is one and set to the current
    time otherwise.  This holds of the pre-save hook, of the invoice a
    payment update stores and of the invoice a creation stores. *)
Theorem payment_date_derivation :
  (forall (now : Date) (inv : Invoice),
     ((paidAmount inv <=? 0) = true ->
      paymentStatus (Mongoose.preSave now inv) = unpaid /\
      paymentDate (Mongoose.preSave now inv) = paymentDate inv) /\
     ((0 <? paidAmount inv) = true ->
      (totalAmount inv <=? paidAmount inv) = true ->
      paymentStatus (Mongoose.preSave now inv) = paid /\
      paymentDate (Mongoose.preSave now inv)
        = Some (match paymentDate inv with Some d => d | None => now end))) /\
  (forall (req : PaymentReq) (db : DB) (old saved : Invoice),
     InvoiceModel.findById (pr_id req) (invoices db) = Some old ->
     fst (updateInvoicePayment req db) = Json 200 (PaymentUpdated saved) ->
     ((paidAmount saved <=? 0) = true ->
      paymentStatus saved = unpaid /\
      paymentDate saved = paymentDate (applyPayment (pr_body req) old)) /\
     ((0 <? paidAmount saved) = true ->
      (totalAmount saved <=? paidAmount saved) = true ->
      paymentStatus saved = paid /\
      paymentDate saved
        = Some (match paymentDate (applyPayment (pr_body req) old) with
                | Some d => d
                | None => now (pr_env req)
                end))) /\
  (forall (req : CreateInvoiceReq) (db : DB) (saved : Invoice),
     fst (createInvoice req db) = Json 201 (InvoiceCreated saved) ->
     ((paidAmount saved <=? 0) = true ->
      paymentStatus saved = unpaid /\ paymentDate saved = None) /\
     ((0 <? paidAmount saved) = true ->
      (totalAmount saved <=? paidAmount saved) = true ->
      paymentStatus saved = paid /\
      paymentDate saved = Some (now (cr_env req)))).
Proof.
  assert (Hook : forall (now : Date) (inv : Invoice),
     ((paidAmount inv <=? 0) = true ->
      paymentStatus (Mongoose.derive now inv) = unpaid /\
      paymentDate (Mongoose.derive now inv) = paymentDate inv) /\
     ((0 <? paidAmount inv) = true ->
      (totalAmount inv <=? paidAmount inv) = true ->
      paymentStatus (Mongoose.derive now inv) = paid /\
      paymentDate (Mongoose.derive now inv)
        = Some (match paymentDate inv with Some d => d | None => now end))).
  { intros now inv. split.
    - apply Saving.derive_unpaid.
    - intros H0 H1.
      destruct (Saving.derive_paid now inv
                  (FloatFacts.ltb_true_leb_false _ _ H0)
                  (FloatFacts.leb_true_ltb_false _ _ H1)) as (S & D).
      split; [exact S|]. rewrite D. destruct (paymentDate inv); reflexivity. }
  split; [exact Hook|]. split.
  - intros req db old saved F H.
    destruct (Handlers.updateInvoicePayment_cases req db)
      as [(err & E & _)|(old' & doc & F' & D & _ & E & _)];
      rewrite E in H; [discriminate|].
    inversion H; subst saved. clear H E.
    rewrite F in F'. inversion F'; subst old'. subst doc.
    destruct (Saving.derive_amounts (now (pr_env req))
                (applyPayment (pr_body req) old)) as (Et & Ep & _).
    rewrite Et, Ep. apply Hook.
  - intros req db saved H.
    destruct (Handlers.createInvoice_cases req db)
      as [(err & E & _)|(doc & V & E & _ & _ & _ & _ & _ & P & _)];
      rewrite E in H; [discriminate|].
    inversion H; subst saved. clear H E. unfold Mongoose.preSave.
    destruct (Saving.derive_amounts (now (cr_env req)) doc) as (Et & Ep & _).
    rewrite Et, Ep.
    apply Saving.validate_amounts in V. destruct V as (_ & Vp).
    destruct (Hook (now (cr_env req)) doc) as (H1 & H2). split.
    + intros L. destruct (H1 L) as (S & D). split; [exact S|].
      rewrite D, P.
      rewrite (FloatFacts.leb_antisym_eqb _ _ L Vp). reflexivity.
    + intros L0 L1. destruct (H2 L0 L1) as (S & D). split; [exact S|].
      rewrite D, P.
      rewrite (FloatFacts.ltb_true_eqb_false _ _ L0).
      rewrite (FloatFacts.leb_true_ltb_false _ _ L1). reflexivity.
Qed.

(** A payment of 500 in March on an unpaid invoice of 500 stores the
    status paid and the date of March. *)
Lemma payment_date_derivation_witness :
  paymentStatus
    (Sample.stored 100%N "INV-2501-0001" 1%N 500 500 paid
       (Some Sample.march)) = paid /\
  paymentDate
    (Sample.stored 100%N "INV-2501-0001" 1%N 500 500 paid
       (Some Sample.march)) = Some Sample.march.
Proof.
  exact (proj2 (proj1 (proj2 payment_date_derivation)
    (Sample.payment 100%N Sample.march (Some 500))
    (set_invoices
       [Sample.stored 100%N "INV-2501-0001" 1%N 500 0 unpaid None]
       Sample.clinic)
    (Sample.stored 100%N "INV-2501-0001" 1%N 500 0 unpaid None)
    (Sample.stored 100%N "INV-2501-0001" 1%N 500 500 paid
       (Some Sample.march))
    eq_refl eq_refl) eq_refl eq_refl).
Defined.

(** C5 as stated fails: a payment update to 0 in March on an invoice paid
    in January stores the status unpaid and keeps the payment date of
    January. *)
Lemma payment_date_not_cleared :
  exists saved : Invoice,
    fst (updateInvoicePayment
           (Sample.payment 100%N Sample.march (Some 0)) Sample.clinicPaid)
      = Json 200 (PaymentUpdated saved) /\
    (paidAmount saved <=? 0) = true /\
    paymentStatus saved = unpaid /\
    paymentDate saved = Some Sample.january /\
    paymentDate saved <> None.
Proof.
  eexists. split; [vm_compute; reflexivity|].
  repeat split; try reflexivity. discriminate.
Qed.

End PaymentState.

(** ** Totals *)

Module Totals.

Import BillingController.

Local Open Scope float_scope.

Lemma derive_totalsRule (now : Date) (inv : Invoice) :
  Spec.totalsRule inv -> Spec.totalsRule (Mongoose.derive now inv).
Proof.
  destruct (Saving.derive_fields now inv)
    as (_ & _ & _ & _ & _ & Ei & Es & Ep & Eg).
  destruct (Saving.derive_amounts now inv) as (Et & _).
  unfold Spec.totalsRule. rewrite Ei, Es, Ep, Eg, Et. auto.
Qed.

(** C3, as the code has it: in the double arithmetic of JavaScript the
    subtotal is the sum of the item amounts taken from the left starting at
    0, the tax is (subtotal * taxPercentage) / 100 and the total is
    subtotal + tax, each operation rounded to the nearest double; this
    holds of [calculateTotals], of the totals of a walk-in pharmacy invoice
    and of the invoice a creation stores. *)
Theorem totals_in_double_arithmetic :
  (forall (items : list InvoiceItem) (pct : JS.Number),
     processedItems (calculateTotals items pct) = map processItem items /\
     t_subtotal (calculateTotals items pct)
       = fold_left (fun sum item => sum + JS.toNumber (amount item))
           (processedItems (calculateTotals items pct)) 0 /\
     t_gstAmount (calculateTotals items pct)
       = (t_subtotal (calculateTotals items pct) * pct) / 100 /\
     t_totalAmount (calculateTotals items pct)
       = t_subtotal (calculateTotals items pct)
         + t_gstAmount (calculateTotals items pct)) /\
  (forall (items : list InvoiceItem) (pct : JS.Number),
     WalkInController.w_subtotal (WalkInController.pharmacyTotals items pct)
       = fold_left (fun sum item => sum + JS.toNumber (amount item)) items 0 /\
     WalkInController.w_gstAmount (WalkInController.pharmacyTotals items pct)
       = (WalkInController.w_subtotal
            (WalkInController.pharmacyTotals items pct) * pct) / 100 /\
     WalkInController.w_totalAmount (WalkInController.pharmacyTotals items pct)
       = WalkInController.w_subtotal
           (WalkInController.pharmacyTotals items pct)
         + WalkInController.w_gstAmount
             (WalkInController.pharmacyTotals items pct)) /\
  (forall (req : CreateInvoiceReq) (db : DB) (saved : Invoice),
     fst (createInvoice req db) = Json 201 (InvoiceCreated saved) ->
     Spec.totalsRule saved).
Proof.
  split; [|split].
  - intros items pct. repeat split.
  - intros items pct. repeat split.
  - intros req db saved H.
    destruct (Handlers.createInvoice_cases req db)
      as [(err & E & _)|(doc & _ & E & _ & _ & _ & _ & T & _)];
      rewrite E in H; [discriminate|].
    inversion H; subst saved. now apply derive_totalsRule.
Qed.

(** At 18 percent, two items of 500 and one of 1000 are stored with the
    subtotal 2000, the tax 360 and the total 2360. *)
Lemma totals_in_double_arithmetic_witness :
  exists saved : Invoice,
    Spec.totalsRule saved /\
    subtotal saved = 2000 /\ gstAmount saved = 360 /\
    totalAmount saved = 2360.
Proof.
  eexists. split.
  - apply (proj2 (proj2 totals_in_double_arithmetic)
             (Sample.manual 100%N Sample.january
                [Sample.item "Consultation" 2 500 None;
                 Sample.item "Procedure" 1 1000 None] None)
             Sample.clinic).
    vm_compute. reflexivity.
  - repeat split.
Defined.

(** C3 as stated fails: for one hundred items at 0.1 the subtotal is
    9.9999999999999805, which is neither 10 nor the sum of the hundred
    amounts as rational numbers; and the total is not the sum, as rational
    numbers, of that subtotal and of the tax. *)
Lemma totals_drift :
  t_subtotal (calculateTotals Sample.hundredTablets 18)
    = 9.9999999999999805 /\
  (t_subtotal (calculateTotals Sample.hundredTablets 18) =? 10) = false /\
  Spec.sameQ
    (Spec.exact (t_subtotal (calculateTotals Sample.hundredTablets 18)))
    (Spec.exactSum
       (map (fun i => JS.toNumber (amount i))
          (processedItems (calculateTotals Sample.hundredTablets 18))))
    = false /\
  Spec.sameQ
    (Spec.exact (t_totalAmount (calculateTotals Sample.hundredTablets 18)))
    (Spec.exactSum
       [t_subtotal (calculateTotals Sample.hundredTablets 18);
        t_gstAmount (calculateTotals Sample.hundredTablets 18)])
    = false.
Proof. repeat split; vm_compute; reflexivity. Qed.

(** An amount that is supplied and is not zero (nor [NaN]) is kept. *)
Lemma processItem_keeps_amount (item : InvoiceItem) (a : JS.Number) :
  amount item = Some a -> JS.truthy a = true ->
  amount (processItem item) = Some a.
Proof. intros E T. unfold processItem. simpl. rewrite E. simpl. now rewrite T. Qed.

(** A missing amount is computed from the quantity and the unit price. *)
Lemma processItem_computes_amount (item : InvoiceItem) :
  amount item = None ->
  amount (processItem item)
    = Some (JS.toNumber (quantity item) * JS.toNumber (unitPrice item)).
Proof. intros E. unfold processItem. simpl. now rewrite E. Qed.

(** C6: a supplied amount of 0 is not kept.  An item of quantity 2 and unit
    price 500 whose amount the caller set to 0 is processed to the amount
    1000, and the invoice is stored with that amount and the total 1180. *)
Theorem zero_amount_is_recomputed :
  amount (processItem (Sample.item "Waived consultation" 2 500 (Some 0)))
    = Some 1000 /\
  exists saved : Invoice,
    fst (createInvoice
           (Sample.manual 100%N Sample.january
              [Sample.item "Waived consultation" 2 500 (Some 0)] None)
           Sample.clinic) = Json 201 (InvoiceCreated saved) /\
    map amount (items saved) = [Some 1000] /\
    totalAmount saved = 1180.
Proof.
  split; [reflexivity|].
  eexists. split; [vm_compute; reflexivity|]. split; reflexivity.
Qed.

End Totals.

(** ** Statistics *)

Module Statistics.

Import BillingController.

Local Open Scope float_scope.

(** What the [$group] stage with [_id: null] and the default of the handler
    give for the matched invoices: their number and the three sums, all 0
    when nothing matched. *)
Lemma summarize_sums (docs : list Invoice) :
  summarize docs =
  {| totalInvoices := List.length docs;
     s_totalAmount := sumOf totalAmount docs;
     s_paidAmount := sumOf paidAmount docs;
     pendingAmount := sumOf balanceDue docs |}.
Proof. destruct docs; reflexivity. Qed.

Lemma matches_range (h : ObjectId) (r : Range) (i : Invoice) :
  matches h r i = true <->
  hospital i = h /\
  (getTime (range_start r) <= getTime (invoiceDate i) <= getTime (range_end r))%Z.
Proof.
  unfold matches. rewrite !andb_true_iff, N.eqb_eq, !Z.leb_le. tauto.
Qed.

(** C8: the handler never reaches its pipelines.  The name [mongoose] is
    not bound in the module, so building the [$match] stage throws, and
    every request is answered through [next] with that error. *)
Theorem getBillingStatistics_throws (req : StatisticsReq) (db : DB) :
  getBillingStatistics req db
    = (Next (ReferenceError "mongoose is not defined"), db).
Proof. reflexivity. Qed.

End Statistics.

(** ** Walk-in invoices *)

Module WalkIn.

Import WalkInController.

Local Open Scope float_scope.

Lemma find_unique (f : Invoice -> bool) (coll : list Invoice) (inv x : Invoice) :
  NoDup (map _id coll) -> In inv coll -> find f coll = Some x ->
  _id x = _id inv -> x = inv.
Proof.
  induction coll as [|c l IH]; simpl; intros N I F E; [contradiction|].
  inversion N as [|? ? Nc Nl]; subst.
  destruct (f c) eqn:Fc.
  - inversion F; subst x. destruct I as [I|I]; [exact I|].
    exfalso. apply Nc. rewrite E. now apply in_map.
  - destruct I as [I|I].
    + subst c. apply find_some in F. destruct F as (Ix & _).
      exfalso. apply Nc. rewrite <- E. now apply in_map.
    + now apply IH.
Qed.

(** C10: the operation answers with an invoice only when that invoice is
    stored under the requested id, belongs to the hospital of the user and
    is a walk-in invoice; asked for a stored invoice of another hospital,
    or of a registered patient, it answers 404 "Invoice not found" ([_id]s
    being unique in the collection). *)
Theorem getWalkInInvoiceById_scoped (user : WalkInUser) (db : DB) :
  (forall (id : ObjectId) (inv : Invoice),
     getWalkInInvoiceById user id db = Json 200 (WalkInData inv) ->
     In inv (invoices db) /\ _id inv = id /\
     hospital inv = wu_hospital user /\
     customerType inv = walk_in) /\
  (forall inv : Invoice,
     NoDup (map _id (invoices db)) ->
     In inv (invoices db) ->
     hospital inv <> wu_hospital user \/ customerType inv = registered ->
     getWalkInInvoiceById user (_id inv) db
       = Json 404 (WalkInFailure "Invoice not found")).
Proof.
  split.
  - intros id inv H. unfold getWalkInInvoiceById, InvoiceModel.findOne in H.
    destruct (find (walkInFilter user id) (invoices db)) as [x|] eqn:F;
      [|discriminate].
    inversion H; subst x. apply find_some in F. destruct F as (I & W).
    unfold walkInFilter in W.
    apply andb_true_iff in W. destruct W as (W & Wc).
    apply andb_true_iff in W. destruct W as (Wi & Wh).
    apply N.eqb_eq in Wi. apply N.eqb_eq in Wh.
    destruct (customerType inv); [discriminate|]. auto.
  - intros inv N I H. unfold getWalkInInvoiceById, InvoiceModel.findOne.
    destruct (find (walkInFilter user (_id inv)) (invoices db)) as [x|] eqn:F;
      [exfalso|reflexivity].
    pose proof F as F'. apply find_some in F'. destruct F' as (Ix & W).
    unfold walkInFilter in W.
    apply andb_true_iff in W. destruct W as (W & Wc).
    apply andb_true_iff in W. destruct W as (Wi & Wh).
    apply N.eqb_eq in Wi. apply N.eqb_eq in Wh.
    assert (x = inv) by (eapply find_unique; eauto). subst x.
    destruct H as [H|H]; [now apply H|].
    rewrite H in Wc. discriminate.
Qed.

(** The user of hospital 1 is refused the walk-in invoice of hospital 2 and
    the invoice of the registered patient, and obtains the walk-in invoice
    of hospital 1. *)
Lemma getWalkInInvoiceById_scoped_witness :
  getWalkInInvoiceById {| wu_hospital := 1%N |} 201%N Sample.twoHospitals
    = Json 404 (WalkInFailure "Invoice not found") /\
  getWalkInInvoiceById {| wu_hospital := 1%N |} 100%N Sample.twoHospitals
    = Json 404 (WalkInFailure "Invoice not found") /\
  getWalkInInvoiceById {| wu_hospital := 1%N |} 200%N Sample.twoHospitals
    = Json 200 (WalkInData (Sample.walkIn 200%N "PH-2501-0001" 1%N)).
Proof.
  assert (U : NoDup (map _id (invoices Sample.twoHospitals))).
  { simpl. repeat constructor; simpl; intuition discriminate. }
  split; [|split].
  - apply (proj2 (getWalkInInvoiceById_scoped {| wu_hospital := 1%N |}
                    Sample.twoHospitals)
             (Sample.walkIn 201%N "PH-2501-0001b" 2%N) U).
    + simpl. auto.
    + left. simpl. discriminate.
  - apply (proj2 (getWalkInInvoiceById_scoped {| wu_hospital := 1%N |}
                    Sample.twoHospitals)
             (Sample.stored 100%N "INV-2501-0002" 1%N 500 0 unpaid None) U).
    + simpl. auto.
    + right. reflexivity.
  - reflexivity.
Defined.

End WalkIn.

(** ** Creation of invoices *)

Module Creation.

Import BillingController.

Local Open Scope float_scope.

(** A document whose subtotal is negative does not pass the validators. *)
Lemma validate_negative_subtotal (doc : Invoice) :
  (subtotal doc <? 0) = true -> Mongoose.validate doc = false.
Proof.
  intros H. unfold Mongoose.validate.
  rewrite (FloatFacts.ltb_true_leb_false _ _ H).
  now rewrite !andb_false_r.
Qed.

(** C7, as the code has it: with the required fields present, a creation
    whose patient, given doctor or hospital does not exist is answered with
    a 404 error and writes nothing; a creation with no item list or an
    empty one is answered with the 400 error of the missing fields and
    writes nothing; a creation whose amounts add up to a negative subtotal
    fails with the validation error of the schema; and a creation that is
    not answered 201 leaves the invoices as they were. *)
Theorem createInvoice_failures (req : CreateInvoiceReq) (db : DB) :
  (b_items (cr_body req) = None \/ b_items (cr_body req) = Some [] ->
   createInvoice req db = (missingFields, db)) /\
  (forall (pid : ObjectId) (ty : string) (item : InvoiceItem)
          (rest : list InvoiceItem),
     patientId (cr_body req) = Some pid ->
     b_invoiceType (cr_body req) = Some ty ->
     JS.truthy_str ty = true ->
     b_items (cr_body req) = Some (item :: rest) ->
     (existsb (N.eqb pid) (patients db) = false \/
      (exists d, doctorId (cr_body req) = Some d /\
                 existsb (fun x => N.eqb (doctor_id x) d) (doctors db) = false) \/
      existsb (N.eqb (hospitalId (cr_user req))) (hospitals db) = false ->
      exists message : string,
        createInvoice req db = (Next (AppError message 404), db)) /\
     ((t_subtotal
         (calculateTotals (item :: rest)
            (bs_gstPercentage (fst (resolveSettings (cr_user req) db))))
       <? 0) = true ->
      exists err : Error,
        fst (createInvoice req db) = Next err /\
        (err = ValidationError \/ exists message, err = AppError message 404))) /\
  ((forall inv, fst (createInvoice req db) <> Json 201 (InvoiceCreated inv)) ->
   invoices (snd (createInvoice req db)) = invoices db).
Proof.
  split; [|split].
  - unfold createInvoice, catchAsync, createInvoiceHandler.
    intros [E|E]; rewrite E;
      destruct (patientId (cr_body req)), (b_invoiceType (cr_body req));
      reflexivity.
  - intros pid ty item rest Ep Et Tt Ei.
    unfold createInvoice, catchAsync, createInvoiceHandler.
    rewrite Ep, Et, Ei, Tt. simpl negb. cbv iota.
    destruct (existsb (N.eqb pid) (patients db)) eqn:P; simpl negb; cbv iota;
      [|split; intros; eexists; [reflexivity|split; [reflexivity|eauto]]].
    destruct (doctorId (cr_body req)) as [d|] eqn:D.
    + destruct (existsb (fun x => N.eqb (doctor_id x) d) (doctors db)) eqn:Dx;
        simpl negb; cbv iota;
        [|split; intros; eexists; [reflexivity|split; [reflexivity|eauto]]].
      destruct (existsb (N.eqb (hospitalId (cr_user req))) (hospitals db))
        eqn:Hx; simpl negb; cbv iota;
        [|split; intros; eexists; [reflexivity|split; [reflexivity|eauto]]].
      split.
      * intros H. exfalso.
        destruct H as [H|[(d' & E' & H)|H]]; try discriminate.
        inversion E'; subst d'. congruence.
      * intros H. destruct (resolveSettings (cr_user req) db) as [bs db1].
        simpl in H. unfold Store.save.
        rewrite validate_negative_subtotal by exact H. simpl.
        eexists. split; [reflexivity|auto].
    + destruct (existsb (N.eqb (hospitalId (cr_user req))) (hospitals db))
        eqn:Hx; simpl negb; cbv iota;
        [|split; intros; eexists; [reflexivity|split; [reflexivity|eauto]]].
      split.
      * intros H. exfalso.
        destruct H as [H|[(d' & E' & H)|H]]; discriminate.
      * intros H. destruct (resolveSettings (cr_user req) db) as [bs db1].
        simpl in H. unfold Store.save.
        rewrite validate_negative_subtotal by exact H. simpl.
        eexists. split; [reflexivity|auto].
  - intros H.
    destruct (Handlers.createInvoice_cases req db)
      as [(err & _ & C)|(doc & _ & E & _)]; [exact C|].
    exfalso. exact (H _ E).
Qed.

(** A creation for a patient that is not registered in the sample clinic is
    answered 404 and changes nothing; a creation whose only item has the
    amount -5 fails with the validation error. *)
Lemma createInvoice_failures_witness :
  (exists message : string,
     createInvoice Sample.unknownPatient Sample.clinic
     = (Next (AppError message 404), Sample.clinic)) /\
  (exists err : Error,
     fst (createInvoice
            (Sample.manual 100%N Sample.january
               [Sample.item "Refund" 1 0 (Some (-5))] None)
            Sample.clinic) = Next err /\
     (err = ValidationError \/ exists message, err = AppError message 404)).
Proof.
  split.
  - refine (proj1 (proj1 (proj2 (createInvoice_failures Sample.unknownPatient
                                   Sample.clinic))
              8%N "laboratory" (Sample.item "Blood count" 1 250 None) []
              eq_refl eq_refl eq_refl eq_refl) _).
    left. reflexivity.
  - exact (proj2 (proj1 (proj2 (createInvoice_failures
              (Sample.manual 100%N Sample.january
                 [Sample.item "Refund" 1 0 (Some (-5))] None)
              Sample.clinic))
              7%N "laboratory" (Sample.item "Refund" 1 0 (Some (-5))) []
              eq_refl eq_refl eq_refl eq_refl) eq_refl).
Defined.

(** C7 as stated fails: in the sample clinic, a creation whose only item
    has the quantity 1, the unit price 0 and the amount 0 is answered 201
    and its invoice is stored. *)
Lemma zero_amounts_accepted :
  exists saved : Invoice,
    createInvoice
      (Sample.manual 100%N Sample.january
         [Sample.item "Free screening" 1 0 (Some 0)] None)
      Sample.clinic
    = (Json 201 (InvoiceCreated saved),
       set_settings [defaultSettings 1%N 3%N]
         (set_invoices [saved] Sample.clinic)) /\
    forallb (fun it => JS.toNumber (amount it) <=? 0)
      [Sample.item "Free screening" 1 0 (Some 0)] = true /\
    forallb (fun it => JS.toNumber (amount it) <=? 0) (items saved) = true.
Proof.
  eexists. split; [vm_compute; reflexivity|]. split; reflexivity.
Qed.

End Creation.

(** ** One invoice per appointment *)

Module Consultation.

Import BillingController.

Local Open Scope float_scope.

Lemma find_none_of_filter (f : Invoice -> bool) (l : list Invoice) :
  filter f l = [] -> find f l = None.
Proof.
  induction l as [|x l IH]; simpl; [reflexivity|].
  destruct (f x); [discriminate|exact IH].
Qed.

Lemma find_snoc (f : Invoice -> bool) (l : list Invoice) (x : Invoice) :
  find f l = None -> f x = true -> find f (l ++ [x]) = Some x.
Proof.
  induction l as [|y l IH]; simpl; intros N T.
  - now rewrite T.
  - destruct (f y); [discriminate|]. now apply IH.
Qed.

(** With an invoice on the appointment, the handler answers 400 with the
    identity of the first such invoice and writes nothing. *)
Lemma conflict (req : ConsultationReq) (db : DB) (a : ObjectId)
    (ap : Appointment) (existing : Invoice) :
  c_appointmentId (co_body req) = Some a ->
  find (fun x => N.eqb (appointment_id x) a) (appointments db) = Some ap ->
  find (Spec.refersTo a) (invoices db) = Some existing ->
  generateConsultationInvoice req db = (alreadyExists existing, db).
Proof.
  intros Ea Fa Fi.
  unfold generateConsultationInvoice, catchAsync,
    generateConsultationInvoiceHandler, InvoiceModel.findOne.
  rewrite Ea, Fa.
  change (fun i : Invoice =>
            match appointment i with
            | Some a0 => N.eqb a0 a
            | None => false
            end) with (Spec.refersTo a).
  rewrite Fi. reflexivity.
Qed.

(** Without one, the handler leaves the invoices as they are, or stores
    one invoice on the appointment and answers 201 with no body. *)
Lemma fresh (req : ConsultationReq) (db : DB) (a : ObjectId) :
  c_appointmentId (co_body req) = Some a ->
  find (Spec.refersTo a) (invoices db) = None ->
  appointments (snd (generateConsultationInvoice req db)) = appointments db /\
  (invoices (snd (generateConsultationInvoice req db)) = invoices db \/
   exists (created : Invoice) (ap : Appointment),
     find (fun x => N.eqb (appointment_id x) a) (appointments db) = Some ap /\
     invoices (snd (generateConsultationInvoice req db))
       = (invoices db ++ [created])%list /\
     appointment created = Some a /\
     fst (generateConsultationInvoice req db) = Json 201 Undefined).
Proof.
  intros Ea Fi.
  unfold generateConsultationInvoice, catchAsync,
    generateConsultationInvoiceHandler, InvoiceModel.findOne.
  rewrite Ea.
  destruct (find (fun x => N.eqb (appointment_id x) a) (appointments db))
    as [ap|] eqn:Fa; [|simpl; auto].
  change (fun i : Invoice =>
            match appointment i with
            | Some a0 => N.eqb a0 a
            | None => false
            end) with (Spec.refersTo a).
  rewrite Fi.
  pose proof (Saving.resolveSettings_invoices (co_user req) db)
    as (Ri & _ & _ & _ & Ra).
  destruct (resolveSettings (co_user req) db) as [bs db1]. simpl in Ri, Ra.
  destruct (find (fun d => N.eqb (doctor_id d) (ap_doctor ap)) (doctors db))
    as [doc|]; [|simpl; auto].
  destruct (find (N.eqb (ap_patient ap)) (patients db)) as [pat|];
    [|simpl; auto].
  match goal with
  | |- context [createInvoice ?r db1] =>
      pose proof (Handlers.createInvoice_cases r db1) as C;
      pose proof (Handlers.createInvoice_appointments r db1) as A;
      destruct (createInvoice r db1) as [resp db2]
  end.
  simpl in C, A |- *. rewrite A, Ra. split; [reflexivity|].
  destruct C as [(err & _ & C)|(d & _ & _ & C & _ & Ap & _)].
  - left. now rewrite C.
  - right. exists (Mongoose.preSave (now (co_env req)) d), ap.
    split; [reflexivity|]. split; [now rewrite C, Ri|].
    split; [|reflexivity].
    unfold Mongoose.preSave.
    destruct (Saving.derive_fields (now (co_env req)) d) as (_ & _ & F & _).
    now rewrite F, Ap.
Qed.

Lemma find_in (x : ObjectId) (l : list ObjectId) :
  In x l -> find (N.eqb x) l = Some x.
Proof.
  induction l as [|y l IH]; simpl; [contradiction|].
  destruct (N.eqb x y) eqn:E.
  - apply N.eqb_eq in E. now subst y.
  - intros [H|H]; [subst y; rewrite N.eqb_refl in E; discriminate|auto].
Qed.

Lemma in_existsb (x : ObjectId) (l : list ObjectId) :
  In x l -> existsb (N.eqb x) l = true.
Proof.
  intros I. apply existsb_exists. exists x. split; [exact I|apply N.eqb_refl].
Qed.

(** A fee that is billable gives a consultation item and totals that the
    schema accepts. *)
Lemma billable_accepted (fee g paid_ : JS.Number) (text code : option string)
    (method : string) :
  Spec.billable fee g paid_ = true ->
  JS.truthy_ostr text = true ->
  Mongoose.mem method Mongoose.paymentMethodEnum = true ->
  Spec.accepted "consultation"
    [ {| description := text; quantity := Some 1; unitPrice := Some fee;
         amount := Some fee; hsn := code; gstRate := Some g |} ]
    g paid_ method = true.
Proof.
  unfold Spec.billable, Spec.accepted, calculateTotals.
  cbn [map processItem fold_left processedItems t_subtotal t_gstAmount
       t_totalAmount amount quantity unitPrice description hsn gstRate
       JS.truthy_opt JS.toNumber forallb].
  intros B T M.
  repeat (apply andb_true_iff in B; destruct B as (B & ?)).
  assert (C : Mongoose.castable fee = true).
  { unfold JS.truthy in B. unfold Mongoose.castable.
    apply negb_true_iff in B. apply orb_false_iff in B.
    destruct B as (_ & B). now rewrite B. }
  unfold Mongoose.validItem, processItem.
  cbn [amount quantity unitPrice description hsn gstRate JS.truthy_opt
       JS.toNumber].
  rewrite B in *. rewrite T, M, C.
  repeat match goal with
         | H : _ = true |- _ => rewrite H; clear H
         end.
  reflexivity.
Qed.

(** With nothing against it, the handler stores the invoice of the
    appointment. *)
Lemma stores (req : ConsultationReq) (db : DB) (a : ObjectId)
    (ap : Appointment) (d : Doctor) :
  c_appointmentId (co_body req) = Some a ->
  find (fun x => N.eqb (appointment_id x) a) (appointments db) = Some ap ->
  find (fun x => N.eqb (doctor_id x) (ap_doctor ap)) (doctors db) = Some d ->
  In (ap_patient ap) (patients db) ->
  In (hospitalId (co_user req)) (hospitals db) ->
  find (Spec.refersTo a) (invoices db) = None ->
  Spec.billable
    (standard (consultationFees (fst (resolveSettings (co_user req) db))))
    (bs_gstPercentage (fst (resolveSettings (co_user req) db)))
    (JS.or_num (JS.parseFloat (c_paidAmount (co_body req))) 0) = true ->
  (forall m, c_paymentMethod (co_body req) = Some m ->
     m = ""%string \/ Mongoose.mem m Mongoose.paymentMethodEnum = true) ->
  (forall i, In i (invoices db) ->
     _id i <> freshId (co_env req) /\
     invoiceNumber i
       <> InvoiceModel.generateInvoiceNumber
            (invoicePrefix (fst (resolveSettings (co_user req) db)))
            (hospitalId (co_user req)) (now (co_env req)) (invoices db)) ->
  exists created : Invoice,
    invoices (snd (generateConsultationInvoice req db))
      = (invoices db ++ [created])%list /\
    _id created = freshId (co_env req) /\
    appointment created = Some a.
Proof.
  intros Ea Fa Fd Ip Ih Fi B M U.
  unfold generateConsultationInvoice, catchAsync,
    generateConsultationInvoiceHandler, InvoiceModel.findOne.
  rewrite Ea, Fa.
  change (fun i : Invoice =>
            match appointment i with
            | Some a0 => N.eqb a0 a
            | None => false
            end) with (Spec.refersTo a).
  rewrite Fi.
  pose proof (Saving.resolveSettings_invoices (co_user req) db)
    as (Ri & Rp & Rd & Rh & _).
  pose proof (Handlers.resolveSettings_again (co_user req) db) as Again.
  destruct (resolveSettings (co_user req) db) as [bs db1].
  cbn [fst snd] in *.
  rewrite Fd, (find_in _ _ Ip).
  pose proof (find_some _ _ Fd) as (Id & Ed).
  match goal with
  | |- context [createInvoice ?r db1] =>
      destruct (Handlers.createInvoice_accepts r db1 (ap_patient ap)
                  "consultation"
                  [ {| description :=
                         Some (JS.capitalize (appointmentTypeOf ap) ++
                               " Consultation with "
                               ++ JS.show (firstName d) ++ " "
                               ++ JS.show (lastName d))%string;
                       quantity := Some 1%float;
                       unitPrice := Some (standard (consultationFees bs));
                       amount := Some (standard (consultationFees bs));
                       hsn := Some "998331"%string;
                       gstRate := Some (bs_gstPercentage bs) |} ]
                  eq_refl eq_refl eq_refl)
        as (saved & E & I1 & I2 & _)
  end.
  - discriminate.
  - rewrite Rp. now apply in_existsb.
  - cbn [cr_body doctorId]. intros x Hx. inversion Hx; subst x.
    rewrite Rd. apply existsb_exists. exists d. split; [exact Id|].
    apply N.eqb_refl.
  - cbn [cr_user]. rewrite Rh. now apply in_existsb.
  - cbn [cr_user cr_body b_paidAmount b_paymentMethod].
    rewrite Again. cbn [fst]. rewrite Handlers.paid_again.
    apply billable_accepted; [exact B|reflexivity|].
    destruct (c_paymentMethod (co_body req)) as [m|]; [|reflexivity].
    destruct (M m eq_refl) as [Em|Em]; [subst m; reflexivity|].
    destruct (JS.truthy_str m); [exact Em|reflexivity].
  - cbn [cr_user cr_env]. rewrite Again. cbn [fst]. rewrite Ri. exact U.
  - rewrite E. cbn [snd]. exists saved.
    cbn [cr_user cr_env cr_body appointmentId] in *.
    unfold set_invoices. cbn [invoices]. rewrite Ri. auto.
Qed.

(** Without an invoice on the appointment, the answer is not the 400 of an
    invoice that exists. *)
Lemma no_conflict (req : ConsultationReq) (db : DB) (a : ObjectId) :
  c_appointmentId (co_body req) = Some a ->
  find (Spec.refersTo a) (invoices db) = None ->
  forall (m : string) (id : ObjectId),
    fst (generateConsultationInvoice req db)
      <> Json 400 (AlreadyExists m id).
Proof.
  intros Ea Fi m id.
  unfold generateConsultationInvoice, catchAsync,
    generateConsultationInvoiceHandler, InvoiceModel.findOne.
  rewrite Ea.
  destruct (find (fun x => N.eqb (appointment_id x) a) (appointments db))
    as [ap|]; [|discriminate].
  change (fun i : Invoice =>
            match appointment i with
            | Some a0 => N.eqb a0 a
            | None => false
            end) with (Spec.refersTo a).
  rewrite Fi.
  destruct (resolveSettings (co_user req) db) as [bs db1].
  destruct (find (fun d => N.eqb (doctor_id d) (ap_doctor ap)) (doctors db))
    as [d|]; [|discriminate].
  destruct (find (N.eqb (ap_patient ap)) (patients db)) as [pt|];
    [|discriminate].
  match goal with
  | |- context [createInvoice ?r db1] => destruct (createInvoice r db1)
  end.
  discriminate.
Qed.

(** C4, as the code has it.  Two calls for the same appointment, which has
    no invoice before the first, leave at most one invoice on it.  The
    first call stores one when nothing stands against it: the appointment
    exists with its doctor and its patient, the hospital of the user
    exists, the standard fee and the tax rate of the settings are billable
    with the amount paid, the payment method is absent, empty or one of
    the schema, and no stored invoice has the new [_id] or the number that
    is generated.  When the first call stores its invoice, it answers 201,
    the second call changes nothing and answers 400 with the [_id] of that
    invoice, an answer that differs from the first, and the appointment
    has exactly that one invoice.  When the first call stores nothing, the
    second call is not answered with that 400. *)
Theorem consultation_invoice_once
    (req1 req2 : ConsultationReq) (db : DB) (a : ObjectId) :
  c_appointmentId (co_body req1) = Some a ->
  c_appointmentId (co_body req2) = Some a ->
  Spec.invoicesOf a (invoices db) = [] ->
  List.length
    (Spec.invoicesOf a
       (invoices
          (snd (generateConsultationInvoice req2
                  (snd (generateConsultationInvoice req1 db)))))) <= 1 /\
  (forall (ap : Appointment) (d : Doctor),
     find (fun x => N.eqb (appointment_id x) a) (appointments db) = Some ap ->
     find (fun x => N.eqb (doctor_id x) (ap_doctor ap)) (doctors db)
       = Some d ->
     In (ap_patient ap) (patients db) ->
     In (hospitalId (co_user req1)) (hospitals db) ->
     Spec.billable
       (standard (consultationFees (fst (resolveSettings (co_user req1) db))))
       (bs_gstPercentage (fst (resolveSettings (co_user req1) db)))
       (JS.or_num (JS.parseFloat (c_paidAmount (co_body req1))) 0) = true ->
     (forall m, c_paymentMethod (co_body req1) = Some m ->
        m = ""%string \/ Mongoose.mem m Mongoose.paymentMethodEnum = true) ->
     (forall i, In i (invoices db) ->
        _id i <> freshId (co_env req1) /\
        invoiceNumber i
          <> InvoiceModel.generateInvoiceNumber
               (invoicePrefix (fst (resolveSettings (co_user req1) db)))
               (hospitalId (co_user req1)) (now (co_env req1))
               (invoices db)) ->
     exists created : Invoice,
       invoices (snd (generateConsultationInvoice req1 db))
         = (invoices db ++ [created])%list /\
       _id created = freshId (co_env req1)) /\
  (forall created : Invoice,
     invoices (snd (generateConsultationInvoice req1 db))
       = (invoices db ++ [created])%list ->
     fst (generateConsultationInvoice req1 db) = Json 201 Undefined /\
     generateConsultationInvoice req2
       (snd (generateConsultationInvoice req1 db))
       = (Json 400
            (AlreadyExists "Invoice already exists for this appointment"
               (_id created)),
          snd (generateConsultationInvoice req1 db)) /\
     Spec.invoicesOf a
       (invoices
          (snd (generateConsultationInvoice req2
                  (snd (generateConsultationInvoice req1 db)))))
       = [created] /\
     fst (generateConsultationInvoice req2
            (snd (generateConsultationInvoice req1 db)))
       <> fst (generateConsultationInvoice req1 db)) /\
  (invoices (snd (generateConsultationInvoice req1 db)) = invoices db ->
   forall (m : string) (id : ObjectId),
     fst (generateConsultationInvoice req2
            (snd (generateConsultationInvoice req1 db)))
       <> Json 400 (AlreadyExists m id)).
Proof.
  intros E1 E2 Z.
  pose proof (find_none_of_filter _ _ Z) as N.
  assert (Stored : forall ap d,
             find (fun x => N.eqb (appointment_id x) a) (appointments db)
               = Some ap ->
             find (fun x => N.eqb (doctor_id x) (ap_doctor ap)) (doctors db)
               = Some d ->
             In (ap_patient ap) (patients db) ->
             In (hospitalId (co_user req1)) (hospitals db) ->
             Spec.billable
               (standard
                  (consultationFees (fst (resolveSettings (co_user req1) db))))
               (bs_gstPercentage (fst (resolveSettings (co_user req1) db)))
               (JS.or_num (JS.parseFloat (c_paidAmount (co_body req1))) 0)
               = true ->
             (forall m, c_paymentMethod (co_body req1) = Some m ->
                m = ""%string \/
                Mongoose.mem m Mongoose.paymentMethodEnum = true) ->
             (forall i, In i (invoices db) ->
                _id i <> freshId (co_env req1) /\
                invoiceNumber i
                  <> InvoiceModel.generateInvoiceNumber
                       (invoicePrefix
                          (fst (resolveSettings (co_user req1) db)))
                       (hospitalId (co_user req1)) (now (co_env req1))
                       (invoices db)) ->
             exists created : Invoice,
               invoices (snd (generateConsultationInvoice req1 db))
                 = (invoices db ++ [created])%list /\
               _id created = freshId (co_env req1)).
  { intros ap d Fa Fd Ip Ih B M U.
    destruct (stores req1 db a ap d E1 Fa Fd Ip Ih N B M U)
      as (c & C & I & _).
    exists c. auto. }
  assert (Quiet : invoices (snd (generateConsultationInvoice req1 db))
                    = invoices db ->
                  forall (m : string) (id : ObjectId),
                    fst (generateConsultationInvoice req2
                           (snd (generateConsultationInvoice req1 db)))
                      <> Json 400 (AlreadyExists m id)).
  { intros U. apply (no_conflict req2 _ a E2). rewrite U. exact N. }
  destruct (fresh req1 db a E1 N) as (A1 & [U|(c & ap & Fa & C & Ac & R)]).
  - (* the first call stored nothing *)
    split; [|split; [exact Stored|split; [|exact Quiet]]].
    + assert (N1 : find (Spec.refersTo a)
                     (invoices (snd (generateConsultationInvoice req1 db)))
                   = None) by (rewrite U; exact N).
      destruct (fresh req2 _ a E2 N1) as (_ & [U2|(c & ap & _ & C & Ac & _)]).
      * rewrite U2, U. unfold Spec.invoicesOf in *. rewrite Z. simpl. lia.
      * rewrite C, U. unfold Spec.invoicesOf in *.
        rewrite filter_app, Z. simpl.
        destruct (Spec.refersTo a c); simpl; lia.
    + intros created H. rewrite U in H. exfalso.
      apply (f_equal (@List.length Invoice)) in H.
      rewrite length_app in H. simpl in H. lia.
  - (* the first call stored [c] *)
    assert (Rc : Spec.refersTo a c = true)
      by (unfold Spec.refersTo; rewrite Ac; apply N.eqb_refl).
    assert (F1 : find (Spec.refersTo a)
                   (invoices (snd (generateConsultationInvoice req1 db)))
                 = Some c)
      by (rewrite C; now apply find_snoc).
    assert (Fa1 : find (fun x => N.eqb (appointment_id x) a)
                    (appointments (snd (generateConsultationInvoice req1 db)))
                  = Some ap) by (rewrite A1; exact Fa).
    pose proof (conflict req2 _ a ap c E2 Fa1 F1) as K.
    assert (One : Spec.invoicesOf a
                    (invoices (snd (generateConsultationInvoice req1 db)))
                  = [c]).
    { rewrite C. unfold Spec.invoicesOf in *.
      rewrite filter_app, Z. simpl. now rewrite Rc. }
    split; [|split; [exact Stored|split; [|exact Quiet]]].
    + rewrite K. simpl. rewrite One. simpl. lia.
    + intros created H. rewrite C in H. apply app_inj_tail in H.
      destruct H as (_ & H). subst created.
      split; [exact R|]. split; [exact K|].
      split; [rewrite K; exact One|].
      rewrite K, R. simpl. unfold alreadyExists. discriminate.
Qed.

(** In the sample clinic nothing stands against the first call for
    appointment 5, a follow-up: it stores the invoice of [_id] 100, at the
    standard fee of 500 with 18 percent of tax, and the second call answers
    400 with that [_id] and stores nothing. *)
Lemma consultation_invoice_once_witness :
  exists created : Invoice,
    invoices (snd (generateConsultationInvoice Sample.consult1 Sample.clinic))
      = [created] /\
    _id created = 100%N /\
    totalAmount created = 590%float /\
    generateConsultationInvoice Sample.consult2
      (snd (generateConsultationInvoice Sample.consult1 Sample.clinic))
      = (Json 400
           (AlreadyExists "Invoice already exists for this appointment"
              100%N),
         snd (generateConsultationInvoice Sample.consult1 Sample.clinic)).
Proof.
  destruct (consultation_invoice_once Sample.consult1 Sample.consult2
              Sample.clinic 5%N eq_refl eq_refl eq_refl)
    as (_ & Stored & Once & _).
  destruct (Stored _ _ eq_refl eq_refl (or_introl eq_refl)
              (or_introl eq_refl) eq_refl) as (created & C & I).
  - intros m H. discriminate.
  - intros i [].
  - exists created. split; [exact C|]. split; [exact I|].
    split.
    + assert (T : totalAmount
                    (hd (Sample.walkIn 0%N "none" 0%N)
                       (invoices
                          (snd (generateConsultationInvoice Sample.consult1
                                  Sample.clinic)))) = 590%float)
        by reflexivity.
      rewrite C in T. exact T.
    + destruct (Once created C) as (_ & K & _).
      rewrite I in K. exact K.
Defined.

(** C4 as stated fails.  Hospital 2 has no settings and no invoice, and
    the first number of its counter, INV-2501-0001, is the number of an
    invoice of hospital 1: the invoice of appointment 5 is refused by the
    unique index, the first call is answered 201 all the same and stores
    nothing, and the second call is answered 201 again, not with the 400
    of an invoice that exists. *)
Lemma consultation_not_stored_no_conflict :
  c_appointmentId (co_body Sample2.consultAgain1) = Some 5%N /\
  c_appointmentId (co_body Sample2.consultAgain2) = Some 5%N /\
  Spec.invoicesOf 5%N (invoices Sample2.sharedRegister) = [] /\
  fst (generateConsultationInvoice Sample2.consultAgain1
         Sample2.sharedRegister) = Json 201 Undefined /\
  Spec.invoicesOf 5%N
    (invoices (snd (generateConsultationInvoice Sample2.consultAgain1
                      Sample2.sharedRegister))) = [] /\
  fst (generateConsultationInvoice Sample2.consultAgain2
         (snd (generateConsultationInvoice Sample2.consultAgain1
                 Sample2.sharedRegister))) = Json 201 Undefined /\
  Spec.invoicesOf 5%N
    (invoices
       (snd (generateConsultationInvoice Sample2.consultAgain2
               (snd (generateConsultationInvoice Sample2.consultAgain1
                       Sample2.sharedRegister))))) = [].
Proof. repeat split; vm_compute; reflexivity. Qed.

End Consultation.

(** * Further properties of the billing code *)

(** ** What a saved document keeps *)

Module Frame.

Import BillingController.

Local Open Scope float_scope.

Lemma derive_shape (now : Date) (inv : Invoice) :
  exists (s : PaymentStatus) (d : option Date),
    Mongoose.derive now inv
      = Mongoose.set_derived inv (totalAmount inv - paidAmount inv) s d.
Proof.
  unfold Mongoose.derive.
  destruct (paidAmount inv <=? 0);
    [|destruct (paidAmount inv <? totalAmount inv)]; eauto.
Qed.

Lemma derive_samePayload (now : Date) (inv : Invoice) :
  Further.samePayload inv (Mongoose.derive now inv).
Proof.
  destruct (derive_shape now inv) as (s & d & E). rewrite E.
  unfold Further.samePayload. simpl. repeat split.
Qed.

Lemma applyPayment_samePayload (body : PaymentBody) (inv : Invoice) :
  Further.samePayload inv (applyPayment body inv).
Proof. unfold Further.samePayload, applyPayment. simpl. repeat split. Qed.

Lemma samePayload_trans (a b c : Invoice) :
  Further.samePayload a b -> Further.samePayload b c ->
  Further.samePayload a c.
Proof.
  unfold Further.samePayload. intros H1 H2.
  repeat match goal with H : _ /\ _ |- _ => destruct H end.
  repeat split; congruence.
Qed.

Lemma find_snoc_fresh {A : Type} (f : A -> bool) (l : list A) (x : A) :
  existsb f l = false -> f x = true -> find f (l ++ [x]) = Some x.
Proof.
  induction l as [|y l IH]; simpl; intros N T.
  - now rewrite T.
  - apply orb_false_iff in N. destruct N as (Ny & Nl). rewrite Ny.
    now apply IH.
Qed.

Lemma find_none_existsb {A : Type} (f : A -> bool) (l : list A) :
  find f l = None -> existsb f l = false.
Proof.
  induction l as [|y l IH]; simpl; [reflexivity|].
  destruct (f y); [discriminate|]. exact IH.
Qed.

Lemma map_inj_in {A B : Type} (f : A -> B) (l : list A) (a b : A) :
  NoDup (map f l) -> In a l -> In b l -> f a = f b -> a = b.
Proof.
  induction l as [|x l IH]; simpl; intros N Ia Ib E; [contradiction|].
  inversion N as [|? ? Nx Nl]; subst.
  destruct Ia as [Ia|Ia], Ib as [Ib|Ib]; subst; auto.
  - exfalso. apply Nx. rewrite E. now apply in_map.
  - exfalso. apply Nx. rewrite <- E. now apply in_map.
Qed.

(** What [createInvoice] stores when it answers 201: the document built
    from the request and the settings of the hospital, passed through the
    hook. *)
Lemma createInvoice_fields (req : CreateInvoiceReq) (db : DB) (saved : Invoice) :
  fst (createInvoice req db) = Json 201 (InvoiceCreated saved) ->
  exists its : list InvoiceItem,
    b_items (cr_body req) = Some its /\
    items saved = map processItem its /\
    invoiceNumber saved
      = InvoiceModel.generateInvoiceNumber
          (invoicePrefix (fst (resolveSettings (cr_user req) db)))
          (hospitalId (cr_user req)) (now (cr_env req)) (invoices db) /\
    gstPercentage saved
      = bs_gstPercentage (fst (resolveSettings (cr_user req) db)) /\
    gstNumber saved = bs_gstNumber (fst (resolveSettings (cr_user req) db)) /\
    settings (snd (createInvoice req db))
      = settings (snd (resolveSettings (cr_user req) db)) /\
    _id saved = freshId (cr_env req) /\
    invoiceDate saved = now (cr_env req) /\
    customerType saved = registered /\
    patient saved = patientId (cr_body req) /\
    doctor saved = doctorId (cr_body req) /\
    appointment saved = appointmentId (cr_body req) /\
    prescription saved = prescriptionId (cr_body req) /\
    labTest saved = labTestId (cr_body req) /\
    Some (invoiceType saved) = b_invoiceType (cr_body req) /\
    createdBy saved = userId (cr_user req) /\
    hospital saved = hospitalId (cr_user req) /\
    existsb (N.eqb (hospitalId (cr_user req))) (hospitals db) = true /\
    (exists p, patientId (cr_body req) = Some p /\
               existsb (N.eqb p) (patients db) = true).
Proof.
  unfold createInvoice, catchAsync, createInvoiceHandler, missingFields.
  destruct (patientId (cr_body req)) as [pid|]; [|discriminate].
  destruct (b_invoiceType (cr_body req)) as [ty|]; [|discriminate].
  destruct (b_items (cr_body req)) as [[|item rest]|]; try discriminate.
  destruct (negb (JS.truthy_str ty)); [discriminate|].
  destruct (existsb (N.eqb pid) (patients db)) eqn:P; [|discriminate].
  simpl negb. cbv iota.
  match goal with
  | |- context [if ?c then (inr (Next (AppError "Doctor not found" 404)), db)
                else _] => destruct c
  end; [discriminate|].
  destruct (existsb (N.eqb (hospitalId (cr_user req))) (hospitals db)) eqn:Hh;
    [|discriminate].
  simpl negb. cbv iota.
  pose proof (Saving.resolveSettings_invoices (cr_user req) db) as (Ei & _).
  destruct (resolveSettings (cr_user req) db) as [bs db1]. simpl in Ei.
  simpl fst. simpl snd.
  match goal with
  | |- context [Store.save ?n true ?d ?c] =>
      destruct (Store.save n true d c) as [err|[sv coll]] eqn:S
  end; [discriminate|].
  apply Saving.save_ok in S. destruct S as (_ & E & _).
  simpl. intros H. inversion H; subst saved. clear H. subst sv.
  unfold Mongoose.preSave.
  match goal with
  | |- context [Mongoose.derive ?n ?d] =>
      destruct (derive_shape n d) as (s & dd & Ed); rewrite Ed
  end.
  simpl. rewrite Ei.
  exists (item :: rest). repeat split; eauto.
Qed.

End Frame.

(** ** Billing settings *)

Module SettingsProps.

Import BillingController BillingQueries.

Lemma resolveSettings_cases (user : User) (db : DB) :
  (exists t,
     find (fun s => N.eqb (bs_hospital s) (hospitalId user)) (settings db)
       = Some t /\
     resolveSettings user db = (t, db)) \/
  (find (fun s => N.eqb (bs_hospital s) (hospitalId user)) (settings db)
     = None /\
   resolveSettings user db
     = (defaultSettings (hospitalId user) (userId user),
        set_settings
          (settings db ++ [defaultSettings (hospitalId user) (userId user)])
          db)).
Proof.
  unfold resolveSettings.
  destruct (find _ (settings db)) as [t|]; [left; eauto|right; auto].
Qed.

(** X1: [getBillingSettings] answers 200 with a settings record of the
    hospital of the user, which is stored after the call.  When the
    hospital has a record, the first one is returned and nothing is
    written; when it has none, the record of the defaults of the schema
    (prefix INV, tax 18, fees 500/300/1000/1500), signed by the user, is
    added at the end.  A second call, by any user of the hospital, returns
    the same record and writes nothing; records of other hospitals and the
    invoices are never touched. *)
Theorem getBillingSettings_lazy (user : User) (db : DB) :
  exists s : BillingSettings,
    fst (getBillingSettings user db) = Sent 200 s /\
    bs_hospital s = hospitalId user /\
    In s (settings (snd (getBillingSettings user db))) /\
    (forall t,
       find (fun x => N.eqb (bs_hospital x) (hospitalId user)) (settings db)
         = Some t ->
       s = t /\ snd (getBillingSettings user db) = db) /\
    (find (fun x => N.eqb (bs_hospital x) (hospitalId user)) (settings db)
       = None ->
     s = defaultSettings (hospitalId user) (userId user) /\
     settings (snd (getBillingSettings user db)) = (settings db ++ [s])%list) /\
    (forall user' : User,
       hospitalId user' = hospitalId user ->
       getBillingSettings user' (snd (getBillingSettings user db))
         = (Sent 200 s, snd (getBillingSettings user db))) /\
    (forall t, In t (settings db) ->
               In t (settings (snd (getBillingSettings user db)))) /\
    invoices (snd (getBillingSettings user db)) = invoices db.
Proof.
  unfold getBillingSettings.
  destruct (resolveSettings_cases user db) as [(t & F & R)|(F & R)];
    rewrite R; simpl.
  - exists t. pose proof F as F'. apply find_some in F'.
    destruct F' as (I & E). apply N.eqb_eq in E.
    repeat apply conj; auto.
    + intros t' H. split; congruence.
    + intros H. congruence.
    + intros user' Hu. unfold resolveSettings. rewrite Hu, F. reflexivity.
  - exists (defaultSettings (hospitalId user) (userId user)).
    repeat apply conj; auto.
    + apply in_or_app. right. simpl. auto.
    + intros t H. congruence.
    + intros user' Hu. unfold resolveSettings. simpl. rewrite Hu.
      rewrite (Frame.find_snoc_fresh _ (settings db)
                 (defaultSettings (hospitalId user) (userId user))).
      * reflexivity.
      * now apply Frame.find_none_existsb.
      * simpl. apply N.eqb_refl.
    + intros t H. apply in_or_app. now left.
Qed.

(** The sample clinic has no settings: the first call stores the
    defaults for hospital 1, signed by user 3. *)
Lemma getBillingSettings_lazy_witness :
  exists s : BillingSettings,
    fst (getBillingSettings Sample.staff Sample.clinic) = Sent 200 s /\
    s = defaultSettings 1%N 3%N /\
    settings (snd (getBillingSettings Sample.staff Sample.clinic)) = [s].
Proof.
  destruct (getBillingSettings_lazy Sample.staff Sample.clinic)
    as (s & E & _ & _ & _ & N & _).
  exists s. split; [exact E|]. exact (N eq_refl).
Defined.

Lemma resolveSettings_unique (user : User) (db : DB) :
  Further.uniqueSettings db ->
  Further.uniqueSettings (snd (resolveSettings user db)).
Proof.
  unfold Further.uniqueSettings.
  destruct (resolveSettings_cases user db) as [(t & F & R)|(F & R)];
    rewrite R; simpl; [auto|].
  intros N. rewrite map_app. simpl.
  apply NoDup_app; [exact N|repeat constructor; simpl; tauto|].
  intros h Hin [Hh|[]]. subst h.
  apply in_map_iff in Hin. destruct Hin as (x & Ex & Ix).
  apply (find_none _ _ F) in Ix. simpl in Ix.
  rewrite Ex, N.eqb_refl in Ix. discriminate.
Qed.

Lemma createInvoice_settings (req : CreateInvoiceReq) (db : DB) :
  settings (snd (createInvoice req db)) = settings db \/
  settings (snd (createInvoice req db))
    = settings (snd (resolveSettings (cr_user req) db)).
Proof.
  unfold createInvoice, catchAsync, createInvoiceHandler, missingFields.
  destruct (patientId (cr_body req)) as [pid|]; [|left; reflexivity].
  destruct (b_invoiceType (cr_body req)) as [ty|]; [|left; reflexivity].
  destruct (b_items (cr_body req)) as [[|item rest]|]; try (left; reflexivity).
  destruct (negb (JS.truthy_str ty)); [left; reflexivity|].
  destruct (negb (existsb (N.eqb pid) (patients db))); [left; reflexivity|].
  match goal with
  | |- context [if ?c then (inr (Next (AppError "Doctor not found" 404)), db)
                else _] => destruct c
  end; [left; reflexivity|].
  destruct (negb (existsb (N.eqb (hospitalId (cr_user req))) (hospitals db)));
    [left; reflexivity|].
  destruct (resolveSettings (cr_user req) db) as [bs db1]. simpl snd.
  match goal with
  | |- context [Store.save ?n true ?d ?c] =>
      destruct (Store.save n true d c) as [err|[saved coll]]
  end; right; reflexivity.
Qed.

Lemma createInvoice_unique (req : CreateInvoiceReq) (db : DB) :
  Further.uniqueSettings db ->
  Further.uniqueSettings (snd (createInvoice req db)).
Proof.
  intros U. unfold Further.uniqueSettings.
  destruct (createInvoice_settings req db) as [E|E]; rewrite E.
  - exact U.
  - now apply resolveSettings_unique.
Qed.

Lemma consultation_unique (req : ConsultationReq) (db : DB) :
  Further.uniqueSettings db ->
  Further.uniqueSettings (snd (generateConsultationInvoice req db)).
Proof.
  intros U.
  unfold generateConsultationInvoice, catchAsync,
    generateConsultationInvoiceHandler.
  destruct (c_appointmentId (co_body req)) as [a|]; [|exact U].
  destruct (find _ (appointments db)) as [ap|]; [|exact U].
  destruct (InvoiceModel.findOne _ (invoices db)); [exact U|].
  pose proof (resolveSettings_unique (co_user req) db U) as U1.
  destruct (resolveSettings (co_user req) db) as [bs db1]. simpl in U1.
  destruct (find (fun d => N.eqb (doctor_id d) (ap_doctor ap)) (doctors db))
    as [d|]; [|exact U1].
  destruct (find (N.eqb (ap_patient ap)) (patients db)) as [pt|];
    [|exact U1].
  match goal with
  | |- context [createInvoice ?r db1] =>
      pose proof (createInvoice_unique r db1 U1) as U2;
      destruct (createInvoice r db1) as [resp db2]
  end.
  exact U2.
Qed.

Lemma lab_unique (req : BillingSources.LabReq) (c : BillingSources.Clinical) :
  Further.uniqueSettings (BillingSources.core c) ->
  Further.uniqueSettings
    (BillingSources.core (snd (BillingSources.generateLabInvoice req c))).
Proof.
  intros U.
  unfold BillingSources.generateLabInvoice, BillingSources.catchAsyncC,
    BillingSources.generateLabInvoiceHandler.
  destruct (BillingSources.l_labTestIds (BillingSources.lab_body req))
    as [[|id ids]|]; try exact U;
    destruct (BillingSources.l_patientId (BillingSources.lab_body req))
      as [pid|]; try exact U.
  destruct (negb (existsb (N.eqb pid) (patients (BillingSources.core c))));
    [exact U|].
  destruct (filter _ (BillingSources.labTests c)) as [|t ts]; [exact U|].
  pose proof (resolveSettings_unique (BillingSources.lab_user req) _ U) as U1.
  destruct (resolveSettings (BillingSources.lab_user req)
              (BillingSources.core c)) as [bs db1]. simpl in U1.
  match goal with
  | |- context [createInvoice ?r db1] =>
      pose proof (createInvoice_unique r db1 U1) as U2;
      destruct (createInvoice r db1) as [resp db2]
  end.
  exact U2.
Qed.

Lemma pharmacy_unique (req : BillingSources.PharmacyReq)
    (c : BillingSources.Clinical) :
  Further.uniqueSettings (BillingSources.core c) ->
  Further.uniqueSettings
    (BillingSources.core (snd (BillingSources.generatePharmacyInvoice req c))).
Proof.
  intros U.
  unfold BillingSources.generatePharmacyInvoice, BillingSources.catchAsyncC,
    BillingSources.generatePharmacyInvoiceHandler.
  destruct (BillingSources.ph_prescriptionId (BillingSources.ph_body req))
    as [p|]; [|exact U].
  destruct (find _ (BillingSources.prescriptions c)) as [pd|]; [|exact U].
  destruct (InvoiceModel.findOne _ (invoices (BillingSources.core c)));
    [exact U|].
  pose proof (resolveSettings_unique (BillingSources.ph_user req) _ U) as U1.
  destruct (resolveSettings (BillingSources.ph_user req)
              (BillingSources.core c)) as [bs db1]. simpl in U1.
  destruct (BillingSources.pharmacyItems _ _ _) as [its|]; [|exact U1].
  destruct (find (N.eqb (BillingSources.pr_patient pd))
              (patients (BillingSources.core c))) as [pt|]; [|exact U1].
  destruct (find (fun d => N.eqb (doctor_id d) (BillingSources.pr_doctor pd))
              (doctors (BillingSources.core c))) as [d|]; [|exact U1].
  match goal with
  | |- context [createInvoice ?r db1] =>
      pose proof (createInvoice_unique r db1 U1) as U2;
      destruct (createInvoice r db1) as [resp db2]
  end.
  exact U2.
Qed.

(** X2: the lazy creation of settings keeps at most one settings record
    per hospital: if no two records of the database belong to the same
    hospital, this is still so after [getBillingSettings],
    [createInvoice], [generateConsultationInvoice], [generateLabInvoice]
    and [generatePharmacyInvoice], whatever they answer. *)
Theorem one_settings_record_per_hospital :
  (forall (user : User) (db : DB),
     Further.uniqueSettings db ->
     Further.uniqueSettings (snd (getBillingSettings user db))) /\
  (forall (req : CreateInvoiceReq) (db : DB),
     Further.uniqueSettings db ->
     Further.uniqueSettings (snd (createInvoice req db))) /\
  (forall (req : ConsultationReq) (db : DB),
     Further.uniqueSettings db ->
     Further.uniqueSettings (snd (generateConsultationInvoice req db))) /\
  (forall (req : BillingSources.LabReq) (c : BillingSources.Clinical),
     Further.uniqueSettings (BillingSources.core c) ->
     Further.uniqueSettings
       (BillingSources.core (snd (BillingSources.generateLabInvoice req c)))) /\
  (forall (req : BillingSources.PharmacyReq) (c : BillingSources.Clinical),
     Further.uniqueSettings (BillingSources.core c) ->
     Further.uniqueSettings
       (BillingSources.core
          (snd (BillingSources.generatePharmacyInvoice req c)))).
Proof.
  repeat apply conj.
  - intros user db U. unfold getBillingSettings.
    pose proof (resolveSettings_unique user db U) as U1.
    destruct (resolveSettings user db). exact U1.
  - exact createInvoice_unique.
  - exact consultation_unique.
  - exact lab_unique.
  - exact pharmacy_unique.
Qed.

(** The sample clinic, which has no settings, has one record after an
    invoice for appointment 5 is generated. *)
Lemma one_settings_record_per_hospital_witness :
  Further.uniqueSettings
    (snd (generateConsultationInvoice Sample.consult1 Sample.clinic)) /\
  List.length
    (settings (snd (generateConsultationInvoice Sample.consult1 Sample.clinic)))
    = 1.
Proof.
  split; [|reflexivity].
  apply (proj1 (proj2 (proj2 one_settings_record_per_hospital))
           Sample.consult1 Sample.clinic).
  unfold Further.uniqueSettings. simpl. constructor.
Defined.

End SettingsProps.

(** ** Numbers and identities of invoices *)

Module NumberingProps.

Import BillingController.

Local Open Scope float_scope.

Lemma append_assoc (a b c : string) : ((a ++ b) ++ c = a ++ (b ++ c))%string.
Proof. induction a as [|x a IH]; simpl; [reflexivity | now rewrite IH]. Qed.

Lemma prefix_append (a b : string) : String.prefix a (a ++ b) = true.
Proof.
  induction a as [|x a IH]; simpl.
  - destruct b; reflexivity.
  - rewrite IH. destruct (ascii_dec x x); [reflexivity|congruence].
Qed.

Lemma number_starts_with_prefix (prefix : string) (h : ObjectId) (now : Date)
    (coll : list Invoice) :
  String.prefix (prefix ++ "-")
    (InvoiceModel.generateInvoiceNumber prefix h now coll) = true.
Proof.
  unfold InvoiceModel.generateInvoiceNumber.
  rewrite <- append_assoc. apply prefix_append.
Qed.

(** X3: an invoice that [createInvoice] stores is numbered under the
    invoice prefix of the settings of the hospital of the user and carries
    their tax percentage and tax number, and those settings are stored
    afterwards; for a hospital without settings this creates the default
    record, so the number starts with INV- and the tax percentage is 18.
    The invoice belongs to that hospital and is signed by the user. *)
Theorem created_invoice_follows_settings
    (req : CreateInvoiceReq) (db : DB) (saved : Invoice) :
  fst (createInvoice req db) = Json 201 (InvoiceCreated saved) ->
  exists bs : BillingSettings,
    bs = fst (resolveSettings (cr_user req) db) /\
    bs_hospital bs = hospitalId (cr_user req) /\
    In bs (settings (snd (createInvoice req db))) /\
    String.prefix (invoicePrefix bs ++ "-") (invoiceNumber saved) = true /\
    gstPercentage saved = bs_gstPercentage bs /\
    gstNumber saved = bs_gstNumber bs /\
    (find (fun s => N.eqb (bs_hospital s) (hospitalId (cr_user req)))
       (settings db) = None ->
     String.prefix "INV-" (invoiceNumber saved) = true /\
     gstPercentage saved = 18) /\
    hospital saved = hospitalId (cr_user req) /\
    createdBy saved = userId (cr_user req).
Proof.
  intros H. apply Frame.createInvoice_fields in H.
  destruct H as (its & _ & _ & En & Eg & Et & Es & _ & _ & _ & _ & _ & _ & _
                 & _ & _ & Ec & Eh & _).
  exists (fst (resolveSettings (cr_user req) db)).
  rewrite En, Eg, Et, Es, Ec, Eh.
  destruct (SettingsProps.resolveSettings_cases (cr_user req) db)
    as [(t & F & R)|(F & R)]; rewrite R; cbn [fst snd].
  - pose proof F as F'. apply find_some in F'. destruct F' as (I & E).
    apply N.eqb_eq in E.
    repeat apply conj; auto.
    + apply number_starts_with_prefix.
    + intros N. congruence.
  - repeat apply conj; auto.
    + simpl. apply in_or_app. right. simpl. auto.
    + apply number_starts_with_prefix.
    + intros _. split; [|reflexivity].
      apply (number_starts_with_prefix "INV").
Qed.

(** The first manual invoice of the sample clinic, which has no settings,
    is INV-2501-0001 at 18 percent. *)
Lemma created_invoice_follows_settings_witness :
  exists saved : Invoice,
    fst (createInvoice
           (Sample.manual 100%N Sample.january
              [Sample.item "Blood count" 1 250 None] None) Sample.clinic)
      = Json 201 (InvoiceCreated saved) /\
    invoiceNumber saved = "INV-2501-0001" /\
    String.prefix "INV-" (invoiceNumber saved) = true /\
    gstPercentage saved = 18.
Proof.
  eexists. split; [vm_compute; reflexivity|]. split; [reflexivity|].
  destruct (created_invoice_follows_settings
              (Sample.manual 100%N Sample.january
                 [Sample.item "Blood count" 1 250 None] None) Sample.clinic
              _ eq_refl) as (bs & _ & _ & _ & _ & _ & _ & D & _).
  exact (D eq_refl).
Defined.

(** X4: [createInvoice] never stores an invoice under a number that is
    taken.  When a stored invoice, of any hospital, already carries the
    number that [generateInvoiceNumber] computes for the request, the
    request is not answered 201 and the invoices stay as they were. *)
Theorem createInvoice_number_taken (req : CreateInvoiceReq) (db : DB) :
  (exists i : Invoice,
     In i (invoices db) /\
     invoiceNumber i
       = InvoiceModel.generateInvoiceNumber
           (invoicePrefix (fst (resolveSettings (cr_user req) db)))
           (hospitalId (cr_user req)) (now (cr_env req)) (invoices db)) ->
  (forall inv, fst (createInvoice req db) <> Json 201 (InvoiceCreated inv)) /\
  invoices (snd (createInvoice req db)) = invoices db.
Proof.
  intros (i & I & E).
  assert (N : forall inv,
             fst (createInvoice req db) <> Json 201 (InvoiceCreated inv)).
  { intros inv H.
    pose proof (Frame.createInvoice_fields req db inv H)
      as (_ & _ & _ & En & _).
    destruct (Handlers.createInvoice_cases req db)
      as [(err & Er & _)|(doc & _ & Er & _ & _ & _ & _ & _ & _ & X)];
      rewrite Er in H; [discriminate|].
    inversion H; subst inv. clear H.
    unfold Mongoose.preSave in En.
    destruct (Saving.derive_fields (now (cr_env req)) doc) as (_ & F2 & _).
    rewrite F2 in En.
    assert (T : existsb
                  (fun j => N.eqb (_id j) (_id doc) ||
                            String.eqb (invoiceNumber j) (invoiceNumber doc))
                  (invoices db) = true).
    { apply existsb_exists. exists i. split; [exact I|].
      rewrite En, E, String.eqb_refl. apply orb_true_r. }
    congruence. }
  split; [exact N|].
  destruct (Handlers.createInvoice_cases req db)
    as [(err & _ & C)|(doc & _ & Er & _)]; [exact C|].
  exfalso. exact (N _ Er).
Qed.

(** Hospital 2 has no invoice, but its first number under the default
    prefix in January is the INV-2501-0001 that hospital 1 has issued: the
    creation is refused with the duplicate-key error. *)
Lemma createInvoice_number_taken_witness :
  createInvoice
    (Sample2.manual2 101%N Sample.january
       [Sample.item "Blood count" 1 250 None]) Sample2.twoTenants
  = (Next DuplicateKeyError,
     set_settings [defaultSettings 2%N 4%N] Sample2.twoTenants) /\
  invoices
    (snd (createInvoice
            (Sample2.manual2 101%N Sample.january
               [Sample.item "Blood count" 1 250 None]) Sample2.twoTenants))
  = invoices Sample2.twoTenants.
Proof.
  split; [vm_compute; reflexivity|].
  apply (createInvoice_number_taken
           (Sample2.manual2 101%N Sample.january
              [Sample.item "Blood count" 1 250 None]) Sample2.twoTenants).
  exists (Sample.stored 100%N "INV-2501-0001" 1%N 500 0 unpaid None).
  split; [simpl; auto|vm_compute; reflexivity].
Defined.

Lemma insert_unique (coll : list Invoice) (saved : Invoice) :
  Further.uniqueInvoices coll ->
  existsb (fun i => N.eqb (_id i) (_id saved) ||
                    String.eqb (invoiceNumber i) (invoiceNumber saved)) coll
    = false ->
  Further.uniqueInvoices (coll ++ [saved]).
Proof.
  intros (Ui & Un) X. unfold Further.uniqueInvoices.
  rewrite !map_app. simpl.
  assert (A : forall i, In i coll ->
                _id i <> _id saved /\ invoiceNumber i <> invoiceNumber saved).
  { intros i I.
    destruct (N.eqb (_id i) (_id saved)) eqn:E1;
      destruct (String.eqb (invoiceNumber i) (invoiceNumber saved)) eqn:E2;
      try (exfalso;
           assert (T : existsb
                         (fun j => N.eqb (_id j) (_id saved) ||
                                   String.eqb (invoiceNumber j)
                                     (invoiceNumber saved)) coll = true)
             by (apply existsb_exists; exists i; split;
                 [exact I|rewrite E1, E2; reflexivity]);
           congruence).
    apply N.eqb_neq in E1. apply String.eqb_neq in E2. auto. }
  split; (apply NoDup_app; [assumption|repeat constructor; simpl; tauto|]).
  - intros x Hx [Hs|[]]. apply in_map_iff in Hx.
    destruct Hx as (i & Ei & Ii). destruct (A i Ii) as (B & _). congruence.
  - intros x Hx [Hs|[]]. apply in_map_iff in Hx.
    destruct Hx as (i & Ei & Ii). destruct (A i Ii) as (_ & B). congruence.
Qed.

Lemma replace_unique (coll : list Invoice) (old doc : Invoice) :
  Further.uniqueInvoices coll -> In old coll ->
  _id doc = _id old -> invoiceNumber doc = invoiceNumber old ->
  Further.uniqueInvoices
    (map (fun i => if N.eqb (_id i) (_id old) then doc else i) coll).
Proof.
  intros (Ui & Un) I Ed En. unfold Further.uniqueInvoices.
  assert (Mi : map _id (map (fun i => if N.eqb (_id i) (_id old) then doc
                                      else i) coll) = map _id coll).
  { rewrite map_map. apply map_ext_in. intros i Ii.
    destruct (N.eqb (_id i) (_id old)) eqn:E; [|reflexivity].
    apply N.eqb_eq in E. congruence. }
  assert (Mn : map invoiceNumber
                 (map (fun i => if N.eqb (_id i) (_id old) then doc else i)
                    coll) = map invoiceNumber coll).
  { rewrite map_map. apply map_ext_in. intros i Ii.
    destruct (N.eqb (_id i) (_id old)) eqn:E; [|reflexivity].
    apply N.eqb_eq in E.
    assert (i = old) by exact (Frame.map_inj_in _id coll i old Ui Ii I E).
    subst i. exact En. }
  rewrite Mi, Mn. auto.
Qed.

End NumberingProps.

(** ** Reading invoices *)

Module QueriesProps.

Import BillingController BillingQueries.

Lemma in_insertByDate (x y : Invoice) (l : list Invoice) :
  In x (insertByDate y l) <-> x = y \/ In x l.
Proof.
  induction l as [|z l IH]; simpl; [intuition|].
  destruct (getTime (invoiceDate z) <? getTime (invoiceDate y))%Z; simpl;
    [intuition|].
  rewrite IH. intuition.
Qed.

Lemma in_sortByDateDesc (x : Invoice) (l : list Invoice) :
  In x (sortByDateDesc l) <-> In x l.
Proof.
  induction l as [|y l IH]; simpl; [tauto|].
  rewrite in_insertByDate, IH. intuition.
Qed.

Lemma length_insertByDate (y : Invoice) (l : list Invoice) :
  List.length (insertByDate y l) = S (List.length l).
Proof.
  induction l as [|z l IH]; simpl; [reflexivity|].
  destruct (getTime (invoiceDate z) <? getTime (invoiceDate y))%Z; simpl;
    [reflexivity|now rewrite IH].
Qed.

Lemma length_sortByDateDesc (l : list Invoice) :
  List.length (sortByDateDesc l) = List.length l.
Proof.
  induction l as [|y l IH]; simpl; [reflexivity|].
  now rewrite length_insertByDate, IH.
Qed.

Lemma insertByDate_sorted (y : Invoice) (l : list Invoice) :
  Further.latestFirst l -> Further.latestFirst (insertByDate y l).
Proof.
  unfold Further.latestFirst.
  induction l as [|z l IH]; simpl; intros S.
  - constructor; constructor.
  - inversion S as [|? ? Sl Fz]; subst.
    destruct (getTime (invoiceDate z) <? getTime (invoiceDate y))%Z eqn:E.
    + apply Z.ltb_lt in E. constructor; [exact S|].
      constructor; [lia|].
      rewrite Forall_forall in *. intros w Hw. specialize (Fz w Hw). lia.
    + apply Z.ltb_ge in E. constructor; [now apply IH|].
      rewrite Forall_forall in *. intros w Hw.
      apply in_insertByDate in Hw. destruct Hw as [Hw|Hw];
        [subst w; exact E|now apply Fz].
Qed.

Lemma sortByDateDesc_sorted (l : list Invoice) :
  Further.latestFirst (sortByDateDesc l).
Proof.
  induction l as [|y l IH]; simpl; [constructor|].
  now apply insertByDate_sorted.
Qed.

Lemma sorted_skipn (n : nat) (l : list Invoice) :
  Further.latestFirst l -> Further.latestFirst (skipn n l).
Proof.
  unfold Further.latestFirst. revert l.
  induction n as [|n IH]; intros l S; simpl; [exact S|].
  destruct l as [|x l]; [constructor|].
  inversion S; subst. now apply IH.
Qed.

Lemma in_firstn (n : nat) (l : list Invoice) (x : Invoice) :
  In x (firstn n l) -> In x l.
Proof.
  revert l. induction n as [|n IH]; intros l H; simpl in H; [contradiction|].
  destruct l as [|y l]; [contradiction|].
  destruct H as [H|H]; [now left|right; now apply IH].
Qed.

Lemma in_skipn (n : nat) (l : list Invoice) (x : Invoice) :
  In x (skipn n l) -> In x l.
Proof.
  revert l. induction n as [|n IH]; intros l H; simpl in H; [exact H|].
  destruct l as [|y l]; [contradiction|]. right. now apply IH.
Qed.

Lemma sorted_firstn (n : nat) (l : list Invoice) :
  Further.latestFirst l -> Further.latestFirst (firstn n l).
Proof.
  unfold Further.latestFirst. revert l.
  induction n as [|n IH]; intros l S; simpl; [constructor|].
  destruct l as [|x l]; [constructor|].
  inversion S as [|? ? Sl Fx]; subst. constructor; [now apply IH|].
  rewrite Forall_forall in *. intros w Hw. apply Fx.
  now apply in_firstn in Hw.
Qed.

Lemma refIs_spec (field wanted : option ObjectId) :
  refIs field wanted = true ->
  forall w, wanted = Some w -> field = Some w.
Proof.
  unfold refIs. intros H w E. subst wanted.
  destruct field as [x|]; [|discriminate].
  apply N.eqb_eq in H. now subst.
Qed.

Lemma textIs_spec (field : string) (wanted : option string) :
  textIs field wanted = true ->
  forall w, wanted = Some w -> w <> "" -> field = w.
Proof.
  unfold textIs, JS.truthy_str. intros H w E N. subst wanted.
  destruct (String.eqb w "") eqn:Ew; simpl in H.
  - apply String.eqb_eq in Ew. contradiction.
  - now apply String.eqb_eq in H.
Qed.

Lemma queryMatches_spec (h : ObjectId) (q : InvoicesQuery) (i : Invoice) :
  queryMatches h q i = true -> hospital i = h /\ Further.passes q i.
Proof.
  unfold queryMatches, Further.passes. intros H.
  repeat (apply andb_true_iff in H; destruct H as [H ?]).
  apply N.eqb_eq in H.
  repeat apply conj; auto.
  - now apply refIs_spec.
  - now apply refIs_spec.
  - now apply textIs_spec.
  - now apply textIs_spec.
  - intros d E. rewrite E in *. now apply Z.leb_le.
  - intros d E. rewrite E in *. now apply Z.leb_le.
Qed.

Lemma numeral_positive (s : string) (n : N) :
  numeral s = Some n -> (0 < n)%N.
Proof.
  unfold numeral. destruct s as [|c r]; [discriminate|].
  destruct (digits 0 (String c r)) as [[|k]|]; try discriminate.
  intros H. inversion H. lia.
Qed.

(** The answer to a query of plain numerals. *)
Lemma getInvoices_plain (user : User) (q : InvoicesQuery) (db : DB)
    (p l : nat) :
  Further.plainQuery q p l ->
  0 < p /\ 0 < l /\
  getInvoices user q db
    = Some (Sent 200
              {| results :=
                   List.length
                     (firstn l
                        (skipn ((p - 1) * l)
                           (sortByDateDesc
                              (filter (queryMatches (hospitalId user) q)
                                 (invoices db)))));
                 total :=
                   List.length
                     (filter (queryMatches (hospitalId user) q)
                        (invoices db));
                 pages :=
                   ceilDiv
                     (List.length
                        (filter (queryMatches (hospitalId user) q)
                           (invoices db))) l;
                 currentPage := p;
                 data :=
                   firstn l
                     (skipn ((p - 1) * l)
                        (sortByDateDesc
                           (filter (queryMatches (hospitalId user) q)
                              (invoices db)))) |}).
Proof.
  intros (P & L & B).
  assert (Pp : (0 < N.of_nat p)%N).
  { unfold pageOf in P. destruct (q_page q) as [s|].
    - exact (numeral_positive s _ P).
    - inversion P as [E]. lia. }
  assert (Lp : (0 < N.of_nat l)%N).
  { unfold limitOf in L. destruct (q_limit q) as [s|].
    - exact (numeral_positive s _ L).
    - inversion L as [E]. lia. }
  split; [lia|]. split; [lia|].
  unfold getInvoices. rewrite P, L.
  apply N.ltb_lt in B. rewrite B.
  now rewrite !Nat2N.id.
Qed.

(** X5: for a query whose [page] and [limit] are absent or plain numerals
    (decimal digits only, not zero) with a product below 2^53, every
    invoice on the page of [getInvoices] is a stored invoice of the
    hospital of the user that passes each filter the query gives (patient,
    doctor, payment status, invoice type, start and end date); the page
    runs from the latest invoice date to the earliest; and the first page
    of a query whose matches fit in one page holds every match. *)
Theorem getInvoices_scoped
    (user : User) (q : InvoicesQuery) (db : DB) (p l : nat) :
  Further.plainQuery q p l ->
  exists pg : InvoicesPage,
    getInvoices user q db = Some (Sent 200 pg) /\
    (forall i, In i (data pg) ->
       In i (invoices db) /\ hospital i = hospitalId user /\
       Further.passes q i) /\
    Further.latestFirst (data pg) /\
    (p = 1 -> total pg <= l ->
     forall i, In i (invoices db) ->
       queryMatches (hospitalId user) q i = true -> In i (data pg)).
Proof.
  intros Q. destruct (getInvoices_plain user q db p l Q) as (_ & _ & E).
  eexists. split; [exact E|]. cbn [data total].
  repeat apply conj.
  - intros i H. apply in_firstn in H. apply in_skipn in H.
    apply (proj1 (in_sortByDateDesc _ _)) in H.
    apply filter_In in H. destruct H as (I & M).
    apply queryMatches_spec in M. tauto.
  - apply sorted_firstn, sorted_skipn, sortByDateDesc_sorted.
  - intros P L i I M. rewrite P. simpl.
    rewrite firstn_all2 by (rewrite length_sortByDateDesc; exact L).
    apply in_sortByDateDesc, filter_In. auto.
Qed.

(** The staff of hospital 1 see the two invoices of hospital 1 among the
    three of the two hospitals, with neither [page] nor [limit] in the
    query. *)
Lemma getInvoices_scoped_witness :
  exists pg : InvoicesPage,
    getInvoices Sample.staff (Sample2.everyInvoice None) Sample.twoHospitals
      = Some (Sent 200 pg) /\
    List.length (data pg) = 2 /\
    (forall i, In i (data pg) -> hospital i = 1%N) /\
    (forall i, In i (invoices Sample.twoHospitals) -> hospital i = 1%N ->
               In i (data pg)).
Proof.
  destruct (getInvoices_scoped Sample.staff (Sample2.everyInvoice None)
              Sample.twoHospitals 1 10
              (conj eq_refl (conj eq_refl eq_refl))) as (pg & E & S & _ & C).
  exists pg. split; [exact E|].
  injection E as E.
  split; [now rewrite <- E|]. split.
  - intros i I. exact (proj1 (proj2 (S i I))).
  - intros i I H. apply (C eq_refl); [rewrite <- E; cbv; repeat constructor|exact I|].
    unfold queryMatches. simpl. rewrite H. reflexivity.
Defined.

Lemma ceilDiv_bounds (a b : nat) :
  0 < b -> a <= ceilDiv a b * b /\ ceilDiv a b * b < a + b.
Proof.
  intros B. unfold ceilDiv.
  pose proof (Nat.div_mod_eq (a + b - 1) b) as E.
  pose proof (Nat.mod_upper_bound (a + b - 1) b) as M.
  assert (Hb : b <> 0) by lia. specialize (M Hb).
  nia.
Qed.

Lemma length_firstn_skipn (n k : nat) (l : list Invoice) :
  List.length (firstn n (skipn k l)) = Nat.min n (List.length l - k).
Proof. now rewrite length_firstn, length_skipn. Qed.

(** X6: the counts [getInvoices] reports for a query whose [page] and
    [limit] are absent or plain numerals (decimal digits only, not zero)
    with a product below 2^53.  [total] is the number of stored invoices
    that match the query, whatever the page; [results] is the length of
    the page, at most [limit], and equals
    min(limit, total - (page - 1) * limit); [currentPage] is [page];
    [pages] is the least number of pages of [limit] invoices that hold
    [total] invoices; and a page after the last one is empty. *)
Theorem getInvoices_counts
    (user : User) (q : InvoicesQuery) (db : DB) (p l : nat) :
  Further.plainQuery q p l ->
  exists pg : InvoicesPage,
    getInvoices user q db = Some (Sent 200 pg) /\
    total pg
      = List.length (filter (queryMatches (hospitalId user) q) (invoices db)) /\
    results pg = List.length (data pg) /\
    results pg = Nat.min l (total pg - (p - 1) * l) /\
    results pg <= l /\
    currentPage pg = p /\
    total pg <= pages pg * l /\
    pages pg * l < total pg + l /\
    (pages pg < p -> data pg = []).
Proof.
  intros Q. destruct (getInvoices_plain user q db p l Q) as (_ & L & E).
  eexists. split; [exact E|]. cbn [data total results pages currentPage].
  set (t := List.length
              (filter (queryMatches (hospitalId user) q) (invoices db))).
  destruct (ceilDiv_bounds t l L) as (B1 & B2).
  assert (R : List.length
                (firstn l
                   (skipn ((p - 1) * l)
                      (sortByDateDesc
                         (filter (queryMatches (hospitalId user) q)
                            (invoices db)))))
              = Nat.min l (t - (p - 1) * l))
    by (rewrite length_firstn_skipn, length_sortByDateDesc; reflexivity).
  repeat apply conj; auto.
  - rewrite R. lia.
  - intros P. apply length_zero_iff_nil. rewrite R.
    assert (t <= (p - 1) * l) by nia.
    lia.
Qed.

(** The fifth page of the two invoices of hospital 1, for the parameter
    [page=5], is empty. *)
Lemma getInvoices_counts_witness :
  exists pg : InvoicesPage,
    getInvoices Sample.staff (Sample2.everyInvoice (Some "5"%string))
      Sample.twoHospitals = Some (Sent 200 pg) /\
    total pg = 2 /\ pages pg = 1 /\ currentPage pg = 5 /\ data pg = [].
Proof.
  destruct (getInvoices_counts Sample.staff
              (Sample2.everyInvoice (Some "5"%string)) Sample.twoHospitals
              5 10 (conj eq_refl (conj eq_refl eq_refl)))
    as (pg & E & _ & _ & _ & _ & Cp & _ & _ & L).
  exists pg. split; [exact E|].
  injection E as E.
  split; [now rewrite <- E|]. split; [now rewrite <- E|].
  split; [exact Cp|].
  apply L. rewrite <- E. cbv. repeat constructor.
Defined.

(** X7: [getInvoiceById] answers with the stored invoice of the given
    [_id], of whatever hospital: it takes no account of who asks.  An
    answer 200 carries a stored invoice with that [_id]; every stored
    invoice is returned for its [_id] ([_id]s being unique); and the answer
    is the 404 error exactly when no stored invoice has the [_id]. *)
Theorem getInvoiceById_any_hospital (db : DB) :
  (forall (id : ObjectId) (inv : Invoice),
     getInvoiceById id db = Sent 200 inv ->
     In inv (invoices db) /\ _id inv = id) /\
  (forall inv : Invoice,
     NoDup (map _id (invoices db)) -> In inv (invoices db) ->
     getInvoiceById (_id inv) db = Sent 200 inv) /\
  (forall id : ObjectId,
     getInvoiceById id db = Forwarded (AppError "Invoice not found" 404) <->
     (forall i, In i (invoices db) -> _id i <> id)).
Proof.
  unfold getInvoiceById. repeat apply conj.
  - intros id inv H.
    destruct (InvoiceModel.findById id (invoices db)) as [x|] eqn:F;
      [|discriminate].
    inversion H; subst x. now apply PaymentState.findById_some.
  - intros inv N I.
    destruct (InvoiceModel.findById (_id inv) (invoices db)) as [x|] eqn:F.
    + apply PaymentState.findById_some in F. destruct F as (Ix & E).
      now rewrite (Frame.map_inj_in _id (invoices db) x inv N Ix I E).
    + unfold InvoiceModel.findById in F.
      apply (find_none _ _ F) in I. simpl in I.
      rewrite N.eqb_refl in I. discriminate.
  - intros id. split.
    + intros H i I E.
      destruct (InvoiceModel.findById id (invoices db)) as [x|] eqn:F;
        [discriminate|].
      unfold InvoiceModel.findById in F.
      apply (find_none _ _ F) in I. simpl in I.
      apply N.eqb_neq in I. contradiction.
    + intros H.
      destruct (InvoiceModel.findById id (invoices db)) as [x|] eqn:F;
        [|reflexivity].
      apply PaymentState.findById_some in F. destruct F as (Ix & E).
      exfalso. exact (H x Ix E).
Qed.

(** The invoice of hospital 2 in the sample of two hospitals is returned
    for its [_id]. *)
Lemma getInvoiceById_any_hospital_witness :
  getInvoiceById 201%N Sample.twoHospitals
    = Sent 200 (Sample.walkIn 201%N "PH-2501-0001b" 2%N).
Proof.
  apply (proj1 (proj2 (getInvoiceById_any_hospital Sample.twoHospitals))
           (Sample.walkIn 201%N "PH-2501-0001b" 2%N)).
  - simpl. repeat constructor; simpl; intuition discriminate.
  - simpl. auto.
Defined.

(** X8: an invoice that [createInvoice] has stored is read back as it was
    stored: [getInvoiceById] on its [_id] answers 200 with the invoice of
    the 201 answer (same items, totals and number). *)
Theorem created_invoice_read_back
    (req : CreateInvoiceReq) (db : DB) (saved : Invoice) :
  fst (createInvoice req db) = Json 201 (InvoiceCreated saved) ->
  getInvoiceById (_id saved) (snd (createInvoice req db)) = Sent 200 saved.
Proof.
  intros H.
  destruct (Handlers.createInvoice_cases req db)
    as [(err & E & _)|(doc & _ & E & C & _ & _ & _ & _ & _ & X)];
    rewrite E in H; [discriminate|].
  inversion H; subst saved. clear H.
  unfold getInvoiceById, InvoiceModel.findById. rewrite C.
  unfold Mongoose.preSave in *.
  destruct (Saving.derive_fields (now (cr_env req)) doc) as (F1 & _).
  rewrite (Frame.find_snoc_fresh _ (invoices db)
             (Mongoose.derive (now (cr_env req)) doc)).
  - reflexivity.
  - rewrite F1.
    destruct (existsb (fun i => N.eqb (_id i) (_id doc)) (invoices db)) eqn:Y;
      [|reflexivity].
    apply existsb_exists in Y. destruct Y as (i & I & Ei).
    assert (T : existsb
                  (fun j => N.eqb (_id j) (_id doc) ||
                            String.eqb (invoiceNumber j) (invoiceNumber doc))
                  (invoices db) = true)
      by (apply existsb_exists; exists i; split; [exact I|now rewrite Ei]).
    congruence.
  - apply N.eqb_refl.
Qed.

(** The laboratory invoice created in the sample clinic is read back by
    its [_id] 100. *)
Lemma created_invoice_read_back_witness :
  exists saved : Invoice,
    fst (createInvoice Sample2.bloodCount Sample.clinic)
      = Json 201 (InvoiceCreated saved) /\
    getInvoiceById (_id saved)
      (snd (createInvoice Sample2.bloodCount Sample.clinic))
      = Sent 200 saved /\
    invoiceNumber saved = "INV-2501-0001" /\ totalAmount saved = 295%float.
Proof.
  eexists. split; [lazy; reflexivity|].
  split; [|split; reflexivity].
  apply (created_invoice_read_back Sample2.bloodCount Sample.clinic).
  lazy. reflexivity.
Defined.

End QueriesProps.

(** ** Payment updates *)

Module PaymentProps.

Import BillingController.

Local Open Scope float_scope.

Lemma ltb_true_not_eqb (x y : float) : (x <? y) = true -> (x =? y) = false.
Proof.
  rewrite ltb_spec, FloatAxioms.eqb_spec. unfold SFltb, SFeqb.
  destruct (SFcompare (Prim2SF x) (Prim2SF y)) as [[]|]; simpl; congruence.
Qed.

Lemma updateInvoicePayment_collections (req : PaymentReq) (db : DB) :
  patients (snd (updateInvoicePayment req db)) = patients db /\
  doctors (snd (updateInvoicePayment req db)) = doctors db /\
  hospitals (snd (updateInvoicePayment req db)) = hospitals db /\
  appointments (snd (updateInvoicePayment req db)) = appointments db /\
  settings (snd (updateInvoicePayment req db)) = settings db.
Proof.
  unfold updateInvoicePayment, catchAsync, updateInvoicePaymentHandler.
  destruct (InvoiceModel.findById (pr_id req) (invoices db)) as [old|];
    [|simpl; auto 6].
  match goal with
  | |- context [Store.save ?n false ?d ?c] =>
      destruct (Store.save n false d c) as [err|[saved coll]]
  end; simpl; auto 6.
Qed.

(** X9: a payment update that is answered 200 rewrites the payment fields
    of the one invoice with the given [_id] and nothing else.  The invoice
    of the answer agrees with the stored one on every field but paidAmount,
    paymentMethod, paymentDate, balanceDue and paymentStatus; its
    paidAmount is the amount of the request (it replaces the stored amount,
    it is not added to it) or, when the request gives none, the stored
    amount; the collection keeps its [_id]s in their order, every other
    invoice is kept as it is, and patients, doctors, hospitals,
    appointments and settings are untouched. *)
Theorem payment_update_frame (req : PaymentReq) (db : DB) (saved : Invoice) :
  fst (updateInvoicePayment req db) = Json 200 (PaymentUpdated saved) ->
  exists old : Invoice,
    InvoiceModel.findById (pr_id req) (invoices db) = Some old /\
    Further.samePayload old saved /\
    paidAmount saved
      = match p_paidAmount (pr_body req) with
        | Some _ => JS.parseFloat (p_paidAmount (pr_body req))
        | None => paidAmount old
        end /\
    map _id (invoices (snd (updateInvoicePayment req db)))
      = map _id (invoices db) /\
    (forall i, In i (invoices db) -> _id i <> pr_id req ->
       In i (invoices (snd (updateInvoicePayment req db)))) /\
    (forall i, In i (invoices (snd (updateInvoicePayment req db))) ->
       i = saved \/ (In i (invoices db) /\ _id i <> pr_id req)) /\
    In saved (invoices (snd (updateInvoicePayment req db))) /\
    patients (snd (updateInvoicePayment req db)) = patients db /\
    doctors (snd (updateInvoicePayment req db)) = doctors db /\
    hospitals (snd (updateInvoicePayment req db)) = hospitals db /\
    appointments (snd (updateInvoicePayment req db)) = appointments db /\
    settings (snd (updateInvoicePayment req db)) = settings db.
Proof.
  intros H.
  destruct (Handlers.updateInvoicePayment_cases req db)
    as [(err & E & _)|(old & doc & F & D & V & E & C)];
    rewrite E in H; [discriminate|].
  inversion H; subst saved. clear H.
  pose proof (PaymentState.findById_some _ _ _ F) as (Iold & Eold).
  assert (P : Further.samePayload old doc).
  { subst doc.
    apply (Frame.samePayload_trans old (applyPayment (pr_body req) old));
      [apply Frame.applyPayment_samePayload|apply Frame.derive_samePayload]. }
  assert (Eid : _id doc = _id old) by (symmetry; apply P).
  exists old. split; [exact F|]. split; [exact P|].
  split.
  { subst doc.
    destruct (Frame.derive_shape (now (pr_env req))
                (applyPayment (pr_body req) old)) as (s & d & Ed).
    rewrite Ed. unfold applyPayment. simpl. reflexivity. }
  rewrite C.
  split.
  { rewrite map_map. apply map_ext_in. intros i Ii.
    destruct (N.eqb (_id i) (_id old)) eqn:X; [|reflexivity].
    apply N.eqb_eq in X. congruence. }
  split.
  { intros i Ii Ni. apply in_map_iff. exists i. split; [|exact Ii].
    destruct (N.eqb (_id i) (_id old)) eqn:X; [|reflexivity].
    apply N.eqb_eq in X. congruence. }
  split.
  { intros i Ii. apply in_map_iff in Ii. destruct Ii as (j & Ej & Ij).
    destruct (N.eqb (_id j) (_id old)) eqn:X; [left; congruence|].
    right. subst i. split; [exact Ij|].
    apply N.eqb_neq in X. congruence. }
  split.
  { apply in_map_iff. exists old. split; [|exact Iold].
    now rewrite N.eqb_refl. }
  apply updateInvoicePayment_collections.
Qed.

(** A second payment of 200 on the January invoice of 500, of which 500
    were paid: the stored amount becomes 200, not 700. *)
Lemma payment_update_frame_witness :
  exists old saved : Invoice,
    InvoiceModel.findById 100%N (invoices Sample.clinicPaid) = Some old /\
    paidAmount old = 500 /\ paidAmount saved = 200 /\
    Further.samePayload old saved.
Proof.
  destruct (payment_update_frame
              (Sample.payment 100%N Sample.february (Some 200))
              Sample.clinicPaid
              (Mongoose.derive Sample.february
                 (applyPayment
                    (pr_body (Sample.payment 100%N Sample.february (Some 200)))
                    (Sample.stored 100%N "INV-2501-0001" 1%N 500 500 paid
                       (Some Sample.january))))
              eq_refl) as (old & F & P & A & _).
  exists old. eexists. split; [exact F|].
  split; [|split; [exact A|exact P]].
  simpl in F. inversion F. reflexivity.
Defined.

(** X10: what a payment update refuses.  An [_id] that no stored invoice
    has is answered through [next] with the 404 error "Invoice not found";
    a negative paidAmount on a stored invoice is answered through [next]
    with the validation error of [save] (paidAmount has minimum 0); and
    every answer other than the 200 leaves the database as it was. *)
Theorem payment_update_refusals (req : PaymentReq) (db : DB) :
  ((forall i, In i (invoices db) -> _id i <> pr_id req) ->
   updateInvoicePayment req db
     = (Next (AppError "Invoice not found" 404), db)) /\
  (forall (old : Invoice) (p : JS.Number),
     InvoiceModel.findById (pr_id req) (invoices db) = Some old ->
     p_paidAmount (pr_body req) = Some p -> (p <? 0) = true ->
     updateInvoicePayment req db = (Next ValidationError, db)) /\
  ((forall saved,
      fst (updateInvoicePayment req db) <> Json 200 (PaymentUpdated saved)) ->
   snd (updateInvoicePayment req db) = db).
Proof.
  repeat apply conj.
  - intros N.
    unfold updateInvoicePayment, catchAsync, updateInvoicePaymentHandler.
    destruct (InvoiceModel.findById (pr_id req) (invoices db)) as [x|] eqn:F;
      [|reflexivity].
    apply PaymentState.findById_some in F. destruct F as (I & E).
    exfalso. exact (N x I E).
  - intros old p F B L.
    unfold updateInvoicePayment, catchAsync, updateInvoicePaymentHandler.
    rewrite F. unfold Store.save.
    assert (V : Mongoose.validate
                  (Mongoose.derive (now (pr_env req))
                     (applyPayment (pr_body req) old)) = false).
    { destruct (Frame.derive_shape (now (pr_env req))
                  (applyPayment (pr_body req) old)) as (s & d & Ed).
      rewrite Ed. unfold Mongoose.validate, applyPayment. simpl.
      rewrite B. simpl. rewrite (ltb_true_not_eqb _ _ L).
      rewrite (FloatFacts.ltb_true_leb_false _ _ L).
      rewrite !andb_false_r. reflexivity. }
    rewrite V. reflexivity.
  - intros N.
    destruct (Handlers.updateInvoicePayment_cases req db)
      as [(err & _ & E)|(old & doc & _ & _ & _ & E & _)]; [exact E|].
    exfalso. exact (N doc E).
Qed.

(** A payment of -50 on the stored January invoice of the paid clinic. *)
Lemma payment_update_refusals_witness :
  updateInvoicePayment (Sample.payment 100%N Sample.february (Some (-50)))
    Sample.clinicPaid
  = (Next ValidationError, Sample.clinicPaid) /\
  updateInvoicePayment (Sample.payment 101%N Sample.february (Some 50))
    Sample.clinicPaid
  = (Next (AppError "Invoice not found" 404), Sample.clinicPaid).
Proof.
  split.
  - apply (proj1 (proj2 (payment_update_refusals
                           (Sample.payment 100%N Sample.february (Some (-50)))
                           Sample.clinicPaid))
             (Sample.stored 100%N "INV-2501-0001" 1%N 500 500 paid
                (Some Sample.january)) (-50));
      reflexivity.
  - apply (proj1 (payment_update_refusals
                    (Sample.payment 101%N Sample.february (Some 50))
                    Sample.clinicPaid)).
    simpl. intros i [H|[]]. subst i. simpl. discriminate.
Defined.

End PaymentProps.

(** ** The walk-in laboratory invoice *)

Module WalkInProps.

Import WalkInCreation.

(** [createLaboratoryInvoice] either answers 400, 404 or 500 and writes
    nothing, or appends one validated walk-in document of the hospital of
    the user, passed through the pre-save hook, and answers 201 with it. *)
Lemma createLaboratoryInvoice_cases (req : LaboratoryReq) (db : DB) :
  (exists (st : nat) (msg : string),
     createLaboratoryInvoice req db = (Json st (WalkInFailure msg), db) /\
     (st = 400 \/ st = 404 \/ st = 500)) \/
  (exists (doc : Invoice) (h creator : ObjectId),
     st_hospital (wl_user req) = Some h /\
     In h (hospitals db) /\
     st_id (wl_user req) = Some creator /\
     Mongoose.validate doc = true /\
     _id doc = freshId (wl_env req) /\
     customerType doc = walk_in /\ patient doc = None /\
     invoiceType doc = "laboratory"%string /\
     hospital doc = h /\ createdBy doc = creator /\
     invoiceDate doc = now (wl_env req) /\
     Some (List.length (items doc))
       = option_map (@List.length TestInput) (tests (wl_body req)) /\
     invoiceNumber doc
       = InvoiceModel.generateInvoiceNumber
           (match find (fun s => N.eqb (bs_hospital s) h) (settings db) with
            | Some s => if JS.truthy_str (invoicePrefix s)
                        then invoicePrefix s else "LAB"%string
            | None => "LAB"%string
            end) h (now (wl_env req)) (invoices db) /\
     existsb (fun i => N.eqb (_id i) (_id doc) ||
                       String.eqb (invoiceNumber i) (invoiceNumber doc))
       (invoices db) = false /\
     createLaboratoryInvoice req db
       = (Json 201 (WalkInData (Mongoose.preSave (now (wl_env req)) doc)),
          set_invoices
            (invoices db ++ [Mongoose.preSave (now (wl_env req)) doc])%list
            db)).
Proof.
  unfold createLaboratoryInvoice, creationFailed.
  destruct (customerName (wl_body req)) as [name|];
    [|left; do 2 eexists; split; [reflexivity|auto]].
  destruct (tests (wl_body req)) as [[|test rest]|];
    try (left; do 2 eexists; split; [reflexivity|auto]).
  destruct (negb (JS.truthy_str name));
    [left; do 2 eexists; split; [reflexivity|auto]|].
  destruct (st_hospital (wl_user req)) as [h|];
    [|left; do 2 eexists; split; [reflexivity|auto]].
  destruct (existsb (N.eqb h) (hospitals db)) eqn:Hh; simpl negb; cbv iota;
    [|left; do 2 eexists; split; [reflexivity|auto]].
  destruct (st_id (wl_user req)) as [creator|];
    [|left; do 2 eexists; split; [reflexivity|auto]].
  match goal with
  | |- context [Store.save ?n true ?d ?c] =>
      destruct (Store.save n true d c) as [err|[saved coll]] eqn:S
  end; [left; do 2 eexists; split; [reflexivity|auto]|].
  right. apply Saving.save_ok in S. destruct S as (V & E & C & U).
  specialize (U eq_refl). subst saved coll.
  match type of V with
  | Mongoose.validate ?d = true =>
      destruct (Saving.derive_fields (now (wl_env req)) d) as (F1 & F2 & _);
      exists d, h, creator
  end.
  unfold Mongoose.preSave in *. rewrite F1, F2 in U.
  apply existsb_exists in Hh. destruct Hh as (x & Ix & Ex).
  apply N.eqb_eq in Ex. subst x.
  repeat apply conj; try reflexivity; auto.
  simpl. now rewrite length_map.
Qed.

(** X11: a walk-in laboratory invoice that is answered 201 is stored, at
    the end of the collection, as a walk-in invoice of type laboratory of
    the hospital of the user, which exists, with no patient and one item
    for each test of the request; its payment state is the one the
    pre-save hook derives from its amounts (the handler sets none);
    nothing else is written; and [getWalkInInvoiceById] of a user of that
    hospital then answers 200 with the same invoice. *)
Theorem walk_in_laboratory_invoice_stored
    (req : LaboratoryReq) (db : DB) (saved : Invoice) :
  fst (createLaboratoryInvoice req db) = Json 201 (WalkInData saved) ->
  snd (createLaboratoryInvoice req db)
    = set_invoices (invoices db ++ [saved])%list db /\
  customerType saved = walk_in /\ patient saved = None /\
  invoiceType saved = "laboratory"%string /\
  st_hospital (wl_user req) = Some (hospital saved) /\
  In (hospital saved) (hospitals db) /\
  st_id (wl_user req) = Some (createdBy saved) /\
  Some (List.length (items saved))
    = option_map (@List.length TestInput) (tests (wl_body req)) /\
  Spec.statusIff saved /\
  WalkInController.getWalkInInvoiceById
    {| WalkInController.wu_hospital := hospital saved |} (_id saved)
    (snd (createLaboratoryInvoice req db))
  = Json 200 (WalkInData saved).
Proof.
  intros H.
  destruct (createLaboratoryInvoice_cases req db)
    as [(st & msg & E & _)
       |(doc & h & creator & Hh & Ih & Hc & V & Ei & Ec & Ep & Et & Eh & Eb
         & _ & El & _ & X & E)];
    rewrite E in H; simpl in H; [discriminate|].
  inversion H; subst saved. clear H. rewrite E. simpl snd.
  unfold Mongoose.preSave in *.
  destruct (Frame.derive_samePayload (now (wl_env req)) doc)
    as (P1 & _ & _ & _ & P5 & P6 & _ & _ & _ & _ & _ & P12 & P13 & _ & _ & _
        & _ & _ & _ & P20 & P21).
  rewrite <- P5, <- P6, <- P12, <- P13, <- P20, <- P21, <- P1.
  do 8 (split; [solve [auto | congruence]|]).
  split.
  - now apply PaymentState.saved_statusIff.
  - unfold WalkInController.getWalkInInvoiceById, InvoiceModel.findOne.
    unfold set_invoices. cbn [invoices].
    rewrite (Frame.find_snoc_fresh _ (invoices db)
               (Mongoose.derive (now (wl_env req)) doc)).
    + reflexivity.
    + destruct (existsb
                  (WalkInController.walkInFilter
                     {| WalkInController.wu_hospital := hospital doc |}
                     (_id doc)) (invoices db)) eqn:Y; [|reflexivity].
      apply existsb_exists in Y. destruct Y as (i & I & Fi).
      unfold WalkInController.walkInFilter in Fi. simpl in Fi.
      apply andb_true_iff in Fi. destruct Fi as (Fi & _).
      apply andb_true_iff in Fi. destruct Fi as (Fi & _).
      assert (T : existsb
                    (fun j => N.eqb (_id j) (_id doc) ||
                              String.eqb (invoiceNumber j) (invoiceNumber doc))
                    (invoices db) = true)
        by (apply existsb_exists; exists i; split; [exact I|now rewrite Fi]).
      congruence.
    + unfold WalkInController.walkInFilter. simpl.
      rewrite <- P1, <- P5, <- P21, Ec, !N.eqb_refl. reflexivity.
Qed.

(** One blood count at 400 for a walk-in customer of hospital 1, paid in
    full: the invoice LAB-2501-0001 of 472 is stored as paid. *)
Lemma walk_in_laboratory_invoice_stored_witness :
  exists saved : Invoice,
    fst (createLaboratoryInvoice
           (Sample2.walkInLab (Some 3%N) [Sample2.bloodTest]) Sample.clinic)
      = Json 201 (WalkInData saved) /\
    invoiceNumber saved = "LAB-2501-0001"%string /\
    totalAmount saved = 472%float /\ paymentStatus saved = paid /\
    Spec.statusIff saved.
Proof.
  eexists. split; [lazy; reflexivity|].
  do 3 (split; [reflexivity|]).
  match goal with
  | |- Spec.statusIff ?s =>
      destruct (walk_in_laboratory_invoice_stored
                  (Sample2.walkInLab (Some 3%N) [Sample2.bloodTest])
                  Sample.clinic s eq_refl)
        as (_ & _ & _ & _ & _ & _ & _ & _ & S & _);
      exact S
  end.
Defined.

End WalkInProps.

Module WalkInFailures.

Import WalkInCreation.

Lemma invalid_item_refused (now : Date) (doc : Invoice) (coll : list Invoice)
    (it : InvoiceItem) :
  In it (items doc) -> Mongoose.validItem it = false ->
  Store.save now true doc coll = inl ValidationError.
Proof.
  intros I F. unfold Store.save.
  assert (V : Mongoose.validate doc = false).
  { unfold Mongoose.validate.
    assert (A : forallb Mongoose.validItem (items doc) = false).
    { destruct (forallb Mongoose.validItem (items doc)) eqn:E; [|reflexivity].
      rewrite forallb_forall in E. rewrite (E it I) in F. discriminate. }
    rewrite A. rewrite !andb_false_r. reflexivity. }
  rewrite V. reflexivity.
Qed.

(** X12: what [createLaboratoryInvoice] refuses.  It never calls [next]:
    it answers 201, or 400, 404 or 500 with a message, and then nothing is
    written.  A user object without [_id] never gets a 201 (createdBy is
    required); nor does a request with a test that has no price, or no
    name or an empty one (the item validators of the schema). *)
Theorem walk_in_laboratory_refusals (req : LaboratoryReq) (db : DB) :
  ((exists saved : Invoice,
      fst (createLaboratoryInvoice req db) = Json 201 (WalkInData saved)) \/
   (exists (st : nat) (msg : string),
      createLaboratoryInvoice req db = (Json st (WalkInFailure msg), db) /\
      (st = 400 \/ st = 404 \/ st = 500))) /\
  (st_id (wl_user req) = None ->
   exists (st : nat) (msg : string),
     createLaboratoryInvoice req db = (Json st (WalkInFailure msg), db)) /\
  (forall (l : list TestInput) (t : TestInput),
     tests (wl_body req) = Some l -> In t l ->
     ti_price t = None \/ JS.truthy_ostr (ti_name t) = false ->
     exists (st : nat) (msg : string),
       createLaboratoryInvoice req db = (Json st (WalkInFailure msg), db)).
Proof.
  split; [|split].
  - destruct (WalkInProps.createLaboratoryInvoice_cases req db)
      as [(st & msg & E & S)|(doc & h & c & _ & _ & _ & _ & _ & _ & _ & _ & _
                              & _ & _ & _ & _ & _ & E)].
    + right. eauto.
    + left. rewrite E. eexists. reflexivity.
  - intros N.
    destruct (WalkInProps.createLaboratoryInvoice_cases req db)
      as [(st & msg & E & S)|(doc & h & c & _ & _ & C & _)]; [eauto|].
    congruence.
  - intros l t L I B.
    unfold createLaboratoryInvoice, creationFailed. rewrite L.
    destruct (customerName (wl_body req)) as [name|];
      [|do 2 eexists; reflexivity].
    destruct l as [|test rest]; [contradiction|].
    destruct (negb (JS.truthy_str name)); [do 2 eexists; reflexivity|].
    destruct (st_hospital (wl_user req)) as [h|];
      [|do 2 eexists; reflexivity].
    destruct (negb (existsb (N.eqb h) (hospitals db)));
      [do 2 eexists; reflexivity|].
    destruct (st_id (wl_user req)) as [creator|];
      [|do 2 eexists; reflexivity].
    match goal with
    | |- context [Store.save ?n true ?d ?c] =>
        rewrite (invalid_item_refused n d c (testItem (gstPercentage d) t))
    end.
    + do 2 eexists; reflexivity.
    + cbn [items]. apply in_map_iff. exists t. split; [reflexivity|exact I].
    + unfold Mongoose.validItem, testItem. cbn.
      destruct B as [B|B]; rewrite B.
      * rewrite !andb_false_r. reflexivity.
      * reflexivity.
Qed.

(** A request of a user without [_id], and a request with a test without
    price, are answered 500 and store nothing. *)
Lemma walk_in_laboratory_refusals_witness :
  (exists (st : nat) (msg : string),
     createLaboratoryInvoice (Sample2.walkInLab None [Sample2.bloodTest])
       Sample.clinic
     = (Json st (WalkInFailure msg), Sample.clinic)) /\
  (exists (st : nat) (msg : string),
     createLaboratoryInvoice
       (Sample2.walkInLab (Some 3%N)
          [Sample2.bloodTest; Sample2.unpricedTest]) Sample.clinic
     = (Json st (WalkInFailure msg), Sample.clinic)).
Proof.
  split.
  - apply (proj1 (proj2 (walk_in_laboratory_refusals
                           (Sample2.walkInLab None [Sample2.bloodTest])
                           Sample.clinic))).
    reflexivity.
  - apply (proj2 (proj2 (walk_in_laboratory_refusals
                           (Sample2.walkInLab (Some 3%N)
                              [Sample2.bloodTest; Sample2.unpricedTest])
                           Sample.clinic))
             [Sample2.bloodTest; Sample2.unpricedTest] Sample2.unpricedTest).
    + reflexivity.
    + simpl. auto.
    + left. reflexivity.
Defined.

(** X13: POST /laboratory/invoice never stores an invoice.  The user that
    [authenticate] attaches has the properties userId, role and
    hospitalId, and the handler reads [req.user.hospital] and
    [req.user._id], which are [undefined]: whatever the token, the body
    and the database, the route answers 403 (a role that is not admin,
    lab_technician or staff), 400 (no customer name or no test) or 404
    "Hospital not found", and writes nothing. *)
Theorem walk_in_laboratory_route_refuses (decoded : Auth.Decoded) (env : Env)
    (body : LaboratoryBody) (db : DB) :
  snd (WalkInRoutes.postLaboratoryInvoice decoded env body db) = db /\
  ((exists msg : string,
      fst (WalkInRoutes.postLaboratoryInvoice decoded env body db)
        = WalkInRoutes.Refused 403 msg /\
      existsb (String.eqb (Auth.d_role decoded))
        ["admin"; "lab_technician"; "staff"] = false) \/
   (existsb (String.eqb (Auth.d_role decoded))
      ["admin"; "lab_technician"; "staff"] = true /\
    (fst (WalkInRoutes.postLaboratoryInvoice decoded env body db)
       = WalkInRoutes.Handled
           (Json 400 (WalkInFailure
              "Customer name and at least one test are required")) \/
     fst (WalkInRoutes.postLaboratoryInvoice decoded env body db)
       = WalkInRoutes.Handled
           (Json 404 (WalkInFailure "Hospital not found"))))).
Proof.
  unfold WalkInRoutes.postLaboratoryInvoice, Auth.authorize, Auth.attach.
  cbn [Auth.get find fst snd String.eqb Ascii.eqb Bool.eqb option_map
       Auth.rolesInclude negb].
  set (r := Auth.d_role decoded).
  assert (R : existsb (String.eqb r) ["admin"; "lab_technician"; "staff"] = true
              -> existsb (String.eqb r)
                   ["admin"; "pharmacist"; "staff"; "lab_technician"] = true).
  { simpl. intros H.
    destruct (String.eqb r "admin"); [reflexivity|].
    destruct (String.eqb r "lab_technician"); [now rewrite !orb_true_r|].
    destruct (String.eqb r "staff"); [now rewrite !orb_true_r|].
    discriminate. }
  destruct (existsb (String.eqb r) ["admin"; "lab_technician"; "staff"]) eqn:A.
  - rewrite (R eq_refl). cbn [negb].
    unfold createLaboratoryInvoice, WalkInRoutes.staffOf.
    cbn [wl_body wl_user wl_env st_hospital st_id Auth.get find fst snd
         String.eqb Ascii.eqb Bool.eqb option_map WalkInRoutes.idOf].
    destruct (customerName body) as [name|]; [|split; [reflexivity|auto]].
    destruct (tests body) as [[|t l]|]; try (split; [reflexivity|auto]).
    destruct (negb (JS.truthy_str name)); split; auto.
  - destruct (negb (existsb (String.eqb r)
                      ["admin"; "pharmacist"; "staff"; "lab_technician"]));
      cbn [negb]; split; try reflexivity; left; eexists; split; reflexivity.
Qed.

End WalkInFailures.

(** ** The invoices generated from appointments, lab tests and
    prescriptions *)

Module Generated.

Import BillingController BillingSources.

Lemma app_eq_self {A : Type} (l : list A) (x : A) : l <> (l ++ [x])%list.
Proof.
  intros E. apply (f_equal (@List.length A)) in E.
  rewrite length_app in E. simpl in E. lia.
Qed.

(** An invoice appended by [createInvoice] is the one of its 201 answer. *)
Lemma createInvoice_appended (r : CreateInvoiceReq) (db : DB) (c : Invoice) :
  invoices (snd (createInvoice r db)) = (invoices db ++ [c])%list ->
  fst (createInvoice r db) = Json 201 (InvoiceCreated c).
Proof.
  intros H.
  destruct (Handlers.createInvoice_cases r db)
    as [(err & _ & E)|(doc & _ & F & E & _)].
  - rewrite E in H. exfalso. exact (app_eq_self _ _ H).
  - rewrite E in H. apply app_inv_head in H. inversion H. subst c. exact F.
Qed.

Lemma createInvoice_grows (r : CreateInvoiceReq) (db : DB) :
  invoices (snd (createInvoice r db)) = invoices db \/
  exists c, invoices (snd (createInvoice r db)) = (invoices db ++ [c])%list.
Proof.
  destruct (Handlers.createInvoice_cases r db)
    as [(err & _ & E)|(doc & _ & _ & E & _)]; eauto.
Qed.

Lemma createInvoice_collections (r : CreateInvoiceReq) (db : DB) :
  patients (snd (createInvoice r db)) = patients db /\
  doctors (snd (createInvoice r db)) = doctors db /\
  hospitals (snd (createInvoice r db)) = hospitals db /\
  appointments (snd (createInvoice r db)) = appointments db.
Proof.
  unfold createInvoice, catchAsync, createInvoiceHandler, missingFields.
  destruct (patientId (cr_body r)) as [pid|]; [|simpl; auto].
  destruct (b_invoiceType (cr_body r)) as [ty|]; [|simpl; auto].
  destruct (b_items (cr_body r)) as [[|item rest]|]; try (simpl; auto; fail).
  destruct (negb (JS.truthy_str ty)); [simpl; auto|].
  destruct (negb (existsb (N.eqb pid) (patients db))); [simpl; auto|].
  match goal with
  | |- context [if ?c then (inr (Next (AppError "Doctor not found" 404)), db)
                else _] => destruct c
  end; [simpl; auto|].
  destruct (negb (existsb (N.eqb (hospitalId (cr_user r))) (hospitals db)));
    [simpl; auto|].
  pose proof (Saving.resolveSettings_invoices (cr_user r) db)
    as (_ & Ep & Ed & Eh & Ea).
  destruct (resolveSettings (cr_user r) db) as [bs db1].
  simpl in Ep, Ed, Eh, Ea.
  match goal with
  | |- context [Store.save ?n true ?d ?c] =>
      destruct (Store.save n true d c) as [err|[saved coll]]
  end; simpl; auto.
Qed.

Lemma find_eqb_some (x : ObjectId) (l : list ObjectId) (y : ObjectId) :
  find (N.eqb x) l = Some y -> y = x /\ In x l.
Proof.
  intros H. apply find_some in H. destruct H as (I & E).
  apply N.eqb_eq in E. subst y. auto.
Qed.

(** The five ways [generateConsultationInvoice] ends. *)
Lemma consultation_shape (req : ConsultationReq) (db : DB) :
  generateConsultationInvoice req db
    = (Next (AppError "Appointment ID is required" 400), db) \/
  generateConsultationInvoice req db
    = (Next (AppError "Appointment not found" 404), db) \/
  (exists existing : Invoice,
     generateConsultationInvoice req db = (alreadyExists existing, db)) \/
  generateConsultationInvoice req db
    = (Next TypeError, snd (resolveSettings (co_user req) db)) \/
  (exists (a : ObjectId) (ap : Appointment) (d : Doctor)
          (r : CreateInvoiceReq) (it : InvoiceItem),
     c_appointmentId (co_body req) = Some a /\
     find (fun x => N.eqb (appointment_id x) a) (appointments db) = Some ap /\
     find (fun x => N.eqb (doctor_id x) (ap_doctor ap)) (doctors db)
       = Some d /\
     In (ap_patient ap) (patients db) /\
     find (Spec.refersTo a) (invoices db) = None /\
     cr_env r = co_env req /\ cr_user r = co_user req /\
     patientId (cr_body r) = Some (ap_patient ap) /\
     doctorId (cr_body r) = Some (ap_doctor ap) /\
     appointmentId (cr_body r) = Some a /\
     prescriptionId (cr_body r) = None /\
     labTestId (cr_body r) = None /\
     b_invoiceType (cr_body r) = Some "consultation"%string /\
     b_items (cr_body r) = Some [it] /\
     quantity it = Some 1%float /\
     unitPrice it
       = Some (standard
                 (consultationFees (fst (resolveSettings (co_user req) db)))) /\
     amount it = unitPrice it /\
     description it
       = Some "Standard Consultation with undefined undefined"%string /\
     generateConsultationInvoice req db
       = (Json 201 Undefined,
          snd (createInvoice r (snd (resolveSettings (co_user req) db))))).
Proof.
  unfold generateConsultationInvoice, catchAsync,
    generateConsultationInvoiceHandler, InvoiceModel.findOne.
  destruct (c_appointmentId (co_body req)) as [a|]; [|auto].
  destruct (find (fun x => N.eqb (appointment_id x) a) (appointments db))
    as [ap|] eqn:Fa; [|auto].
  change (fun i : Invoice =>
            match appointment i with
            | Some a0 => N.eqb a0 a
            | None => false
            end) with (Spec.refersTo a).
  destruct (find (Spec.refersTo a) (invoices db)) as [e|] eqn:Fi;
    [right; right; left; eauto|].
  destruct (resolveSettings (co_user req) db) as [bs db1] eqn:R.
  cbn [fst snd].
  destruct (find (fun d => N.eqb (doctor_id d) (ap_doctor ap)) (doctors db))
    as [d|] eqn:Fd; [|auto].
  destruct (find (N.eqb (ap_patient ap)) (patients db)) as [pt|] eqn:Fp;
    [|auto].
  apply find_eqb_some in Fp. destruct Fp as (Ep & Ip). subst pt.
  pose proof (find_some _ _ Fd) as (_ & Ed). apply N.eqb_eq in Ed.
  do 4 right.
  match goal with
  | |- context [createInvoice ?r db1] =>
      match r with
      | context [Some [?i]] => exists a, ap, d, r, i
      end;
      destruct (createInvoice r db1) as [resp db2] eqn:C
  end.
  cbn [cr_env cr_user cr_body patientId doctorId appointmentId prescriptionId
       labTestId b_invoiceType b_items quantity unitPrice amount description
       snd].
  rewrite Ed.
  repeat (split; [reflexivity || assumption|]). reflexivity.
Qed.

Lemma consultation_collections (req : ConsultationReq) (db : DB) :
  patients (snd (generateConsultationInvoice req db)) = patients db /\
  doctors (snd (generateConsultationInvoice req db)) = doctors db /\
  hospitals (snd (generateConsultationInvoice req db)) = hospitals db /\
  appointments (snd (generateConsultationInvoice req db)) = appointments db.
Proof.
  pose proof (Saving.resolveSettings_invoices (co_user req) db)
    as (_ & Rp & Rd & Rh & Ra).
  destruct (consultation_shape req db)
    as [E|[E|[(e & E)|[E|(a & ap & d & r & it & _ & _ & _ & _ & _ & _ & _ & _
                          & _ & _ & _ & _ & _ & _ & _ & _ & _ & _ & E)]]]];
    rewrite E; cbn [snd]; auto.
  destruct (createInvoice_collections r
              (snd (resolveSettings (co_user req) db))) as (Cp & Cd & Ch & Ca).
  rewrite Cp, Cd, Ch, Ca. auto.
Qed.

(** X14: the invoice that [generateConsultationInvoice] stores.  When the
    call appends an invoice, the request names an appointment that exists;
    the invoice is a consultation invoice of that appointment, of its
    patient and its doctor, of the hospital of the user and signed by the
    user; it has one item, of quantity 1, whose unit price is the standard
    fee of the settings of the hospital whatever the type of the
    appointment is: the handler reads [appointmentType], [firstName] and
    [lastName], which the schemas of the appointment and of the doctor do
    not have, so that the follow-up, specialist and emergency fees are
    never billed and the description of the item is always
    "Standard Consultation with undefined undefined".  The amount of the
    item is that fee when the fee is not 0; the tax rate of the invoice is
    the one of the settings; and the call is answered 201 without the
    invoice. *)
Theorem consultation_invoice_content
    (req : ConsultationReq) (db : DB) (created : Invoice) :
  invoices (snd (generateConsultationInvoice req db))
    = (invoices db ++ [created])%list ->
  exists (a : ObjectId) (ap : Appointment) (it : InvoiceItem),
    c_appointmentId (co_body req) = Some a /\
    find (fun x => N.eqb (appointment_id x) a) (appointments db) = Some ap /\
    appointment created = Some a /\
    patient created = Some (ap_patient ap) /\
    doctor created = Some (ap_doctor ap) /\
    invoiceType created = "consultation"%string /\
    customerType created = registered /\
    prescription created = None /\ labTest created = None /\
    hospital created = hospitalId (co_user req) /\
    createdBy created = userId (co_user req) /\
    items created = [it] /\
    description it
      = Some "Standard Consultation with undefined undefined"%string /\
    quantity it = Some 1%float /\
    unitPrice it
      = Some (standard
                (consultationFees (fst (resolveSettings (co_user req) db)))) /\
    (JS.truthy
       (standard (consultationFees (fst (resolveSettings (co_user req) db))))
       = true ->
     amount it = unitPrice it) /\
    gstPercentage created
      = bs_gstPercentage (fst (resolveSettings (co_user req) db)) /\
    fst (generateConsultationInvoice req db) = Json 201 Undefined.
Proof.
  intros H.
  pose proof (Saving.resolveSettings_invoices (co_user req) db) as (Ri & _).
  destruct (consultation_shape req db)
    as [E|[E|[(e & E)|[E|(a & ap & d & r & it & Ea & Fa & Fd & Ip & Fi & Ee
                          & Eu & Bp & Bd & Ba & Bpr & Bl & Bt & Bi & Iq & Iu
                          & Im & Ds & E)]]]];
    rewrite E in H; cbn [snd] in H;
    try (exfalso; exact (app_eq_self _ _ H)).
  { rewrite Ri in H. exfalso. exact (app_eq_self _ _ H). }
  rewrite <- Ri in H. apply createInvoice_appended in H.
  apply Frame.createInvoice_fields in H.
  destruct H as (its & B & It & _ & Eg & _ & _ & _ & _ & Ec & Hp & Hd & Ha
                 & Hpr & Hl & Ht & Hc & Hh & _).
  rewrite Eu, Handlers.resolveSettings_again in Eg. cbn [fst] in Eg.
  rewrite Bi in B. inversion B; subst its. clear B.
  rewrite Bt in Ht. inversion Ht as [Ht'].
  exists a, ap, (processItem it).
  rewrite E. cbn [fst]. simpl in It.
  repeat apply conj; try congruence; auto.
  intros T. unfold processItem. cbn [amount unitPrice].
  rewrite Im, Iu. cbn [JS.truthy_opt JS.toNumber]. rewrite T. reflexivity.
Qed.

(** Appointment 5 of the sample clinic is a follow-up and the follow-up fee
    of the defaults is 300: the invoice has one item at the standard fee,
    500. *)
Lemma consultation_invoice_content_witness :
  exists (created : Invoice) (it : InvoiceItem),
    invoices (snd (generateConsultationInvoice Sample.consult1 Sample.clinic))
      = (invoices Sample.clinic ++ [created])%list /\
    items created = [it] /\ unitPrice it = Some 500%float /\
    description it
      = Some "Standard Consultation with undefined undefined"%string /\
    fst (generateConsultationInvoice Sample.consult1 Sample.clinic)
      = Json 201 Undefined.
Proof.
  exists (hd (Sample.walkIn 0%N "none" 0%N)
            (invoices
               (snd (generateConsultationInvoice Sample.consult1
                       Sample.clinic)))).
  destruct (consultation_invoice_content Sample.consult1 Sample.clinic
              (hd (Sample.walkIn 0%N "none" 0%N)
                 (invoices
                    (snd (generateConsultationInvoice Sample.consult1
                            Sample.clinic)))) eq_refl)
    as (a & ap & it & _ & _ & _ & _ & _ & _ & _ & _ & _ & _ & _ & I & D & _
        & U & _ & _ & R).
  exists it. split; [reflexivity|].
  split; [exact I|]. split; [exact U|]. split; [exact D|exact R].
Defined.

(** X15: the answer 201 of [generateConsultationInvoice] does not say that
    an invoice was stored.  For an appointment that exists, with its doctor
    and its patient, and has no invoice, the call is answered 201 with no
    body whatever [createInvoice] does with the data; when the hospital of
    the user does not exist, [createInvoice] refuses, no invoice is stored,
    a second call is answered 201 again, and yet a settings record of that
    hospital is in the database after the call. *)
Theorem consultation_answered_not_stored
    (req : ConsultationReq) (db : DB) (a : ObjectId) (ap : Appointment)
    (d : Doctor) :
  c_appointmentId (co_body req) = Some a ->
  find (fun x => N.eqb (appointment_id x) a) (appointments db) = Some ap ->
  find (fun x => N.eqb (doctor_id x) (ap_doctor ap)) (doctors db) = Some d ->
  In (ap_patient ap) (patients db) ->
  find (Spec.refersTo a) (invoices db) = None ->
  fst (generateConsultationInvoice req db) = Json 201 Undefined /\
  (existsb (N.eqb (hospitalId (co_user req))) (hospitals db) = false ->
   invoices (snd (generateConsultationInvoice req db)) = invoices db /\
   fst (generateConsultationInvoice req
          (snd (generateConsultationInvoice req db))) = Json 201 Undefined /\
   exists s : BillingSettings,
     In s (settings (snd (generateConsultationInvoice req db))) /\
     bs_hospital s = hospitalId (co_user req)).
Proof.
  intros Ea Fa Fd Ip Fi.
  assert (A : forall db0,
            appointments db0 = appointments db -> doctors db0 = doctors db ->
            patients db0 = patients db -> invoices db0 = invoices db ->
            exists r,
              cr_user r = co_user req /\
              generateConsultationInvoice req db0
                = (Json 201 Undefined,
                   snd (createInvoice r
                          (snd (resolveSettings (co_user req) db0))))).
  { intros db0 Xa Xd Xp Xi.
    destruct (consultation_shape req db0)
      as [E|[E|[(e & E)|[E|(a' & ap' & d' & r & it & _ & _ & _ & _ & _ & _
                            & Eu & _ & _ & _ & _ & _ & _ & _ & _ & _ & _
                            & _ & E)]]]];
      try (exists r; split; [exact Eu|exact E]); exfalso;
      revert E;
      unfold generateConsultationInvoice, catchAsync,
        generateConsultationInvoiceHandler, InvoiceModel.findOne;
      rewrite Ea, Xa, Fa, Xd, Fd, Xp, Xi;
      change (fun i : Invoice =>
                match appointment i with
                | Some a0 => N.eqb a0 a
                | None => false
                end) with (Spec.refersTo a);
      rewrite Fi;
      destruct (resolveSettings (co_user req) db0) as [bs db1];
      destruct (find (N.eqb (ap_patient ap)) (patients db)) as [pt|] eqn:Fp;
      try (apply (find_none _ _ Fp) in Ip; rewrite N.eqb_refl in Ip;
           discriminate);
      match goal with
      | |- context [createInvoice ?r db1] =>
          destruct (createInvoice r db1) as [resp db2]
      end; discriminate. }
  destruct (A db eq_refl eq_refl eq_refl eq_refl) as (r & Eu & E).
  split; [now rewrite E|].
  intros Hh.
  pose proof (Saving.resolveSettings_invoices (co_user req) db)
    as (Ri & _ & _ & Rh & _).
  assert (K : invoices (snd (generateConsultationInvoice req db))
              = invoices db).
  { rewrite E. cbn [snd].
    destruct (Handlers.createInvoice_cases r
                (snd (resolveSettings (co_user req) db)))
      as [(err & _ & C)|(doc & _ & F & _)]; [now rewrite C, Ri|].
    apply Frame.createInvoice_fields in F.
    destruct F as (_ & _ & _ & _ & _ & _ & _ & _ & _ & _ & _ & _ & _ & _ & _
                   & _ & _ & _ & X & _).
    rewrite Eu, Rh in X. congruence. }
  split; [exact K|]. split.
  - destruct (consultation_collections req db) as (Cp & Cd & _ & Ca).
    destruct (A (snd (generateConsultationInvoice req db)) Ca Cd Cp K)
      as (r2 & _ & E2).
    now rewrite E2.
  - rewrite E. cbn [snd].
    exists (fst (resolveSettings (co_user req) db)).
    assert (S1 : In (fst (resolveSettings (co_user req) db))
                   (settings (snd (resolveSettings (co_user req) db))) /\
                 bs_hospital (fst (resolveSettings (co_user req) db))
                   = hospitalId (co_user req)).
    { destruct (SettingsProps.resolveSettings_cases (co_user req) db)
        as [(t & F & R)|(F & R)]; rewrite R; cbn [fst snd].
      - apply find_some in F. destruct F as (I & Et).
        apply N.eqb_eq in Et. auto.
      - split; [|reflexivity]. simpl. apply in_or_app. right. simpl. auto. }
    destruct S1 as (S1 & S2). split; [|exact S2].
    destruct (SettingsProps.createInvoice_settings r
                (snd (resolveSettings (co_user req) db))) as [Es|Es];
      rewrite Es; [exact S1|].
    rewrite Eu, Handlers.resolveSettings_again. exact S1.
Qed.

(** Appointment 5 of the sample clinic, asked for by a user of hospital 2,
    which does not exist: answered 201, nothing stored. *)
Lemma consultation_answered_not_stored_witness :
  fst (generateConsultationInvoice Sample2.consultOther Sample.clinic)
    = Json 201 Undefined /\
  invoices (snd (generateConsultationInvoice Sample2.consultOther
                   Sample.clinic)) = [].
Proof.
  destruct (consultation_answered_not_stored Sample2.consultOther
              Sample.clinic 5%N _ _ eq_refl eq_refl eq_refl
              (or_introl eq_refl) eq_refl) as (A & B).
  split; [exact A|]. exact (proj1 (B eq_refl)).
Defined.

End Generated.

Module LabInvoices.

Import BillingController BillingSources.

(** The four ways [generateLabInvoice] ends. *)
Lemma lab_shape (req : LabReq) (c : Clinical) :
  generateLabInvoice req c
    = (Next (AppError "Lab test IDs and patient ID are required" 400), c) \/
  generateLabInvoice req c = (Next (AppError "Patient not found" 404), c) \/
  generateLabInvoice req c = (Next (AppError "No lab tests found" 404), c) \/
  (exists (ids : list ObjectId) (pid : ObjectId) (r : CreateInvoiceReq),
     l_labTestIds (lab_body req) = Some ids /\
     l_patientId (lab_body req) = Some pid /\
     existsb (N.eqb pid) (patients (core c)) = true /\
     filter (fun t => existsb (N.eqb (labTest_id t)) ids) (labTests c) <> [] /\
     cr_env r = lab_env req /\ cr_user r = lab_user req /\
     patientId (cr_body r) = Some pid /\
     doctorId (cr_body r) = None /\
     appointmentId (cr_body r) = None /\
     prescriptionId (cr_body r) = None /\
     labTestId (cr_body r) = None /\
     b_invoiceType (cr_body r) = Some "laboratory"%string /\
     b_items (cr_body r)
       = Some (map (labItem (bs_gstPercentage
                               (fst (resolveSettings (lab_user req) (core c)))))
                 (filter (fun t => existsb (N.eqb (labTest_id t)) ids)
                    (labTests c))) /\
     generateLabInvoice req c
       = (Json 201 Undefined,
          set_core
            (snd (createInvoice r
                    (snd (resolveSettings (lab_user req) (core c))))) c)).
Proof.
  unfold generateLabInvoice, catchAsyncC, generateLabInvoiceHandler.
  destruct (l_labTestIds (lab_body req)) as [[|id ids]|]; try (left; reflexivity);
    destruct (l_patientId (lab_body req)) as [pid|]; try (left; reflexivity).
  destruct (existsb (N.eqb pid) (patients (core c))) eqn:Hp; cbn [negb];
    [|right; left; reflexivity].
  destruct (filter (fun t => existsb (N.eqb (labTest_id t)) (id :: ids))
              (labTests c)) as [|t ts] eqn:Ft;
    [right; right; left; reflexivity|].
  destruct (resolveSettings (lab_user req) (core c)) as [bs db1] eqn:R.
  cbn [fst snd].
  do 3 right.
  match goal with
  | |- context [createInvoice ?r db1] =>
      exists (id :: ids), pid, r;
      destruct (createInvoice r db1) as [resp db2] eqn:C
  end.
  cbn [cr_env cr_user cr_body patientId doctorId appointmentId prescriptionId
       labTestId b_invoiceType b_items snd].
  rewrite Ft.
  repeat (split; [reflexivity || assumption || discriminate|]). reflexivity.
Qed.

Lemma set_core_invoices (db : DB) (c : Clinical) :
  core (set_core db c) = db /\ labTests (set_core db c) = labTests c /\
  prescriptions (set_core db c) = prescriptions c /\
  medications (set_core db c) = medications c.
Proof. unfold set_core. simpl. auto. Qed.

Lemma validated_items (doc : Invoice) (it : InvoiceItem) :
  Mongoose.validate doc = true -> In it (items doc) ->
  Mongoose.validItem it = true.
Proof.
  unfold Mongoose.validate. intros V I.
  repeat (apply andb_true_iff in V; destruct V as (V & ?)).
  match goal with
  | H : forallb Mongoose.validItem (items doc) = true |- _ =>
      rewrite forallb_forall in H; now apply H
  end.
Qed.

Lemma validItem_described (it : InvoiceItem) :
  Mongoose.validItem it = true -> JS.truthy_ostr (description it) = true.
Proof.
  unfold Mongoose.validItem. intros V.
  repeat (apply andb_true_iff in V; destruct V as (V & ?)). exact V.
Qed.

(** The tests billed on a stored laboratory invoice would have a name. *)
Lemma lab_created_named (req : LabReq) (c : Clinical) (created : Invoice)
    (ids : list ObjectId) (t : LabTest) :
  invoices (core (snd (generateLabInvoice req c)))
    = (invoices (core c) ++ [created])%list ->
  l_labTestIds (lab_body req) = Some ids ->
  In t (labTests c) -> In (labTest_id t) ids ->
  JS.truthy_ostr (lt_name t) = true.
Proof.
  intros H Ei It Iid.
  pose proof (Saving.resolveSettings_invoices (lab_user req) (core c))
    as (Ri & _).
  destruct (lab_shape req c)
    as [E|[E|[E|(ids' & pid & r & Ei' & _ & _ & _ & _ & _ & _ & _ & _
                 & _ & _ & _ & Bi & E)]]];
    rewrite E in H; cbn [snd fst] in H;
    try (exfalso; exact (Generated.app_eq_self _ _ H)).
  unfold set_core in H. cbn [core] in H.
  rewrite <- Ri in H.
  pose proof (Generated.createInvoice_appended _ _ _ H) as F.
  pose proof (Frame.createInvoice_fields _ _ _ F) as (its & B & Its & _).
  rewrite Bi in B. inversion B; subst its. clear B.
  rewrite Ei in Ei'. inversion Ei'; subst ids'.
  destruct (Handlers.createInvoice_cases r
              (snd (resolveSettings (lab_user req) (core c))))
    as [(err & Er & _)|(doc & Vd & Fd & _)];
    rewrite F in *; [discriminate|].
  inversion Fd; subst created.
  unfold Mongoose.preSave in Its.
  destruct (Saving.derive_fields (now (cr_env r)) doc)
    as (_ & _ & _ & _ & _ & Fi & _).
  rewrite Fi in Its.
  assert (I : In (processItem
                    (labItem (bs_gstPercentage
                                (fst (resolveSettings (lab_user req)
                                        (core c)))) t)) (items doc)).
  { rewrite Its. apply in_map, in_map. apply filter_In.
    split; [exact It|]. apply existsb_exists. exists (labTest_id t).
    split; [exact Iid|apply N.eqb_refl]. }
  apply (validated_items doc _ Vd) in I.
  apply validItem_described in I. exact I.
Qed.

Lemma lab_collections (req : LabReq) (c : Clinical) :
  patients (core (snd (generateLabInvoice req c))) = patients (core c) /\
  labTests (snd (generateLabInvoice req c)) = labTests c.
Proof.
  pose proof (Saving.resolveSettings_invoices (lab_user req) (core c))
    as (_ & Rp & _).
  destruct (lab_shape req c)
    as [E|[E|[E|(ids & pid & r & _ & _ & _ & _ & _ & _ & _ & _ & _ & _
                 & _ & _ & _ & E)]]];
    rewrite E; cbn [snd]; auto.
  unfold set_core. cbn [core labTests].
  destruct (Generated.createInvoice_collections r
              (snd (resolveSettings (lab_user req) (core c)))) as (Cp & _).
  now rewrite Cp, Rp.
Qed.

(** No call of [generateLabInvoice] adds an invoice. *)
Lemma lab_stores_nothing (req : LabReq) (c : Clinical) :
  invoices (core (snd (generateLabInvoice req c))) = invoices (core c).
Proof.
  pose proof (Saving.resolveSettings_invoices (lab_user req) (core c))
    as (Ri & _).
  destruct (lab_shape req c)
    as [E|[E|[E|(ids & pid & r & Ei & _ & _ & Nf & _ & _ & _ & _ & _ & _
                 & _ & _ & _ & E)]]];
    try (rewrite E; reflexivity).
  destruct (Generated.createInvoice_grows r
              (snd (resolveSettings (lab_user req) (core c))))
    as [K|(x & K)].
  - rewrite E. cbn [snd]. unfold set_core. cbn [core]. now rewrite K, Ri.
  - exfalso.
    assert (G : invoices (core (snd (generateLabInvoice req c)))
                = (invoices (core c) ++ [x])%list)
      by (rewrite E; cbn [snd]; unfold set_core; cbn [core];
          now rewrite K, Ri).
    destruct (filter (fun t => existsb (N.eqb (labTest_id t)) ids)
                (labTests c)) as [|t ts] eqn:Ft; [now apply Nf|].
    assert (I : In t (filter (fun t => existsb (N.eqb (labTest_id t)) ids)
                        (labTests c))) by (rewrite Ft; now left).
    apply filter_In in I. destruct I as (It & Iid).
    apply existsb_exists in Iid. destruct Iid as (i & Ii & Ex).
    apply N.eqb_eq in Ex. subst i.
    pose proof (lab_created_named req c x ids t G Ei It Ii) as Named.
    discriminate Named.
Qed.

(** X16: [generateLabInvoice] never stores an invoice.  The item of a lab
    test takes its description from [test.name], a path that the schema of
    the lab tests does not have; the description of an item is required, so
    that the invoice of the tests that were found fails validation, and the
    refusal is lost with the answer of [createInvoice].  Whatever the
    request, the invoices and the lab tests after the call are those
    before it, and the call is answered with the 400 of the missing
    parameters, the 404 of the patient, the 404 of the tests, or 201
    without a body. *)
Theorem lab_invoice_never_stored (req : LabReq) (c : Clinical) :
  invoices (core (snd (generateLabInvoice req c))) = invoices (core c) /\
  labTests (snd (generateLabInvoice req c)) = labTests c /\
  (fst (generateLabInvoice req c)
     = Next (AppError "Lab test IDs and patient ID are required" 400) \/
   fst (generateLabInvoice req c) = Next (AppError "Patient not found" 404) \/
   fst (generateLabInvoice req c) = Next (AppError "No lab tests found" 404) \/
   fst (generateLabInvoice req c) = Json 201 Undefined).
Proof.
  split; [apply lab_stores_nothing|].
  split; [apply lab_collections|].
  destruct (lab_shape req c)
    as [E|[E|[E|(ids & pid & r & _ & _ & _ & _ & _ & _ & _ & _ & _ & _
                 & _ & _ & _ & E)]]];
    rewrite E; cbn [fst]; auto.
Qed.

(** X17: a lab test is never billed by [generateLabInvoice], and the call
    does not show it.  No stored lab test has a name (the schema has no
    such path) and the item description is required: when the request
    names a registered patient and one of the requested tests is stored,
    the call is answered 201 with no body and no invoice is stored. *)
Theorem lab_test_without_name (req : LabReq) (c : Clinical)
    (ids : list ObjectId) (pid : ObjectId) (t : LabTest) :
  l_labTestIds (lab_body req) = Some ids ->
  l_patientId (lab_body req) = Some pid ->
  In pid (patients (core c)) ->
  In t (labTests c) -> In (labTest_id t) ids ->
  JS.truthy_ostr (lt_name t) = false /\
  fst (generateLabInvoice req c) = Json 201 Undefined /\
  invoices (core (snd (generateLabInvoice req c))) = invoices (core c).
Proof.
  intros Ei Ep Ip It Iid.
  split; [reflexivity|].
  split; [|apply lab_stores_nothing].
  assert (M : In t (filter (fun t => existsb (N.eqb (labTest_id t)) ids)
                      (labTests c))).
  { apply filter_In. split; [exact It|]. apply existsb_exists.
    exists (labTest_id t). split; [exact Iid|apply N.eqb_refl]. }
  assert (Hp : existsb (N.eqb pid) (patients (core c)) = true)
    by (apply existsb_exists; exists pid; split; [exact Ip|apply N.eqb_refl]).
  destruct (lab_shape req c)
    as [E|[E|[E|(ids' & pid' & r & Ei' & Ep' & _ & _ & _ & _ & _ & _ & _ & _
                 & _ & _ & _ & E)]]].
  1-3: exfalso; revert E;
    unfold generateLabInvoice, catchAsyncC, generateLabInvoiceHandler;
    rewrite Ei, Ep; (destruct ids as [|i l]; [contradiction|]); rewrite Hp;
    cbn [negb];
    (destruct (filter (fun t0 => existsb (N.eqb (labTest_id t0)) (i :: l))
                 (labTests c)); [contradiction|]);
    destruct (resolveSettings (lab_user req) (core c));
    match goal with
    | |- context [createInvoice ?r ?d] => destruct (createInvoice r d)
    end; discriminate.
  now rewrite E.
Qed.

(** Tests 21 and 22 of the sample ward are ordered for patient 7, both
    stored with a test type and a price: 201, and no invoice. *)
Lemma lab_test_without_name_witness :
  fst (generateLabInvoice (Sample2.labOrder 100%N [21%N; 22%N]) Sample2.ward)
    = Json 201 Undefined /\
  invoices (core (snd (generateLabInvoice
                         (Sample2.labOrder 100%N [21%N; 22%N]) Sample2.ward)))
    = [].
Proof.
  exact (proj2
           (lab_test_without_name (Sample2.labOrder 100%N [21%N; 22%N])
              Sample2.ward [21%N; 22%N] 7%N Sample2.lipidTest
              eq_refl eq_refl (or_introl eq_refl)
              (or_intror (or_introl eq_refl))
              (or_intror (or_introl eq_refl)))).
Defined.

(** X18: [generateLabInvoice] does not look for an earlier invoice, and has
    none to find.  No answer of the handler is the 400 of an invoice that
    already exists; a request that was answered 201 is answered 201 again
    when it is repeated, by any user and at any time; and after the two
    calls the stored invoices are those before the first. *)
Theorem lab_invoice_repeats (req1 req2 : LabReq) (c : Clinical) :
  (forall (m : string) (id : ObjectId),
     fst (generateLabInvoice req1 c) <> Json 400 (AlreadyExists m id)) /\
  (lab_body req2 = lab_body req1 ->
   fst (generateLabInvoice req1 c) = Json 201 Undefined ->
   fst (generateLabInvoice req2 (snd (generateLabInvoice req1 c)))
     = Json 201 Undefined) /\
  invoices
    (core (snd (generateLabInvoice req2 (snd (generateLabInvoice req1 c)))))
    = invoices (core c).
Proof.
  split; [|split].
  - intros m id.
    destruct (lab_shape req1 c)
      as [E|[E|[E|(ids & pid & r & _ & _ & _ & _ & _ & _ & _ & _ & _ & _
                   & _ & _ & _ & E)]]];
      rewrite E; discriminate.
  - intros B H.
    destruct (lab_collections req1 c) as (Cp & Ct).
    destruct (lab_shape req1 c)
      as [E|[E|[E|(ids & pid & r & Ei & Ep & Hp & Nf & _)]]];
      try (rewrite E in H; discriminate).
    destruct (lab_shape req2 (snd (generateLabInvoice req1 c)))
      as [E|[E|[E|(ids' & pid' & r' & _ & _ & _ & _ & _ & _ & _ & _ & _ & _
                   & _ & _ & _ & E)]]];
      [| | |now rewrite E].
    1-3: exfalso; revert E;
      unfold generateLabInvoice at 1, catchAsyncC, generateLabInvoiceHandler;
      rewrite B, Ei, Ep, Cp, Ct, Hp;
      (destruct ids as [|i l];
       [exfalso; apply Nf; clear; induction (labTests c); auto|]);
      cbn [negb];
      (destruct (filter (fun t0 => existsb (N.eqb (labTest_id t0)) (i :: l))
                   (labTests c)); [contradiction|]);
      match goal with
      | |- context [resolveSettings ?u ?d] => destruct (resolveSettings u d)
      end;
      match goal with
      | |- context [createInvoice ?r ?d] => destruct (createInvoice r d)
      end; discriminate.
  - now rewrite !lab_stores_nothing.
Qed.

(** Test 21 is ordered twice in the sample ward: 201 both times, and no
    invoice. *)
Lemma lab_invoice_repeats_witness :
  fst (generateLabInvoice (Sample2.labOrder 100%N [21%N]) Sample2.ward)
    = Json 201 Undefined /\
  fst (generateLabInvoice (Sample2.labOrder 101%N [21%N])
         (snd (generateLabInvoice (Sample2.labOrder 100%N [21%N])
                 Sample2.ward)))
    = Json 201 Undefined /\
  invoices
    (core (snd (generateLabInvoice (Sample2.labOrder 101%N [21%N])
                  (snd (generateLabInvoice (Sample2.labOrder 100%N [21%N])
                          Sample2.ward))))) = [].
Proof.
  destruct (lab_invoice_repeats (Sample2.labOrder 100%N [21%N])
              (Sample2.labOrder 101%N [21%N]) Sample2.ward)
    as (_ & Again & Kept).
  split; [reflexivity|]. split; [exact (Again eq_refl eq_refl)|exact Kept].
Defined.

End LabInvoices.

Module PharmacyInvoices.

Import BillingController BillingSources.

(** The items of a prescription: one for each prescribed medication, in
    order, each medication being stored. *)
Lemma pharmacyItems_some (g : JS.Number) (meds : list Medication)
    (l : list PrescribedMedication) (its : list InvoiceItem) :
  pharmacyItems g meds l = Some its ->
  map quantity its = map pm_quantity l /\
  (forall med, In med l ->
     exists m, In m meds /\ medication_id m = pm_medication med).
Proof.
  revert its. induction l as [|med r IH]; simpl; intros its H.
  - inversion H. split; [reflexivity|]. intros med [].
  - destruct (find (fun m => N.eqb (medication_id m) (pm_medication med)) meds)
      as [m|] eqn:F; [|discriminate].
    destruct (pharmacyItems g meds r) as [items|]; [|discriminate].
    inversion H; subst its. destruct (IH items eq_refl) as (Q & A).
    split; [simpl; now rewrite Q|].
    intros med' [E|I]; [subst med'|now apply A].
    apply find_some in F. destruct F as (I & E). apply N.eqb_eq in E. eauto.
Qed.

Lemma pharmacyItems_none (g : JS.Number) (meds : list Medication)
    (l : list PrescribedMedication) (med : PrescribedMedication) :
  In med l ->
  (forall m, In m meds -> medication_id m <> pm_medication med) ->
  pharmacyItems g meds l = None.
Proof.
  intros I N. induction l as [|x r IH]; [contradiction|]. simpl.
  destruct I as [E|I].
  - subst x.
    destruct (find (fun m => N.eqb (medication_id m) (pm_medication med)) meds)
      as [m|] eqn:F; [|reflexivity].
    apply find_some in F. destruct F as (Im & E). apply N.eqb_eq in E.
    exfalso. exact (N m Im E).
  - rewrite (IH I).
    destruct (find (fun m => N.eqb (medication_id m) (pm_medication x)) meds);
      reflexivity.
Qed.

(** The five ways [generatePharmacyInvoice] ends. *)
Lemma pharmacy_shape (req : PharmacyReq) (c : Clinical) :
  generatePharmacyInvoice req c
    = (Next (AppError "Prescription ID is required" 400), c) \/
  generatePharmacyInvoice req c
    = (Next (AppError "Prescription not found" 404), c) \/
  (exists (p : ObjectId) (existing : Invoice),
     ph_prescriptionId (ph_body req) = Some p /\
     find (Further.dispenses p) (invoices (core c)) = Some existing /\
     generatePharmacyInvoice req c = (prescriptionInvoiced existing, c)) \/
  (generatePharmacyInvoice req c
     = (Next TypeError,
        set_core (snd (resolveSettings (ph_user req) (core c))) c)) \/
  (exists (p : ObjectId) (pd : Prescription) (r : CreateInvoiceReq)
          (its : list InvoiceItem),
     ph_prescriptionId (ph_body req) = Some p /\
     find (fun x => N.eqb (prescription_id x) p) (prescriptions c) = Some pd /\
     find (Further.dispenses p) (invoices (core c)) = None /\
     pharmacyItems
       (bs_gstPercentage (fst (resolveSettings (ph_user req) (core c))))
       (medications c) (pr_medications pd) = Some its /\
     cr_env r = ph_env req /\ cr_user r = ph_user req /\
     patientId (cr_body r) = Some (pr_patient pd) /\
     doctorId (cr_body r) = Some (pr_doctor pd) /\
     appointmentId (cr_body r) = None /\
     prescriptionId (cr_body r) = Some p /\
     labTestId (cr_body r) = None /\
     b_invoiceType (cr_body r) = Some "pharmacy"%string /\
     b_items (cr_body r) = Some its /\
     generatePharmacyInvoice req c
       = (Json 201 Undefined,
          set_core
            (snd (createInvoice r
                    (snd (resolveSettings (ph_user req) (core c))))) c)).
Proof.
  unfold generatePharmacyInvoice, catchAsyncC, generatePharmacyInvoiceHandler,
    InvoiceModel.findOne.
  destruct (ph_prescriptionId (ph_body req)) as [p|]; [|auto].
  destruct (find (fun x => N.eqb (prescription_id x) p) (prescriptions c))
    as [pd|] eqn:Fp; [|auto].
  change (fun i : Invoice =>
            match prescription i with
            | Some p0 => N.eqb p0 p
            | None => false
            end) with (Further.dispenses p).
  destruct (find (Further.dispenses p) (invoices (core c))) as [e|] eqn:Fi;
    [right; right; left; eauto|].
  destruct (resolveSettings (ph_user req) (core c)) as [bs db1] eqn:R.
  cbn [fst snd].
  destruct (pharmacyItems (bs_gstPercentage bs) (medications c)
              (pr_medications pd)) as [its|] eqn:Pi; [|auto].
  destruct (find (N.eqb (pr_patient pd)) (patients (core c))) as [pt|] eqn:Fpt;
    [|auto].
  destruct (find (fun d => N.eqb (doctor_id d) (pr_doctor pd))
              (doctors (core c))) as [d|] eqn:Fd; [|auto].
  apply Generated.find_eqb_some in Fpt. destruct Fpt as (Ept & Ipt). subst pt.
  pose proof (find_some _ _ Fd) as (_ & Ed). apply N.eqb_eq in Ed.
  do 4 right.
  match goal with
  | |- context [createInvoice ?r db1] =>
      exists p, pd, r, its;
      destruct (createInvoice r db1) as [resp db2] eqn:C
  end.
  cbn [cr_env cr_user cr_body patientId doctorId appointmentId prescriptionId
       labTestId b_invoiceType b_items snd].
  rewrite Ed.
  repeat (split; [reflexivity || assumption|]). reflexivity.
Qed.

Lemma pharmacy_collections (req : PharmacyReq) (c : Clinical) :
  prescriptions (snd (generatePharmacyInvoice req c)) = prescriptions c /\
  medications (snd (generatePharmacyInvoice req c)) = medications c.
Proof.
  destruct (pharmacy_shape req c)
    as [E|[E|[(p & e & _ & _ & E)|[E|(p & pd & r & its & _ & _ & _ & _ & _ & _
                                      & _ & _ & _ & _ & _ & _ & _ & E)]]]];
    rewrite E; cbn [snd]; auto.
Qed.

(** X19: a prescription is billed once.  When a call of
    [generatePharmacyInvoice] for a prescription that has no invoice stores
    one, the invoice carries the prescription, and a second call for the
    prescription, by any user, writes nothing and answers 400 with the
    [_id] of that invoice. *)
Theorem pharmacy_invoice_once
    (req1 req2 : PharmacyReq) (c : Clinical) (p : ObjectId)
    (created : Invoice) :
  ph_prescriptionId (ph_body req1) = Some p ->
  ph_prescriptionId (ph_body req2) = Some p ->
  invoices (core (snd (generatePharmacyInvoice req1 c)))
    = (invoices (core c) ++ [created])%list ->
  fst (generatePharmacyInvoice req1 c) = Json 201 Undefined /\
  prescription created = Some p /\
  find (Further.dispenses p) (invoices (core c)) = None /\
  generatePharmacyInvoice req2 (snd (generatePharmacyInvoice req1 c))
    = (Json 400
         (AlreadyExists "Invoice already exists for this prescription"
            (_id created)),
       snd (generatePharmacyInvoice req1 c)).
Proof.
  intros E1 E2 H.
  pose proof (Saving.resolveSettings_invoices (ph_user req1) (core c))
    as (Ri & _).
  destruct (pharmacy_collections req1 c) as (Cp & _).
  destruct (pharmacy_shape req1 c)
    as [E|[E|[(p' & e & _ & _ & E)
             |[E|(p' & pd & r & its & Ep & Fp & Fi & _ & _ & _ & _ & _ & _
                  & Bp & _ & _ & _ & E)]]]];
    try (rewrite E in H; cbn [snd] in H; unfold set_core in H;
         cbn [core] in H; try rewrite Ri in H;
         exfalso; exact (Generated.app_eq_self _ _ H)).
  rewrite E1 in Ep. inversion Ep; subst p'. clear Ep.
  assert (Pc : prescription created = Some p).
  { rewrite E in H. cbn [snd] in H. unfold set_core in H. cbn [core] in H.
    rewrite <- Ri in H.
    apply Generated.createInvoice_appended in H.
    apply Frame.createInvoice_fields in H.
    destruct H as (x & _ & _ & _ & _ & _ & _ & _ & _ & _ & _ & _ & _ & Hpr & _).
    congruence. }
  split; [now rewrite E|]. split; [exact Pc|]. split; [exact Fi|].
  unfold generatePharmacyInvoice at 1, catchAsyncC,
    generatePharmacyInvoiceHandler, InvoiceModel.findOne.
  rewrite E2, Cp, Fp.
  change (fun i : Invoice =>
            match prescription i with
            | Some p0 => N.eqb p0 p
            | None => false
            end) with (Further.dispenses p).
  rewrite H.
  rewrite (Frame.find_snoc_fresh (Further.dispenses p) (invoices (core c))
             created).
  - reflexivity.
  - now apply Frame.find_none_existsb.
  - unfold Further.dispenses. rewrite Pc. apply N.eqb_refl.
Qed.

(** Prescription 41 of the ward is billed, then asked for again. *)
Lemma pharmacy_invoice_once_witness :
  exists created : Invoice,
    invoices (core (snd (generatePharmacyInvoice (Sample2.dispense 100%N 41%N)
                           Sample2.ward))) = [created] /\
    generatePharmacyInvoice (Sample2.dispense 101%N 41%N)
      (snd (generatePharmacyInvoice (Sample2.dispense 100%N 41%N)
              Sample2.ward))
    = (Json 400
         (AlreadyExists "Invoice already exists for this prescription" 100%N),
       snd (generatePharmacyInvoice (Sample2.dispense 100%N 41%N)
              Sample2.ward)).
Proof.
  exists (hd (Sample.walkIn 0%N "none" 0%N)
            (invoices
               (core (snd (generatePharmacyInvoice
                             (Sample2.dispense 100%N 41%N) Sample2.ward))))).
  split; [reflexivity|].
  exact (proj2 (proj2 (proj2
           (pharmacy_invoice_once (Sample2.dispense 100%N 41%N)
              (Sample2.dispense 101%N 41%N) Sample2.ward 41%N
              (hd (Sample.walkIn 0%N "none" 0%N)
                 (invoices
                    (core (snd (generatePharmacyInvoice
                                  (Sample2.dispense 100%N 41%N)
                                  Sample2.ward)))))
              eq_refl eq_refl eq_refl)))).
Defined.

(** X20: the invoice that [generatePharmacyInvoice] stores.  When the call
    appends an invoice, it is a pharmacy invoice of the prescription of the
    request, of its patient and its doctor and of the hospital of the user;
    it has one item for each prescribed medication, in order, with the
    prescribed quantity; every prescribed medication is a stored
    medication; and the answer is 201 without the invoice. *)
Theorem pharmacy_invoice_content
    (req : PharmacyReq) (c : Clinical) (created : Invoice) :
  invoices (core (snd (generatePharmacyInvoice req c)))
    = (invoices (core c) ++ [created])%list ->
  exists (p : ObjectId) (pd : Prescription),
    ph_prescriptionId (ph_body req) = Some p /\
    find (fun x => N.eqb (prescription_id x) p) (prescriptions c) = Some pd /\
    prescription created = Some p /\
    patient created = Some (pr_patient pd) /\
    doctor created = Some (pr_doctor pd) /\
    invoiceType created = "pharmacy"%string /\
    appointment created = None /\ labTest created = None /\
    hospital created = hospitalId (ph_user req) /\
    map quantity (items created) = map pm_quantity (pr_medications pd) /\
    (forall med, In med (pr_medications pd) ->
       exists m, In m (medications c) /\
                 medication_id m = pm_medication med) /\
    fst (generatePharmacyInvoice req c) = Json 201 Undefined.
Proof.
  intros H.
  pose proof (Saving.resolveSettings_invoices (ph_user req) (core c))
    as (Ri & _).
  destruct (pharmacy_shape req c)
    as [E|[E|[(p' & e & _ & _ & E)
             |[E|(p & pd & r & its & Ep & Fp & Fi & Pi & _ & Eu & Bpt & Bd
                  & Ba & Bp & Bl & Bt & Bi & E)]]]];
    rewrite E in H |- *; cbn [snd fst] in H |- *; unfold set_core in H;
    cbn [core] in H; try rewrite Ri in H;
    try (exfalso; exact (Generated.app_eq_self _ _ H)).
  rewrite <- Ri in H.
  apply Generated.createInvoice_appended in H.
  apply Frame.createInvoice_fields in H.
  destruct H as (its' & B & It & _ & _ & _ & _ & _ & _ & _ & Hpt & Hd & Ha
                 & Hpr & Hl & Ht & _ & Hh & _).
  rewrite Bi in B. inversion B; subst its'. clear B.
  rewrite Bt in Ht. inversion Ht as [Ht'].
  destruct (pharmacyItems_some _ _ _ _ Pi) as (Q & A).
  exists p, pd.
  repeat apply conj; try congruence; auto.
  rewrite It, map_map. simpl. exact Q.
Qed.

(** Prescription 41 of the ward: ten tablets. *)
Lemma pharmacy_invoice_content_witness :
  exists created : Invoice,
    invoices (core (snd (generatePharmacyInvoice (Sample2.dispense 100%N 41%N)
                           Sample2.ward))) = [created] /\
    prescription created = Some 41%N /\
    map quantity (items created) = [Some 10%float].
Proof.
  exists (hd (Sample.walkIn 0%N "none" 0%N)
            (invoices
               (core (snd (generatePharmacyInvoice
                             (Sample2.dispense 100%N 41%N) Sample2.ward))))).
  destruct (pharmacy_invoice_content (Sample2.dispense 100%N 41%N)
              Sample2.ward
              (hd (Sample.walkIn 0%N "none" 0%N)
                 (invoices
                    (core (snd (generatePharmacyInvoice
                                  (Sample2.dispense 100%N 41%N)
                                  Sample2.ward))))) eq_refl)
    as (p & pd & Ep & Fp & Pc & _ & _ & _ & _ & _ & _ & Q & _).
  split; [reflexivity|].
  cbv in Ep. injection Ep as Ep. rewrite <- Ep in Pc, Fp.
  split; [exact Pc|].
  cbv in Fp. injection Fp as Fp. rewrite <- Fp in Q. exact Q.
Defined.

(** X21: a prescription with a medication that is not stored is not
    billed.  For a prescription that exists and has no invoice, when one of
    its medications is missing from the medications, the handler throws
    while it reads the price: the answer goes through [next] with the type
    error, no invoice is stored, and the settings of the hospital, which
    are resolved before the items are built, are in the database. *)
Theorem pharmacy_missing_medication
    (req : PharmacyReq) (c : Clinical) (p : ObjectId) (pd : Prescription)
    (med : PrescribedMedication) :
  ph_prescriptionId (ph_body req) = Some p ->
  find (fun x => N.eqb (prescription_id x) p) (prescriptions c) = Some pd ->
  find (Further.dispenses p) (invoices (core c)) = None ->
  In med (pr_medications pd) ->
  (forall m, In m (medications c) -> medication_id m <> pm_medication med) ->
  fst (generatePharmacyInvoice req c) = Next TypeError /\
  invoices (core (snd (generatePharmacyInvoice req c))) = invoices (core c) /\
  exists s : BillingSettings,
    In s (settings (core (snd (generatePharmacyInvoice req c)))) /\
    bs_hospital s = hospitalId (ph_user req).
Proof.
  intros Ep Fp Fi I N.
  pose proof (Saving.resolveSettings_invoices (ph_user req) (core c))
    as (Ri & _).
  assert (E : generatePharmacyInvoice req c
              = (Next TypeError,
                 set_core (snd (resolveSettings (ph_user req) (core c))) c)).
  { unfold generatePharmacyInvoice, catchAsyncC,
      generatePharmacyInvoiceHandler, InvoiceModel.findOne.
    rewrite Ep, Fp.
    change (fun i : Invoice =>
              match prescription i with
              | Some p0 => N.eqb p0 p
              | None => false
              end) with (Further.dispenses p).
    rewrite Fi.
    destruct (resolveSettings (ph_user req) (core c)) as [bs db1].
    now rewrite (pharmacyItems_none _ _ _ med I N). }
  rewrite E. cbn [fst snd]. unfold set_core. cbn [core].
  split; [reflexivity|]. split; [exact Ri|].
  exists (fst (resolveSettings (ph_user req) (core c))).
  destruct (SettingsProps.resolveSettings_cases (ph_user req) (core c))
    as [(t & F & R)|(F & R)]; rewrite R; cbn [fst snd].
  - apply find_some in F. destruct F as (It & Et).
    apply N.eqb_eq in Et. auto.
  - split; [|reflexivity]. simpl. apply in_or_app. right. simpl. auto.
Qed.

(** Prescription 42 of the ward names medication 32, which is not stored. *)
Lemma pharmacy_missing_medication_witness :
  fst (generatePharmacyInvoice (Sample2.dispense 100%N 42%N) Sample2.ward)
    = Next TypeError /\
  invoices (core (snd (generatePharmacyInvoice (Sample2.dispense 100%N 42%N)
                         Sample2.ward))) = [].
Proof.
  destruct (pharmacy_missing_medication (Sample2.dispense 100%N 42%N)
              Sample2.ward 42%N _ (Sample2.tablets 32%N)
              eq_refl eq_refl eq_refl (or_intror (or_introl eq_refl)))
    as (A & B & _).
  - simpl. intros m [E|[]]. subst m. simpl. discriminate.
  - split; [exact A|exact B].
Defined.

End PharmacyInvoices.

(** ** The pagination middleware *)

Module PaginationProps.

Import Pagination.

Local Open Scope Z_scope.

Lemma page_cases (q : Query) :
  match readInt (page q) with
  | Some n =>
      if 2 ^ 53 <? n then pg_page (paginate q) = Huge
      else if 0 <? n then pg_page (paginate q) = Int n
           else pg_page (paginate q) = Int 1
  | None => pg_page (paginate q) = Int 1
  end.
Proof.
  unfold paginate, parseInt, number. cbn [pg_page].
  destruct (readInt (page q)) as [n|]; cbn [option_map]; [|reflexivity].
  destruct (2 ^ 53 <? n) eqn:A; [reflexivity|].
  destruct (n <? - 2 ^ 53) eqn:B.
  - apply Z.ltb_lt in B.
    destruct (0 <? n) eqn:C; [apply Z.ltb_lt in C; lia|reflexivity].
  - destruct (0 <? n); reflexivity.
Qed.

Lemma limit_cases (q : Query) :
  pg_limit (paginate q)
    = match readInt (limit q) with
      | Some m => if 0 <? m then Z.min m 100 else 10
      | None => 10
      end.
Proof.
  unfold paginate, parseInt, number. cbn [pg_limit].
  destruct (readInt (limit q)) as [m|]; cbn [option_map]; [|reflexivity].
  destruct (2 ^ 53 <? m) eqn:A.
  - apply Z.ltb_lt in A.
    destruct (0 <? m) eqn:C; [lia|apply Z.ltb_ge in C; lia].
  - destruct (m <? - 2 ^ 53) eqn:B; [|reflexivity].
    apply Z.ltb_lt in B.
    destruct (0 <? m) eqn:C; [apply Z.ltb_lt in C; lia|reflexivity].
Qed.

Lemma skip_cases (q : Query) :
  pg_skip (paginate q)
    = match pg_page (paginate q) with
      | Int p => number ((p - 1) * pg_limit (paginate q))
      | Huge => Huge
      | MinusHuge => MinusHuge
      end.
Proof. reflexivity. Qed.

Lemma paginate_bounds_aux (q : Query) :
  (pg_page (paginate q) = Huge \/
   exists p, pg_page (paginate q) = Int p /\ 1 <= p <= 2 ^ 53) /\
  1 <= pg_limit (paginate q) <= 100.
Proof.
  split.
  - pose proof (page_cases q) as P.
    destruct (readInt (page q)) as [n|].
    + destruct (2 ^ 53 <? n) eqn:A; [now left|]. apply Z.ltb_ge in A.
      destruct (0 <? n) eqn:C; right.
      * apply Z.ltb_lt in C. exists n. split; [exact P|lia].
      * exists 1. split; [exact P|lia].
    + right. exists 1. split; [exact P|lia].
  - rewrite limit_cases.
    destruct (readInt (limit q)) as [m|]; [|lia].
    destruct (0 <? m) eqn:C; [apply Z.ltb_lt in C|]; lia.
Qed.

Lemma number_cases (z : Z) :
  (- 2 ^ 53 <= z <= 2 ^ 53 -> number z = Int z) /\
  (2 ^ 53 < z -> number z = Huge).
Proof.
  unfold number. split; intros H.
  - destruct (2 ^ 53 <? z) eqn:A; [apply Z.ltb_lt in A; lia|].
    destruct (z <? - 2 ^ 53) eqn:B; [apply Z.ltb_lt in B; lia|reflexivity].
  - apply Z.ltb_lt in H. now rewrite H.
Qed.



Lemma setKey_keys (key : string) (value : Z) (obj : list (string * Z))
    (k : string) :
  In k (map fst (setKey key value obj)) <-> k = key \/ In k (map fst obj).
Proof.
  induction obj as [|[k0 v0] r IH]; simpl; [intuition|].
  destruct (String.eqb k0 key) eqn:E; simpl.
  - apply String.eqb_eq in E. subst k0. intuition.
  - rewrite IH. intuition.
Qed.

Lemma setKey_NoDup (key : string) (value : Z) (obj : list (string * Z)) :
  NoDup (map fst obj) -> NoDup (map fst (setKey key value obj)).
Proof.
  induction obj as [|[k0 v0] r IH]; simpl; intros N.
  - repeat constructor. simpl. tauto.
  - inversion N as [|? ? Nk Nr]; subst.
    destruct (String.eqb k0 key) eqn:E; simpl.
    + constructor; assumption.
    + constructor; [|now apply IH].
      rewrite setKey_keys. intros [H|H]; [|contradiction].
      subst k0. rewrite String.eqb_refl in E. discriminate.
Qed.

Lemma setKey_values (P : Z -> Prop) (key : string) (value : Z)
    (obj : list (string * Z)) :
  P value -> (forall k v, In (k, v) obj -> P v) ->
  forall k v, In (k, v) (setKey key value obj) -> P v.
Proof.
  intros Pv. induction obj as [|[k0 v0] r IH]; simpl; intros A k v I.
  - destruct I as [I|[]]. inversion I; subst. exact Pv.
  - destruct (String.eqb k0 key); simpl in I.
    + destruct I as [I|I]; [inversion I; subst; exact Pv|].
      apply (A k v). now right.
    + destruct I as [I|I]; [apply (A k v); now left|].
      apply (IH (fun k v H => A k v (or_intror H)) k v I).
Qed.

Lemma lookup_setKey_same (key : string) (value : Z) (obj : list (string * Z)) :
  lookupKey key (setKey key value obj) = Some value.
Proof.
  unfold lookupKey. induction obj as [|[k0 v0] r IH]; simpl.
  - now rewrite String.eqb_refl.
  - destruct (String.eqb k0 key) eqn:E; simpl; rewrite E; [reflexivity|].
    exact IH.
Qed.

Lemma lookup_setKey_other (key k : string) (value : Z)
    (obj : list (string * Z)) :
  k <> key -> lookupKey k (setKey key value obj) = lookupKey k obj.
Proof.
  intros N. unfold lookupKey. induction obj as [|[k0 v0] r IH]; simpl.
  - destruct (String.eqb key k) eqn:E; [|reflexivity].
    apply String.eqb_eq in E. congruence.
  - destruct (String.eqb k0 key) eqn:E; simpl.
    + apply String.eqb_eq in E. subst k0.
      destruct (String.eqb key k) eqn:E2; [|reflexivity].
      apply String.eqb_eq in E2. congruence.
    + destruct (String.eqb k0 k); [reflexivity|exact IH].
Qed.

Lemma assign_keys (key : string) (value : Z) (obj : list (string * Z))
    (k : string) :
  In k (map fst (assign key value obj)) <->
  (k = key /\ key <> "__proto__"%string) \/ In k (map fst obj).
Proof.
  unfold assign. destruct (String.eqb key "__proto__") eqn:E.
  - apply String.eqb_eq in E. intuition.
  - apply String.eqb_neq in E. rewrite setKey_keys. intuition.
Qed.

Lemma assign_NoDup (key : string) (value : Z) (obj : list (string * Z)) :
  NoDup (map fst obj) -> NoDup (map fst (assign key value obj)).
Proof.
  unfold assign. destruct (String.eqb key "__proto__"); [auto|].
  apply setKey_NoDup.
Qed.

Lemma assign_values (P : Z -> Prop) (key : string) (value : Z)
    (obj : list (string * Z)) :
  P value -> (forall k v, In (k, v) obj -> P v) ->
  forall k v, In (k, v) (assign key value obj) -> P v.
Proof.
  unfold assign. destruct (String.eqb key "__proto__"); [auto|].
  apply setKey_values.
Qed.

Lemma lookup_assign_same (key : string) (value : Z) (obj : list (string * Z)) :
  key <> "__proto__"%string ->
  lookupKey key (assign key value obj) = Some value.
Proof.
  intros N. unfold assign. apply String.eqb_neq in N. rewrite N.
  apply lookup_setKey_same.
Qed.

Lemma lookup_assign_other (key k : string) (value : Z)
    (obj : list (string * Z)) :
  k <> key -> lookupKey k (assign key value obj) = lookupKey k obj.
Proof.
  intros N. unfold assign. destruct (String.eqb key "__proto__"); [reflexivity|].
  now apply lookup_setKey_other.
Qed.

Lemma sortStep_assign (obj : list (string * Z)) (field : string) :
  sortStep obj field
    = assign (Further.sortKey field) (Further.sortDirection field) obj.
Proof.
  unfold sortStep, Further.sortKey, Further.sortDirection.
  destruct field as [|c r]; [reflexivity|].
  destruct c as [[] [] [] [] [] [] [] []]; reflexivity.
Qed.

Lemma sort_direction (field : string) :
  Further.sortDirection field = 1 \/ Further.sortDirection field = -1.
Proof.
  unfold Further.sortDirection. destruct field as [|c r]; [auto|].
  destruct c as [[] [] [] [] [] [] [] []]; auto.
Qed.

Lemma fold_sort_invariant (l : list string) (obj : list (string * Z)) :
  NoDup (map fst obj) ->
  (forall k v, In (k, v) obj -> v = 1 \/ v = -1) ->
  NoDup (map fst (fold_left sortStep l obj)) /\
  (forall k v, In (k, v) (fold_left sortStep l obj) -> v = 1 \/ v = -1) /\
  (forall k, In k (map fst (fold_left sortStep l obj)) <->
             In k (map fst obj) \/
             exists f, In f l /\ Further.sortKey f = k /\
                       k <> "__proto__"%string).
Proof.
  revert obj. induction l as [|f l IH]; simpl; intros obj N V.
  - split; [exact N|]. split; [exact V|].
    intros k. split; [auto|]. intros [H|(f & [] & _)]. exact H.
  - rewrite sortStep_assign.
    destruct (IH (assign (Further.sortKey f) (Further.sortDirection f) obj))
      as (A & B & C).
    + now apply assign_NoDup.
    + apply assign_values; [apply sort_direction|exact V].
    + split; [exact A|]. split; [exact B|].
      intros k. rewrite C, assign_keys. split.
      * intros [[(H & Np)|H]|(g & Ig & Eg)]; [|auto|].
        -- right. exists f. subst k. auto.
        -- right. destruct Eg as (Eg & Np). exists g. auto.
      * intros [H|(g & [Eg|Ig] & Ek & Np)]; [auto| |].
        -- subst g. left. left. subst k. auto.
        -- right. exists g. auto.
Qed.

Lemma fold_sort_keeps (l : list string) (obj : list (string * Z))
    (k : string) :
  (forall g, In g l -> Further.sortKey g <> k) ->
  lookupKey k (fold_left sortStep l obj) = lookupKey k obj.
Proof.
  revert obj. induction l as [|f l IH]; simpl; intros obj N; [reflexivity|].
  rewrite IH by (intros g Ig; apply N; now right).
  rewrite sortStep_assign. apply lookup_assign_other.
  intros E. apply (N f); auto.
Qed.

(** X23: the sort object of the middleware.  For a sort parameter that is
    not empty, the object has one property for each key named by a field of
    the list (a field [-name] names [name]), the key [__proto__] apart,
    which gives no property; each property has the value 1 or -1, and the
    value of a key is the direction of the last field that names it: -1
    when that field starts with a minus sign, else 1.  Without the
    parameter, or with an empty one, there is no sort object. *)
Theorem paginate_sort (q : Query) :
  (forall s : string,
     sort q = Some s -> s <> ""%string ->
     exists obj : list (string * Z),
       pg_sort (paginate q) = Some obj /\
       NoDup (map fst obj) /\
       (forall k v, In (k, v) obj -> v = 1 \/ v = -1) /\
       (forall k, In k (map fst obj) <->
                  exists f, In f (splitComma EmptyString s) /\
                            Further.sortKey f = k /\
                            k <> "__proto__"%string) /\
       (forall before f after,
          splitComma EmptyString s = (before ++ f :: after)%list ->
          Further.sortKey f <> "__proto__"%string ->
          (forall g, In g after ->
                     Further.sortKey g <> Further.sortKey f) ->
          lookupKey (Further.sortKey f) obj
            = Some (Further.sortDirection f))) /\
  (sort q = None \/ sort q = Some ""%string -> pg_sort (paginate q) = None).
Proof.
  split.
  - intros s Es Ns. unfold paginate. cbn [pg_sort]. rewrite Es.
    assert (T : JS.truthy_str s = true).
    { unfold JS.truthy_str. destruct (String.eqb s "") eqn:E; [|reflexivity].
      apply String.eqb_eq in E. contradiction. }
    rewrite T. eexists. split; [reflexivity|].
    destruct (fold_sort_invariant (splitComma EmptyString s) [])
      as (A & B & C); [constructor|intros k v []|].
    split; [exact A|]. split; [exact B|]. split.
    + intros k. rewrite C. simpl. intuition.
    + intros before f after E Np N. rewrite E, fold_left_app. simpl.
      rewrite (fold_sort_keeps after _ _ N), sortStep_assign.
      now apply lookup_assign_same.
  - unfold paginate. cbn [pg_sort]. intros [E|E]; rewrite E; reflexivity.
Qed.

(** The parameter [name,-createdAt,-name]: name descending, after
    createdAt descending... *)
Lemma paginate_sort_witness :
  exists obj : list (string * Z),
    pg_sort (paginate {| page := None; limit := None;
                         sort := Some "name,-createdAt,-name"%string;
                         fields := None |}) = Some obj /\
    lookupKey "name" obj = Some (-1) /\
    lookupKey "createdAt" obj = Some (-1).
Proof.
  destruct (proj1 (paginate_sort
                     {| page := None; limit := None;
                        sort := Some "name,-createdAt,-name"%string;
                        fields := None |})
              "name,-createdAt,-name"%string eq_refl)
    as (obj & E & _ & _ & _ & L); [discriminate|].
  exists obj. split; [exact E|]. split.
  - apply (L ["name"; "-createdAt"]%string "-name"%string []);
      [reflexivity|discriminate|intros g []].
  - apply (L ["name"]%string "-createdAt"%string ["-name"]%string);
      [reflexivity|discriminate|].
    intros g [H|[]]. subst g. discriminate.
Defined.




(** X24: the metadata of a page agree with the pagination of the
    middleware.  For a count that is not negative, [totalPages] is the
    least number of pages of [limit] items that hold [total] items;
    [hasPrev] says that the page is not the first; [hasNext] says that the
    page is before the last, which is the case exactly when items remain
    after the [skip + limit] first; and without items there is no page and
    no next page.  The page and the skip are numbers of the program: for a
    page [p] that is an integer the skip stands for (p - 1) * limit, and it
    is that integer whenever it is not huge; a huge page has a page before
    it, and no page after it for a count below 2^53, as has every page
    whose skip is huge. *)
Theorem paginationMetadata_consistent (total : Z) (q : Query) :
  0 <= total ->
  0 <= totalPages (paginationMetadata total (paginate q)) /\
  total <= totalPages (paginationMetadata total (paginate q))
           * pg_limit (paginate q) /\
  totalPages (paginationMetadata total (paginate q)) * pg_limit (paginate q)
    < total + pg_limit (paginate q) /\
  (forall p, pg_page (paginate q) = Int p ->
     (hasPrev (paginationMetadata total (paginate q)) = true <-> 1 < p) /\
     (hasNext (paginationMetadata total (paginate q)) = true <->
      (p - 1) * pg_limit (paginate q) + pg_limit (paginate q) < total)) /\
  (forall s, pg_skip (paginate q) = Int s ->
     (hasNext (paginationMetadata total (paginate q)) = true <->
      s + pg_limit (paginate q) < total)) /\
  (pg_page (paginate q) = Huge ->
   hasPrev (paginationMetadata total (paginate q)) = true) /\
  (pg_skip (paginate q) = Huge -> total < 2 ^ 53 ->
   hasNext (paginationMetadata total (paginate q)) = false) /\
  (total = 0 ->
   totalPages (paginationMetadata total (paginate q)) = 0 /\
   hasNext (paginationMetadata total (paginate q)) = false) /\
  md_currentPage (paginationMetadata total (paginate q)) = pg_page (paginate q) /\
  perPage (paginationMetadata total (paginate q)) = pg_limit (paginate q).
Proof.
  intros T.
  destruct (paginate_bounds_aux q) as (Pp & Pl).
  pose proof (skip_cases q) as Ps.
  unfold paginationMetadata.
  cbn [totalPages hasPrev hasNext md_currentPage perPage].
  set (l := pg_limit (paginate q)) in *.
  set (n := (total + l - 1) / l).
  assert (D : total + l - 1 = l * n + (total + l - 1) mod l)
    by (apply Z.div_mod; lia).
  assert (M : 0 <= (total + l - 1) mod l < l) by (apply Z.mod_pos_bound; lia).
  assert (N0 : 0 <= n) by (apply Z.div_pos; lia).
  assert (B1 : total <= n * l) by nia.
  assert (B2 : n * l < total + l) by nia.
  assert (Next : forall p, pg_page (paginate q) = Int p ->
                   (below (pg_page (paginate q)) n = true <->
                    (p - 1) * l + l < total)).
  { intros p E. rewrite E. cbn [below]. rewrite Z.ltb_lt. split; nia. }
  split; [exact N0|]. split; [exact B1|]. split; [exact B2|].
  split; [|split; [|split; [|split; [|split]]]].
  - intros p E. split; [|now apply Next].
    rewrite E. cbn [above]. apply Z.ltb_lt.
  - intros s E.
    destruct Pp as [Pp|(p & Pp & Bp)]; rewrite Pp in Ps;
      [rewrite Ps in E; discriminate|].
    rewrite (Next p Pp).
    rewrite Ps in E. unfold number in E.
    destruct (2 ^ 53 <? (p - 1) * l); [discriminate|].
    destruct ((p - 1) * l <? - 2 ^ 53); [discriminate|].
    inversion E. reflexivity.
  - intros E. now rewrite E.
  - intros E B.
    destruct Pp as [Pp|(p & Pp & Bp)]; [now rewrite Pp|].
    pose proof (Next p Pp) as Ne.
    destruct (below (pg_page (paginate q)) n); [|reflexivity].
    assert (W : (p - 1) * l + l < total) by (now apply Ne).
    rewrite Pp in Ps. rewrite Ps in E.
    destruct (number_cases ((p - 1) * l)) as (N1 & _).
    destruct (Z_le_gt_dec ((p - 1) * l) (2 ^ 53)) as [Le|Gt];
      [rewrite N1 in E by nia; discriminate|nia].
  - intros Z0.
    assert (n = 0) by nia.
    split; [assumption|].
    destruct Pp as [Pp|(p & Pp & Bp)]; rewrite Pp; cbn [below];
      [reflexivity|apply Z.ltb_ge; lia].
  - split; reflexivity.
Qed.

(** Twenty-five items in pages of ten: the third page, of skip 20, is the
    last. *)
Lemma paginationMetadata_consistent_witness :
  totalPages (paginationMetadata 25 (paginate Sample2.thirdPage)) = 3 /\
  pg_skip (paginate Sample2.thirdPage) = Int 20 /\
  hasNext (paginationMetadata 25 (paginate Sample2.thirdPage)) <> true /\
  hasPrev (paginationMetadata 25 (paginate Sample2.thirdPage)) = true.
Proof.
  assert (T : 0 <= 25) by lia.
  destruct (paginationMetadata_consistent 25 Sample2.thirdPage T)
    as (_ & _ & _ & P & N & _).
  split; [reflexivity|]. split; [reflexivity|]. split.
  - intros H. apply (N 20 eq_refl) in H. cbv in H. discriminate.
  - apply (proj1 (P 3 eq_refl)). lia.
Defined.

End PaginationProps.

(** ** Identities and numbers stay unique *)

Module Uniqueness.

Import BillingController BillingSources.

Lemma createInvoice_keeps (r : CreateInvoiceReq) (db : DB) :
  Further.uniqueInvoices (invoices db) ->
  Further.uniqueInvoices (invoices (snd (createInvoice r db))).
Proof.
  intros U.
  destruct (Handlers.createInvoice_cases r db)
    as [(err & _ & E)|(doc & _ & _ & E & _ & _ & _ & _ & _ & X)];
    rewrite E; [exact U|].
  apply NumberingProps.insert_unique; [exact U|].
  unfold Mongoose.preSave.
  destruct (Saving.derive_fields (now (cr_env r)) doc) as (F1 & F2 & _).
  now rewrite F1, F2.
Qed.

Lemma updateInvoicePayment_keeps (r : PaymentReq) (db : DB) :
  Further.uniqueInvoices (invoices db) ->
  Further.uniqueInvoices (invoices (snd (updateInvoicePayment r db))).
Proof.
  intros U.
  destruct (Handlers.updateInvoicePayment_cases r db)
    as [(err & _ & E)|(old & doc & F & D & _ & _ & E)];
    rewrite E; [exact U|].
  apply PaymentState.findById_some in F. destruct F as (I & _).
  assert (P : Further.samePayload old doc).
  { subst doc.
    apply (Frame.samePayload_trans old (applyPayment (pr_body r) old));
      [apply Frame.applyPayment_samePayload|apply Frame.derive_samePayload]. }
  destruct P as (P1 & P2 & _).
  apply NumberingProps.replace_unique; auto.
Qed.

Lemma resolveSettings_keeps (u : User) (db : DB) :
  Further.uniqueInvoices (invoices db) ->
  Further.uniqueInvoices (invoices (snd (resolveSettings u db))).
Proof.
  intros U.
  destruct (Saving.resolveSettings_invoices u db) as (E & _). now rewrite E.
Qed.

(** X25: no two stored invoices ever share an [_id] or an invoice number.
    If this holds of the database, it holds after [createInvoice],
    [updateInvoicePayment], [generateConsultationInvoice],
    [generateLabInvoice], [generatePharmacyInvoice] and the walk-in
    [createLaboratoryInvoice], whatever they answer: a creation whose [_id]
    or number is taken is refused by the unique index, and a payment update
    keeps both. *)
Theorem invoices_stay_unique :
  (forall (r : CreateInvoiceReq) (db : DB),
     Further.uniqueInvoices (invoices db) ->
     Further.uniqueInvoices (invoices (snd (createInvoice r db)))) /\
  (forall (r : PaymentReq) (db : DB),
     Further.uniqueInvoices (invoices db) ->
     Further.uniqueInvoices (invoices (snd (updateInvoicePayment r db)))) /\
  (forall (r : ConsultationReq) (db : DB),
     Further.uniqueInvoices (invoices db) ->
     Further.uniqueInvoices
       (invoices (snd (generateConsultationInvoice r db)))) /\
  (forall (r : LabReq) (c : Clinical),
     Further.uniqueInvoices (invoices (core c)) ->
     Further.uniqueInvoices
       (invoices (core (snd (generateLabInvoice r c))))) /\
  (forall (r : PharmacyReq) (c : Clinical),
     Further.uniqueInvoices (invoices (core c)) ->
     Further.uniqueInvoices
       (invoices (core (snd (generatePharmacyInvoice r c))))) /\
  (forall (r : WalkInCreation.LaboratoryReq) (db : DB),
     Further.uniqueInvoices (invoices db) ->
     Further.uniqueInvoices
       (invoices (snd (WalkInCreation.createLaboratoryInvoice r db)))).
Proof.
  repeat apply conj.
  - exact createInvoice_keeps.
  - exact updateInvoicePayment_keeps.
  - intros r db U.
    destruct (Generated.consultation_shape r db)
      as [E|[E|[(e & E)|[E|(a & ap & d & r' & it & _ & _ & _ & _ & _ & _ & _
                            & _ & _ & _ & _ & _ & _ & _ & _ & _ & _ & _
                            & E)]]]];
      rewrite E; cbn [snd]; auto using resolveSettings_keeps.
    apply createInvoice_keeps. now apply resolveSettings_keeps.
  - intros r c U.
    destruct (LabInvoices.lab_shape r c)
      as [E|[E|[E|(ids & pid & r' & _ & _ & _ & _ & _ & _ & _ & _ & _ & _
                   & _ & _ & _ & E)]]];
      rewrite E; cbn [snd]; auto.
    unfold set_core. cbn [core].
    apply createInvoice_keeps. now apply resolveSettings_keeps.
  - intros r c U.
    destruct (PharmacyInvoices.pharmacy_shape r c)
      as [E|[E|[(p & e & _ & _ & E)
               |[E|(p & pd & r' & its & _ & _ & _ & _ & _ & _ & _ & _ & _
                    & _ & _ & _ & _ & E)]]]];
      rewrite E; cbn [snd]; auto; unfold set_core; cbn [core].
    + now apply resolveSettings_keeps.
    + apply createInvoice_keeps. now apply resolveSettings_keeps.
  - intros r db U.
    destruct (WalkInProps.createLaboratoryInvoice_cases r db)
      as [(st & msg & E & _)
         |(doc & h & cr & _ & _ & _ & _ & _ & _ & _ & _ & _ & _ & _ & _ & _
           & X & E)];
      rewrite E; cbn [snd]; [exact U|].
    unfold set_invoices. cbn [invoices].
    apply NumberingProps.insert_unique; [exact U|].
    unfold Mongoose.preSave.
    destruct (Saving.derive_fields (now (WalkInCreation.wl_env r)) doc)
      as (F1 & F2 & _).
    now rewrite F1, F2.
Qed.

(** The invoices of the two hospitals stay unique when the January
    invoice is paid. *)
Lemma invoices_stay_unique_witness :
  Further.uniqueInvoices
    (invoices
       (snd (updateInvoicePayment
               (Sample.payment 100%N Sample.february (Some 500%float))
               Sample.twoHospitals))).
Proof.
  apply (proj1 (proj2 invoices_stay_unique)
           (Sample.payment 100%N Sample.february (Some 500%float))
           Sample.twoHospitals).
  split; simpl; repeat constructor; simpl; intuition discriminate.
Defined.

End Uniqueness.

(** ** The walk-in pharmacy invoice *)

Module WalkInPharmacyProps.

Import WalkInCreation WalkInPharmacy.

Lemma lineItems_quantities (g : JS.Number)
    (found : list BillingSources.Medication) (l : list ItemInput)
    (its : list InvoiceItem) :
  lineItems g found l = Some its ->
  map quantity its = map ii_quantity l.
Proof.
  revert its. induction l as [|item r IH]; simpl; intros its H.
  - now inversion H.
  - destruct (find _ found) as [m|]; [|discriminate].
    destruct (lineItems g found r) as [items|]; [|discriminate].
    inversion H; subst its. simpl. now rewrite (IH items eq_refl).
Qed.

(** The medications found keep distinct [_id]s. *)
Lemma found_distinct (meds : list BillingSources.Medication)
    (ids : list ObjectId) :
  NoDup (map BillingSources.medication_id meds) ->
  NoDup
    (map BillingSources.medication_id
       (filter
          (fun med => existsb (N.eqb (BillingSources.medication_id med)) ids)
          meds)).
Proof.
  intros N. induction meds as [|m meds IH]; simpl; [constructor|].
  simpl in N. apply NoDup_cons_iff in N. destruct N as (Nm & Nr).
  destruct (existsb (N.eqb (BillingSources.medication_id m)) ids); simpl.
  - apply NoDup_cons; [|exact (IH Nr)].
    intros I. apply Nm. apply in_map_iff in I. destruct I as (y & E & I).
    apply filter_In in I. apply in_map_iff. exists y. tauto.
  - exact (IH Nr).
Qed.

(** When as many medications are found as there are lines, no two lines
    name the same medication and every line names a stored one. *)
Lemma found_all (meds : list BillingSources.Medication)
    (ids : list ObjectId) :
  NoDup (map BillingSources.medication_id meds) ->
  List.length
    (filter (fun med => existsb (N.eqb (BillingSources.medication_id med)) ids)
       meds) = List.length ids ->
  NoDup ids /\
  forall id, In id ids ->
    exists m, In m meds /\ BillingSources.medication_id m = id.
Proof.
  intros N L.
  set (fs := filter (fun med =>
                       existsb (N.eqb (BillingSources.medication_id med)) ids)
               meds) in *.
  assert (Nf : NoDup (map BillingSources.medication_id fs))
    by (now apply found_distinct).
  assert (I : incl (map BillingSources.medication_id fs) ids).
  { intros id H. apply in_map_iff in H. destruct H as (m & E & H).
    apply filter_In in H. destruct H as (_ & H).
    apply existsb_exists in H. destruct H as (x & Ix & Ex).
    apply N.eqb_eq in Ex. rewrite <- E, Ex. exact Ix. }
  assert (Le : List.length ids
               <= List.length (map BillingSources.medication_id fs))
    by (rewrite length_map; lia).
  split.
  - exact (NoDup_incl_NoDup Nf Le I).
  - intros id Iid.
    pose proof (NoDup_length_incl Nf Le I id Iid) as H.
    apply in_map_iff in H. destruct H as (m & E & H).
    apply filter_In in H. exists m. tauto.
Qed.

(** X26: a sale at the counter must name each medication once, and only
    stored ones.  For a request with a customer name, of a user whose
    hospital exists, when two lines name the same medication, or a line
    names a medication that is not stored, [createPharmacyInvoice] answers
    400 "One or more medications not found" and writes nothing: the
    number of medications found is compared with the number of lines. *)
Theorem walk_in_pharmacy_lines (req : SaleReq)
    (meds : list BillingSources.Medication) (db : DB) (name : string)
    (its : list ItemInput) (h : ObjectId) :
  wp_customerName (wp_body req) = Some name -> name <> ""%string ->
  wp_items (wp_body req) = Some its ->
  st_hospital (wp_user req) = Some h -> In h (hospitals db) ->
  NoDup (map BillingSources.medication_id meds) ->
  ~ NoDup (map ii_medicationId its) \/
  (exists item, In item its /\
     forall m, In m meds ->
               BillingSources.medication_id m <> ii_medicationId item) ->
  createPharmacyInvoice req meds db
    = (Json 400 (WalkInFailure "One or more medications not found"), db).
Proof.
  intros En Nn Ei Eh Ih N Bad.
  assert (T : JS.truthy_str name = true).
  { unfold JS.truthy_str. destruct (String.eqb name "") eqn:E; [|reflexivity].
    apply String.eqb_eq in E. contradiction. }
  assert (Hh : existsb (N.eqb h) (hospitals db) = true)
    by (apply existsb_exists; exists h; split; [exact Ih|apply N.eqb_refl]).
  unfold createPharmacyInvoice. rewrite En, Ei.
  destruct its as [|item rest].
  { exfalso. destruct Bad as [B|(x & [] & _)]. apply B. constructor. }
  rewrite T, Eh, Hh. cbn [negb].
  match goal with
  | |- context [(?a =? ?b)%nat] => destruct (a =? b)%nat eqn:L
  end; [|reflexivity].
  exfalso. apply Nat.eqb_eq in L.
  destruct (found_all meds _ N L) as (Nd & All).
  destruct Bad as [B|(x & Ix & Nx)]; [exact (B Nd)|].
  destruct (All (ii_medicationId x)) as (m & Im & Em).
  - apply in_map. exact Ix.
  - exact (Nx m Im Em).
Qed.

(** Two lines of paracetamol, and a line of a medication that is not
    stored. *)
Lemma walk_in_pharmacy_lines_witness :
  createPharmacyInvoice
    (Sample2.counterSale Sample2.paracetamolTwice)
    (BillingSources.medications Sample2.ward) Sample.clinic
  = (Json 400 (WalkInFailure "One or more medications not found"),
     Sample.clinic) /\
  createPharmacyInvoice (Sample2.counterSale Sample2.unknownMedication)
    (BillingSources.medications Sample2.ward) Sample.clinic
  = (Json 400 (WalkInFailure "One or more medications not found"),
     Sample.clinic).
Proof.
  split.
  - apply (walk_in_pharmacy_lines
             (Sample2.counterSale Sample2.paracetamolTwice)
             (BillingSources.medications Sample2.ward) Sample.clinic
             "R. Kumar" Sample2.paracetamolTwice 1%N);
      try reflexivity.
    + discriminate.
    + simpl. auto.
    + simpl. repeat constructor. simpl. tauto.
    + left. simpl. intros H. inversion H as [|? ? X _]. apply X. simpl. auto.
  - apply (walk_in_pharmacy_lines
             (Sample2.counterSale Sample2.unknownMedication)
             (BillingSources.medications Sample2.ward) Sample.clinic
             "R. Kumar" Sample2.unknownMedication 1%N);
      try reflexivity.
    + discriminate.
    + simpl. auto.
    + simpl. repeat constructor. simpl. tauto.
    + right. exists (Sample2.line 32%N 1%float). split; [simpl; auto|].
      simpl. intros m [E|[]]. subst m. simpl. discriminate.
Defined.

(** [createPharmacyInvoice] either answers 400, 404 or 500 and writes
    nothing, or appends one validated walk-in document and answers 201. *)
Lemma createPharmacyInvoice_cases (req : SaleReq)
    (meds : list BillingSources.Medication) (db : DB) :
  (exists (st : nat) (msg : string),
     createPharmacyInvoice req meds db = (Json st (WalkInFailure msg), db) /\
     (st = 400 \/ st = 404 \/ st = 500)) \/
  (exists (doc : Invoice) (h creator : ObjectId) (l : list ItemInput),
     st_hospital (wp_user req) = Some h /\
     In h (hospitals db) /\
     st_id (wp_user req) = Some creator /\
     wp_items (wp_body req) = Some l /\
     List.length
       (filter (fun med =>
                  existsb (N.eqb (BillingSources.medication_id med))
                    (map ii_medicationId l)) meds)
       = List.length (map ii_medicationId l) /\
     Mongoose.validate doc = true /\
     _id doc = freshId (wp_env req) /\
     customerType doc = walk_in /\ patient doc = None /\
     invoiceType doc = "pharmacy"%string /\
     hospital doc = h /\ createdBy doc = creator /\
     map quantity (items doc) = map ii_quantity l /\
     existsb (fun i => N.eqb (_id i) (_id doc) ||
                       String.eqb (invoiceNumber i) (invoiceNumber doc))
       (invoices db) = false /\
     createPharmacyInvoice req meds db
       = (Json 201 (WalkInData (Mongoose.preSave (now (wp_env req)) doc)),
          set_invoices
            (invoices db ++ [Mongoose.preSave (now (wp_env req)) doc])%list
            db)).
Proof.
  unfold createPharmacyInvoice, pharmacyFailed.
  destruct (wp_customerName (wp_body req)) as [name|];
    [|left; do 2 eexists; split; [reflexivity|auto]].
  destruct (wp_items (wp_body req)) as [[|item rest]|];
    try (left; do 2 eexists; split; [reflexivity|auto]).
  destruct (negb (JS.truthy_str name));
    [left; do 2 eexists; split; [reflexivity|auto]|].
  destruct (st_hospital (wp_user req)) as [h|];
    [|left; do 2 eexists; split; [reflexivity|auto]].
  destruct (existsb (N.eqb h) (hospitals db)) eqn:Hh; cbn [negb];
    [|left; do 2 eexists; split; [reflexivity|auto]].
  match goal with
  | |- context [(?a =? ?b)%nat] => destruct (a =? b)%nat eqn:L
  end; cbn [negb]; [|left; do 2 eexists; split; [reflexivity|auto]].
  match goal with
  | |- context [lineItems ?g ?f ?l] =>
      destruct (lineItems g f l) as [its|] eqn:Li
  end; [|left; do 2 eexists; split; [reflexivity|auto]].
  destruct (st_id (wp_user req)) as [creator|];
    [|left; do 2 eexists; split; [reflexivity|auto]].
  match goal with
  | |- context [Store.save ?n true ?d ?c] =>
      destruct (Store.save n true d c) as [err|[saved coll]] eqn:S
  end; [left; do 2 eexists; split; [reflexivity|auto]|].
  right. apply Saving.save_ok in S. destruct S as (V & E & C & U).
  specialize (U eq_refl). subst saved coll.
  match type of V with
  | Mongoose.validate ?d = true =>
      destruct (Saving.derive_fields (now (wp_env req)) d) as (F1 & F2 & _);
      exists d, h, creator, (item :: rest)
  end.
  unfold Mongoose.preSave in *. rewrite F1, F2 in U.
  apply existsb_exists in Hh. destruct Hh as (x & Ix & Ex).
  apply N.eqb_eq in Ex. subst x. apply Nat.eqb_eq in L.
  apply lineItems_quantities in Li.
  repeat apply conj; try reflexivity; auto.
Qed.

(** X27: a walk-in pharmacy invoice that is answered 201 is stored, at the
    end of the collection, as a walk-in invoice of type pharmacy of the
    hospital of the user, which exists, with no patient; it has one item
    for each line of the request, in order, with the quantity of the line;
    when no two stored medications share an [_id], no two lines name the
    same medication; its payment state is the one the pre-save hook derives
    from its amounts; nothing else is written; and [getWalkInInvoiceById]
    of a user of that hospital then answers 200 with the same invoice. *)
Theorem walk_in_pharmacy_invoice_stored (req : SaleReq)
    (meds : list BillingSources.Medication) (db : DB) (saved : Invoice) :
  fst (createPharmacyInvoice req meds db) = Json 201 (WalkInData saved) ->
  snd (createPharmacyInvoice req meds db)
    = set_invoices (invoices db ++ [saved])%list db /\
  customerType saved = walk_in /\ patient saved = None /\
  invoiceType saved = "pharmacy"%string /\
  st_hospital (wp_user req) = Some (hospital saved) /\
  In (hospital saved) (hospitals db) /\
  st_id (wp_user req) = Some (createdBy saved) /\
  Some (map quantity (items saved))
    = option_map (map ii_quantity) (wp_items (wp_body req)) /\
  (NoDup (map BillingSources.medication_id meds) ->
   forall l, wp_items (wp_body req) = Some l ->
             NoDup (map ii_medicationId l)) /\
  Spec.statusIff saved /\
  WalkInController.getWalkInInvoiceById
    {| WalkInController.wu_hospital := hospital saved |} (_id saved)
    (snd (createPharmacyInvoice req meds db))
  = Json 200 (WalkInData saved).
Proof.
  intros H.
  destruct (createPharmacyInvoice_cases req meds db)
    as [(st & msg & E & _)
       |(doc & h & creator & l & Hh & Ih & Hc & El & Len & V & Ei & Ec & Ep
         & Et & Eh & Eb & Eq & X & E)];
    rewrite E in H; simpl in H; [discriminate|].
  inversion H; subst saved. clear H. rewrite E. simpl snd.
  unfold Mongoose.preSave in *.
  destruct (Frame.derive_samePayload (now (wp_env req)) doc)
    as (P1 & _ & _ & _ & P5 & P6 & _ & _ & _ & _ & _ & P12 & P13 & _ & _ & _
        & _ & _ & _ & P20 & P21).
  rewrite <- P5, <- P6, <- P12, <- P13, <- P20, <- P21, <- P1.
  do 7 (split; [solve [auto | congruence]|]).
  split; [rewrite El; simpl; now rewrite Eq|].
  split.
  { intros N l' El'. rewrite El in El'. inversion El'; subst l'.
    exact (proj1 (found_all meds _ N Len)). }
  split.
  - now apply PaymentState.saved_statusIff.
  - unfold WalkInController.getWalkInInvoiceById, InvoiceModel.findOne.
    unfold set_invoices. cbn [invoices].
    rewrite (Frame.find_snoc_fresh _ (invoices db)
               (Mongoose.derive (now (wp_env req)) doc)).
    + reflexivity.
    + destruct (existsb
                  (WalkInController.walkInFilter
                     {| WalkInController.wu_hospital := hospital doc |}
                     (_id doc)) (invoices db)) eqn:Y; [|reflexivity].
      apply existsb_exists in Y. destruct Y as (i & I & Fi).
      unfold WalkInController.walkInFilter in Fi. simpl in Fi.
      apply andb_true_iff in Fi. destruct Fi as (Fi & _).
      apply andb_true_iff in Fi. destruct Fi as (Fi & _).
      assert (T : existsb
                    (fun j => N.eqb (_id j) (_id doc) ||
                              String.eqb (invoiceNumber j) (invoiceNumber doc))
                    (invoices db) = true)
        by (apply existsb_exists; exists i; split; [exact I|now rewrite Fi]).
      congruence.
    + unfold WalkInController.walkInFilter. simpl.
      rewrite <- P1, <- P5, <- P21, Ec, !N.eqb_refl. reflexivity.
Qed.

(** Ten tablets of paracetamol at 2: the invoice PH-2501-0001 of 23.6. *)
Lemma walk_in_pharmacy_invoice_stored_witness :
  exists saved : Invoice,
    fst (createPharmacyInvoice (Sample2.counterSale Sample2.tenTablets)
           (BillingSources.medications Sample2.ward) Sample.clinic)
      = Json 201 (WalkInData saved) /\
    invoiceNumber saved = "PH-2501-0001"%string /\
    totalAmount saved = 23.6%float /\ paymentStatus saved = unpaid /\
    Spec.statusIff saved.
Proof.
  eexists. split; [lazy; reflexivity|].
  do 3 (split; [reflexivity|]).
  match goal with
  | |- Spec.statusIff ?s =>
      destruct (walk_in_pharmacy_invoice_stored
                  (Sample2.counterSale Sample2.tenTablets)
                  (BillingSources.medications Sample2.ward) Sample.clinic
                  s eq_refl)
        as (_ & _ & _ & _ & _ & _ & _ & _ & _ & S & _);
      exact S
  end.
Defined.

(** X28: POST /pharmacy/invoice never stores an invoice either: with the
    user that [authenticate] attaches, the route answers 403 (a role that
    is not admin, pharmacist or staff), 400 (no customer name or no item)
    or 404 "Hospital not found", and writes nothing. *)
Theorem walk_in_pharmacy_route_refuses (decoded : Auth.Decoded) (env : Env)
    (body : SaleBody) (meds : list BillingSources.Medication) (db : DB) :
  snd (WalkInRoutes.postPharmacyInvoice decoded env body meds db) = db /\
  ((exists msg : string,
      fst (WalkInRoutes.postPharmacyInvoice decoded env body meds db)
        = WalkInRoutes.Refused 403 msg /\
      existsb (String.eqb (Auth.d_role decoded))
        ["admin"; "pharmacist"; "staff"] = false) \/
   (existsb (String.eqb (Auth.d_role decoded))
      ["admin"; "pharmacist"; "staff"] = true /\
    (fst (WalkInRoutes.postPharmacyInvoice decoded env body meds db)
       = WalkInRoutes.Handled
           (Json 400 (WalkInFailure
              "Customer name and at least one item are required")) \/
     fst (WalkInRoutes.postPharmacyInvoice decoded env body meds db)
       = WalkInRoutes.Handled
           (Json 404 (WalkInFailure "Hospital not found"))))).
Proof.
  unfold WalkInRoutes.postPharmacyInvoice, Auth.authorize, Auth.attach.
  cbn [Auth.get find fst snd String.eqb Ascii.eqb Bool.eqb option_map
       Auth.rolesInclude negb].
  set (r := Auth.d_role decoded).
  assert (R : existsb (String.eqb r) ["admin"; "pharmacist"; "staff"] = true
              -> existsb (String.eqb r)
                   ["admin"; "pharmacist"; "staff"; "lab_technician"] = true).
  { simpl. intros H.
    destruct (String.eqb r "admin"); [reflexivity|].
    destruct (String.eqb r "pharmacist"); [now rewrite !orb_true_r|].
    destruct (String.eqb r "staff"); [now rewrite !orb_true_r|].
    discriminate. }
  destruct (existsb (String.eqb r) ["admin"; "pharmacist"; "staff"]) eqn:A.
  - rewrite (R eq_refl). cbn [negb].
    unfold createPharmacyInvoice, WalkInRoutes.staffOf.
    cbn [wp_body wp_user wp_env st_hospital st_id Auth.get find fst snd
         String.eqb Ascii.eqb Bool.eqb option_map WalkInRoutes.idOf].
    destruct (wp_customerName body) as [name|]; [|split; [reflexivity|auto]].
    destruct (wp_items body) as [[|t l]|]; try (split; [reflexivity|auto]).
    destruct (negb (JS.truthy_str name)); split; auto.
  - destruct (negb (existsb (String.eqb r)
                      ["admin"; "pharmacist"; "staff"; "lab_technician"]));
      cbn [negb]; split; try reflexivity; left; eexists; split; reflexivity.
Qed.

End WalkInPharmacyProps.
